(** * M2M100 (NLLB) port to MLX: a shallow embedding of [m2m_100/m2m_100.py]
      and of the greedy decode loop of [m2m_100/test.py].

    Layout of the development:
    - Python exceptions and results, the [print]-ing interpreter monad;
    - [mx.array] as a shape with row-major data, and the array primitives the
      model calls (reshape, transpose, concatenate, matmul, broadcasting,
      softmax, argmax, indexing);
    - the modules of [m2m_100.py], one Rocq function per Python method, with
      the same names and the same statement order;
    - the decode loop of [test.py];
    - the properties of the specification, stated on these functions. *)

From Stdlib Require Import String Ascii.
From Stdlib Require Import List ZArith Lia Bool Arith PeanoNat.
From Stdlib Require Import DecimalString.
From Stdlib Require Import Reals Lra.
Import ListNotations.

Local Open Scope nat_scope.
Local Open Scope list_scope.

(* ================================================================= *)
(** ** Python exceptions, results *)

(** The exception classes the program and its libraries raise.  The message
    is the text Python would show.  Messages raised by [m2m_100.py] itself are
    built exactly as its f-strings build them; messages of the MLX library are
    abbreviated to the operation's tag. *)
Inductive exn : Type :=
| ValueError (msg : string)
| TypeError (msg : string)
| AttributeError (msg : string)
| IndexError (msg : string)
| ZeroDivisionError (msg : string).

Inductive result (A : Type) : Type :=
| Ok (a : A)
| Err (e : exn).
Arguments Ok {A} a.
Arguments Err {A} e.

Definition rbind {A B : Type} (r : result A) (f : A -> result B) : result B :=
  match r with
  | Ok a => f a
  | Err e => Err e
  end.

Definition is_ok {A : Type} (r : result A) : bool :=
  match r with Ok _ => true | Err _ => false end.

(* ================================================================= *)
(** ** Rendering of Python ints and tuples (for f-string messages) *)

Definition cat (a b : string) : string := String.append a b.
Infix "+++" := cat (right associativity, at level 60).

Definition string_of_Z (z : Z) : string := NilZero.string_of_int (Z.to_int z).

Fixpoint join_comma (l : list string) : string :=
  match l with
  | [] => EmptyString
  | [x] => x
  | x :: rest => x +++ ", " +++ join_comma rest
  end.

(** [repr] of a tuple of ints: [()], [(3,)], [(2, 3, 4)]. *)
Definition repr_tuple (t : list Z) : string :=
  match t with
  | [x] => "(" +++ string_of_Z x +++ ",)"
  | _ => "(" +++ join_comma (map string_of_Z t) +++ ")"
  end.

(* ================================================================= *)
(** ** [mx.array]: shape and row-major data *)

Record tensor (A : Type) : Type := mkT { shape : list nat; data : list A }.
Arguments mkT {A} shape data.
Arguments shape {A} t.
Arguments data {A} t.

(** Number of elements of a shape. *)
Definition numel (sh : list nat) : nat := fold_right Nat.mul 1 sh.

(** [array.shape] as Python sees it: a tuple of ints. *)
Definition py_shape {A : Type} (t : tensor A) : list Z := map Z.of_nat (shape t).

(** All multi-indices of a shape, in row-major order. *)
Fixpoint indices (sh : list nat) : list (list nat) :=
  match sh with
  | [] => [[]]
  | n :: rest => flat_map (fun i => map (cons i) (indices rest)) (seq 0 n)
  end.

(** Row-major position of a multi-index. *)
Fixpoint offset (sh idx : list nat) : nat :=
  match sh, idx with
  | _ :: rest, i :: idx' => i * numel rest + offset rest idx'
  | _, _ => 0
  end.

(** A multi-index is inside a shape. *)
Fixpoint in_bounds (sh idx : list nat) : Prop :=
  match sh, idx with
  | [], [] => True
  | n :: rest, i :: idx' => i < n /\ in_bounds rest idx'
  | _, _ => False
  end.

(** Replace position [n] of a list (unchanged when [n] is out of range). *)
Definition set_nth {X : Type} (n : nat) (x : X) (l : list X) : list X :=
  if n <? length l then firstn n l ++ x :: skipn (S n) l else l.

(** Position of the first occurrence of [a]. *)
Fixpoint index_of (a : nat) (l : list nat) : nat :=
  match l with
  | [] => 0
  | x :: l' => if x =? a then 0 else S (index_of a l')
  end.

Definition is_perm (perm : list nat) (rank : nat) : bool :=
  (length perm =? rank) && forallb (fun i => existsb (Nat.eqb i) perm) (seq 0 rank).

(** A Python axis argument (negative counts from the end). *)
Definition norm_axis (axis : Z) (rank : nat) : option nat :=
  let a := if (axis <? 0)%Z then (axis + Z.of_nat rank)%Z else axis in
  if ((0 <=? a) && (a <? Z.of_nat rank))%Z then Some (Z.to_nat a) else None.

(** NumPy broadcasting of two shapes, on the reversed shapes. *)
Fixpoint bshape_rev (a b : list nat) : option (list nat) :=
  match a, b with
  | [], _ => Some b
  | _, [] => Some a
  | x :: a', y :: b' =>
      match bshape_rev a' b' with
      | None => None
      | Some r =>
          if x =? y then Some (x :: r)
          else if x =? 1 then Some (y :: r)
          else if y =? 1 then Some (x :: r)
          else None
      end
  end.

Definition broadcast_shapes (a b : list nat) : option (list nat) :=
  option_map (@rev nat) (bshape_rev (rev a) (rev b)).

(** The index read in an operand of shape [sh] for index [idx] of the
    broadcast result: the trailing [length sh] coordinates, with 0 on the axes
    of extent 1. *)
Fixpoint zip_bidx (sh idx : list nat) : list nat :=
  match sh, idx with
  | dk :: sh', i :: idx' => (if dk =? 1 then 0 else i) :: zip_bidx sh' idx'
  | _, _ => []
  end.

Definition bidx (sh idx : list nat) : list nat :=
  zip_bidx sh (skipn (length idx - length sh) idx).

(** The shape [reshape] produces for an array of [size] elements: at most one
    [-1], inferred from the rest. *)
Definition infer_shape (size : nat) (args : list Z) : result (list nat) :=
  if existsb (fun z => (z <? -1)%Z) args then
    Err (ValueError "[reshape] negative dimension")
  else
    match length (filter (fun z => (z =? -1)%Z) args) with
    | 0 =>
        let sh := map Z.to_nat args in
        if numel sh =? size then Ok sh
        else Err (ValueError "[reshape] Cannot reshape array")
    | 1 =>
        let known := numel (map Z.to_nat (filter (fun z => negb (z =? -1)%Z) args)) in
        if known =? 0 then Err (ValueError "[reshape] Cannot infer the shape of an empty array")
        else
          let sh := map (fun z => if (z =? -1)%Z then size / known else Z.to_nat z) args in
          if numel sh =? size then Ok sh
          else Err (ValueError "[reshape] Cannot reshape array")
    | _ => Err (ValueError "[reshape] Reshape can only infer one dimension")
    end.

(** Matrix dimensions of an operand: batch axes, rows, columns. *)
Definition mat_dims (sh : list nat) : option (list nat * nat * nat) :=
  match rev sh with
  | n :: m :: b => Some (rev b, m, n)
  | _ => None
  end.

Section ArrayOps.
Context {A : Type}.
(** Value read outside the data (never reached on well-formed arrays). *)
Variable dflt : A.

Definition get_at (sh : list nat) (dat : list A) (idx : list nat) : A :=
  nth (offset sh idx) dat dflt.

Definition get (t : tensor A) (idx : list nat) : A :=
  get_at (shape t) (data t) idx.

(** The array of shape [sh] whose element at [idx] is [f idx]. *)
Definition generate (sh : list nat) (f : list nat -> A) : tensor A :=
  mkT sh (map f (indices sh)).

Definition well_formed (t : tensor A) : Prop :=
  length (data t) = numel (shape t).

(** [a.reshape(d0, d1, ...)] *)
Definition reshape (args : list Z) (t : tensor A) : result (tensor A) :=
  rbind (infer_shape (numel (shape t)) args) (fun sh => Ok (mkT sh (data t))).

(** [a.transpose(p0, p1, ...)] *)
Definition transpose (perm : list nat) (t : tensor A) : result (tensor A) :=
  let sh := shape t in
  if is_perm perm (length sh) then
    Ok (generate (map (fun p => nth p sh 0) perm)
          (fun idx => get t (map (fun a => nth (index_of a perm) idx 0)
                                 (seq 0 (length sh)))))
  else Err (ValueError "[transpose] invalid axes").

(** [a.T] *)
Definition transpose_all (t : tensor A) : result (tensor A) :=
  transpose (rev (seq 0 (length (shape t)))) t.

(** [mx.concatenate([a, b], axis=axis)] *)
Definition concatenate (a b : tensor A) (axis : Z) : result (tensor A) :=
  let sa := shape a in
  let sb := shape b in
  match norm_axis axis (length sa) with
  | None => Err (ValueError "[concatenate] invalid axis")
  | Some ax =>
      if (length sa =? length sb)
         && (if list_eq_dec Nat.eq_dec (set_nth ax 0 sa) (set_nth ax 0 sb)
             then true else false)
      then
        let na := nth ax sa 0 in
        Ok (generate (set_nth ax (na + nth ax sb 0) sa)
              (fun idx =>
                 let i := nth ax idx 0 in
                 if i <? na then get a idx
                 else get b (set_nth ax (i - na) idx)))
      else Err (ValueError "[concatenate] shapes do not match")
  end.

(** [a[..., None]] *)
Definition expand_last (t : tensor A) : tensor A :=
  mkT (shape t ++ [1]) (data t).

(** [a[:, -1, :]] *)
Definition select_last_axis1 (t : tensor A) : result (tensor A) :=
  match shape t with
  | d0 :: d1 :: d2 :: rest =>
      if d1 =? 0 then Err (ValueError "[squeeze] Cannot squeeze axis 1 with size 0")
      else Ok (generate (d0 :: d2 :: rest)
                 (fun idx => match idx with
                             | i :: r => get t (i :: (d1 - 1) :: r)
                             | [] => dflt
                             end))
  | _ => Err (ValueError "Too many indices for array")
  end.

(** [a[0]] *)
Definition select_first (t : tensor A) : result (tensor A) :=
  match shape t with
  | d0 :: rest =>
      if d0 =? 0 then Err (IndexError "index 0 is out of bounds for axis 0 with size 0")
      else Ok (generate rest (fun idx => get t (0 :: idx)))
  | [] => Err (ValueError "Too many indices for array")
  end.

(** The entries along the last axis at the leading index [idx]. *)
Definition row (t : tensor A) (idx : list nat) : list A :=
  map (fun k => get t (idx ++ [k])) (seq 0 (last (shape t) 0)).
End ArrayOps.

Definition tmap {A B : Type} (f : A -> B) (t : tensor A) : tensor B :=
  mkT (shape t) (map f (data t)).

(** Elementwise binary operation with broadcasting. *)
Definition binop {A B C : Type} (da : A) (db : B) (f : A -> B -> C)
    (a : tensor A) (b : tensor B) : result (tensor C) :=
  match broadcast_shapes (shape a) (shape b) with
  | None => Err (ValueError "[broadcast_shapes] Shapes cannot be broadcast")
  | Some sh =>
      Ok (mkT sh (map (fun idx => f (get da a (bidx (shape a) idx))
                                    (get db b (bidx (shape b) idx)))
                      (indices sh)))
  end.

(* ================================================================= *)
(** ** The numeric backend

    Element arithmetic is the backend's (MLX on a float dtype).  The model is
    stated once for every backend; [RBackend] below instantiates it with the
    real numbers, the idealisation of float arithmetic used where a concrete
    value of [sin] or [cos] is needed. *)

Class Backend : Type := {
  scalar : Type;
  s_of_Z : Z -> scalar;
  s_add : scalar -> scalar -> scalar;
  s_sub : scalar -> scalar -> scalar;
  s_mul : scalar -> scalar -> scalar;
  s_div : scalar -> scalar -> scalar;
  s_pow : scalar -> scalar -> scalar;
  s_exp : scalar -> scalar;
  s_log : scalar -> scalar;
  s_sqrt : scalar -> scalar;
  s_sin : scalar -> scalar;
  s_cos : scalar -> scalar;
  s_gelu : scalar -> scalar;
  s_ltb : scalar -> scalar -> bool;
  s_eqb : scalar -> scalar -> bool;
  (** [torch.finfo(torch.float16).min] *)
  s_min_f16 : scalar;
  (** the value [mx.random.uniform] draws at an index of a fresh parameter *)
  s_uniform : list nat -> list nat -> scalar
}.

Section Numerics.
Context {B : Backend}.

Definition s_zero : scalar := s_of_Z 0.
Definition s_one : scalar := s_of_Z 1.
Definition s_of_nat (n : nat) : scalar := s_of_Z (Z.of_nat n).

Definition array := tensor scalar.

Definition sum_list (xs : list scalar) : scalar := fold_left s_add xs s_zero.

Definition max_list (xs : list scalar) : scalar :=
  match xs with
  | [] => s_zero
  | x :: xs' => fold_left (fun m y => if s_ltb m y then y else m) xs' x
  end.

(** Index of the first greatest entry, scanning left to right. *)
Fixpoint argmax_from (best_i : nat) (best : scalar) (i : nat) (xs : list scalar) : nat :=
  match xs with
  | [] => best_i
  | x :: xs' =>
      if s_ltb best x then argmax_from i x (S i) xs'
      else argmax_from best_i best (S i) xs'
  end.

(** A NaN is the one value that differs from itself. *)
Definition is_nan (x : scalar) : bool := negb (s_eqb x x).

(** Position of the first NaN of a row, counted from [i]. *)
Fixpoint first_nan (i : nat) (xs : list scalar) : option nat :=
  match xs with
  | [] => None
  | x :: xs' => if is_nan x then Some i else first_nan (S i) xs'
  end.

(** [mx.argmax] along one row: the index of the first greatest entry, and
    the index of the first NaN when the row holds one (the reduction of
    current MLX treats a NaN as the greatest value). *)
Definition argmax_list (xs : list scalar) : nat :=
  match first_nan 0 xs with
  | Some i => i
  | None =>
      match xs with
      | [] => 0
      | x :: xs' => argmax_from 0 x 1 xs'
      end
  end.

Definition add (a b : array) : result array := binop s_zero s_zero s_add a b.
Definition mul (a b : array) : result array := binop s_zero s_zero s_mul a b.

(** [a * c] for a Python float [c]. *)
Definition scale_by (c : scalar) (a : array) : array := tmap (fun x => s_mul x c) a.

(** Apply [f] to every row along the last axis. *)
Definition on_rows (tag : string) (f : list scalar -> list scalar) (t : array) : result array :=
  match shape t with
  | [] => Err (ValueError tag)
  | sh => Ok (generate sh (fun idx => nth (last idx 0) (f (row s_zero t (removelast idx))) s_zero))
  end.

Definition softmax_row (xs : list scalar) : list scalar :=
  let m := max_list xs in
  let es := map (fun x => s_exp (s_sub x m)) xs in
  let tot := sum_list es in
  map (fun e => s_div e tot) es.

(** [mx.softmax(a, axis=-1)] *)
Definition softmax (t : array) : result array :=
  on_rows "[softmax] invalid axis" softmax_row t.

(** [mx.argmax(a, axis=-1)] *)
Definition argmax (t : array) : result (tensor Z) :=
  match shape t with
  | [] => Err (ValueError "[argmax] invalid axis")
  | sh =>
      if last sh 0 =? 0 then Err (ValueError "[argmax] Cannot argmax reduce zero size array")
      else Ok (generate (removelast sh)
                 (fun idx => Z.of_nat (argmax_list (row s_zero t idx))))
  end.

(** [a @ b], with NumPy's treatment of one-dimensional operands and
    broadcasting of the batch axes. *)
Definition matmul (a b : array) : result array :=
  let sa := shape a in
  let sb := shape b in
  let pa := match sa with [k] => [1; k] | _ => sa end in
  let pb := match sb with [k] => [k; 1] | _ => sb end in
  match mat_dims pa, mat_dims pb with
  | Some (ba, m, k), Some (bb, k', n) =>
      if k =? k' then
        match broadcast_shapes ba bb with
        | Some bo =>
            let nb := length bo in
            let full :=
              generate (bo ++ [m; n])
                (fun idx =>
                   let bi := firstn nb idx in
                   let i := nth nb idx 0 in
                   let j := nth (S nb) idx 0 in
                   sum_list
                     (map (fun kk =>
                             s_mul (get_at s_zero pa (data a) (bidx ba bi ++ [i; kk]))
                                   (get_at s_zero pb (data b) (bidx bb bi ++ [kk; j])))
                          (seq 0 k))) in
            Ok (mkT (bo ++ (match sa with [_] => [] | _ => [m] end)
                        ++ (match sb with [_] => [] | _ => [n] end))
                    (data full))
        | None => Err (ValueError "[matmul] Shapes cannot be broadcast")
        end
      else Err (ValueError "[matmul] Last dimension of first input must match second to last dimension of second input")
  | _, _ => Err (ValueError "[matmul] Got 0 dimension input. Inputs must have at least one dimension")
  end.
End Numerics.

(* ================================================================= *)
(** ** The interpreter monad: results and [print]ed lines *)

Section Interp.
Context {B : Backend}.

(** One argument of a [print] call. *)
Inductive pyprint : Type :=
| PStr (s : string)
| PShape (sh : list Z)
| PArray (t : array)
| PIntArray (t : tensor Z)
| PNone
| PModule (name : string).

(** Standard output: the lines printed so far, oldest first. *)
Definition stdout : Type := list (list pyprint).

Definition M (A : Type) : Type := stdout -> result A * stdout.

Definition ret {A : Type} (a : A) : M A := fun w => (Ok a, w).

Definition raise {A : Type} (e : exn) : M A := fun w => (Err e, w).

Definition bind {A C : Type} (m : M A) (f : A -> M C) : M C :=
  fun w =>
    match m w with
    | (Ok a, w') => f a w'
    | (Err e, w') => (Err e, w')
    end.

(** A library call: it may raise, it prints nothing. *)
Definition lift {A : Type} (r : result A) : M A := fun w => (r, w).

Definition print (items : list pyprint) : M unit := fun w => (Ok tt, w ++ [items]).

(** What a call returns to Python: an array, or a pair such as
    [(attn_output, past_key_value)]. *)
Inductive pyval : Type :=
| VArray (t : array)
| VTuple (fst_item snd_item : pyval).

(** [a, b, c = t] for a tuple of ints *)
Definition unpack3 (t : list nat) : result (nat * nat * nat) :=
  match t with
  | [a; b; c] => Ok (a, b, c)
  | _ :: _ :: _ :: _ :: _ => Err (ValueError "too many values to unpack (expected 3)")
  | _ => Err (ValueError ("not enough values to unpack (expected 3, got "
                            +++ string_of_Z (Z.of_nat (length t)) +++ ")"))
  end.

(** [t[i]] for a tuple, [i >= 0] *)
Definition tuple_index {X : Type} (t : list X) (i : nat) : result X :=
  match nth_error t i with
  | Some x => Ok x
  | None => Err (IndexError "tuple index out of range")
  end.

(** [t[-1]] for a tuple *)
Definition tuple_last {X : Type} (t : list X) : result X :=
  match rev t with
  | x :: _ => Ok x
  | [] => Err (IndexError "tuple index out of range")
  end.
End Interp.

Declare Scope py_scope.
Delimit Scope py_scope with py.
Notation "x <- m ;; k" := (bind m (fun x => k))
  (at level 61, m at next level, right associativity) : py_scope.
Notation "' pat <- m ;; k" := (bind m (fun x => match x with pat => k end))
  (at level 61, pat pattern, m at next level, right associativity) : py_scope.
Notation "m ;;; k" := (bind m (fun _ => k))
  (at level 61, right associativity) : py_scope.
Local Open Scope py_scope.

(* ================================================================= *)
(** ** [mlx.nn] layers used by the model *)

Section Layers.
Context {B : Backend}.

(** [mx.random.uniform(shape=sh)]: the values drawn at construction are
    replaced when the weights are loaded. *)
Definition random_uniform (sh : list nat) : array := generate sh (s_uniform sh).

(** [nn.Linear] *)
Record Linear : Type := mkLinear { weight : array; bias : option array }.

Definition Linear_init (input_dims output_dims : Z) (with_bias : bool) : result Linear :=
  if (input_dims =? 0)%Z then Err (ZeroDivisionError "float division by zero")
  else if (input_dims <? 0)%Z then Err (ValueError "math domain error")
  else if (output_dims <? 0)%Z then Err (ValueError "[uniform] negative dimension")
  else
    let o := Z.to_nat output_dims in
    let i := Z.to_nat input_dims in
    Ok (mkLinear (random_uniform [o; i])
                 (if with_bias then Some (random_uniform [o]) else None)).

(** [x @ self.weight.T + self.bias] *)
Definition Linear_call (self : Linear) (x : array) : result array :=
  rbind (transpose_all s_zero (weight self)) (fun wt =>
  rbind (matmul x wt) (fun y =>
  match bias self with
  | Some b => add y b
  | None => Ok y
  end)).

(** [nn.Embedding]: [self.weight[x]].  A negative id counts from the end.
    The gather does not check its indices: an id outside the table reads the
    memory that lies around the table, which holds whatever the process left
    there and need not be the same in two runs.  [emb_outside] is that
    memory as a call finds it: what is read for the row [id] (counted from
    the start of the table) at the trailing index [idx]. *)
Record Embedding : Type := mkEmbedding {
  emb_weight : array;
  emb_outside : Z -> list nat -> scalar
}.

Definition Embedding_call (self : Embedding) (x : tensor Z) : result array :=
  match shape (emb_weight self) with
  | [] => Err (ValueError "Too many indices for array")
  | v :: rest =>
      let r := length (shape x) in
      Ok (generate (shape x ++ rest)
            (fun idx =>
               let id := get 0%Z x (firstn r idx) in
               let id := if (id <? 0)%Z then (id + Z.of_nat v)%Z else id in
               if ((0 <=? id) && (id <? Z.of_nat v))%Z
               then get s_zero (emb_weight self) (Z.to_nat id :: skipn r idx)
               else emb_outside self id (skipn r idx)))
  end.

(** [nn.LayerNorm], with its default [eps = 1e-5] *)
Record LayerNorm : Type := mkLayerNorm { ln_weight : array; ln_bias : array }.

Definition mean_list (xs : list scalar) : scalar :=
  s_div (sum_list xs) (s_of_nat (length xs)).

Definition layer_norm_row (xs : list scalar) : list scalar :=
  let eps := s_div s_one (s_of_Z 100000) in
  let m := mean_list xs in
  let v := mean_list (map (fun x => s_mul (s_sub x m) (s_sub x m)) xs) in
  map (fun x => s_mul (s_sub x m) (s_div s_one (s_sqrt (s_add v eps)))) xs.

Definition LayerNorm_call (self : LayerNorm) (x : array) : result array :=
  rbind (on_rows "[mean] invalid axis" layer_norm_row x) (fun n =>
  rbind (mul (ln_weight self) n) (fun wn =>
  add wn (ln_bias self))).

(** [nn.GELU()] and [nn.ReLU()] *)
Inductive activation : Type := GELU | ReLU.

Definition activation_call (f : activation) (x : array) : array :=
  match f with
  | GELU => tmap s_gelu x
  | ReLU => tmap (fun v => if s_ltb v s_zero then s_zero else v) x
  end.

(** [nn.SinusoidalPositionalEncoding(dims)], with the library's defaults
    [min_freq=0.0001], [max_freq=1], [scale=None], [cos_first=False],
    [full_turns=False].  An odd [dims] is refused, as current MLX does
    (releases up to 0.25 accepted it and built a table of [dims - 1]
    columns). *)
Record SinusoidalPositionalEncoding : Type := mkSPE {
  _sigmas : array;
  spe_scale : scalar;
  cos_first : bool
}.

Definition SinusoidalPositionalEncoding_init (dims : Z) : result SinusoidalPositionalEncoding :=
  let h := (dims / 2)%Z in
  let min_freq := s_log (s_div s_one (s_of_Z 10000)) in
  let max_freq := s_log (s_of_Z 1) in
  let sigmas :=
    generate [Z.to_nat h]
      (fun idx =>
         let one_zero := s_sub s_one (s_div (s_of_nat (nth 0 idx 0)) (s_of_Z (h - 1))) in
         s_exp (s_add (s_mul one_zero (s_sub max_freq min_freq)) min_freq)) in
  if negb (dims mod 2 =? 0)%Z then Err (ValueError "dims must be even")
  else if (dims =? 0)%Z then Err (ZeroDivisionError "division by zero")
  else Ok (mkSPE sigmas
                 (s_pow (s_div (s_of_Z 2) (s_of_Z dims)) (s_div s_one (s_of_Z 2)))
                 false).

(** [y = x[..., None] * self._sigmas], then sine and cosine side by side on
    the last axis, then the scale. *)
Definition SinusoidalPositionalEncoding_call
    (self : SinusoidalPositionalEncoding) (x : tensor Z) : result array :=
  rbind (binop 0%Z s_zero (fun i s => s_mul (s_of_Z i) s) (expand_last x) (_sigmas self))
    (fun y =>
  rbind (if cos_first self
         then concatenate s_zero (tmap s_cos y) (tmap s_sin y) (-1)
         else concatenate s_zero (tmap s_sin y) (tmap s_cos y) (-1))
    (fun y =>
  Ok (if s_eqb (spe_scale self) s_one then y else scale_by (spe_scale self) y))).
End Layers.

(* ================================================================= *)
(** ** [m2m_100.py]: configuration and positional embedding *)

Section Model.
Context {B : Backend}.

(** [ModelArgs] (lines 23-48) *)
Record ModelArgs : Type := mkModelArgs {
  vocab_size : Z;
  max_position_embeddings : Z;
  encoder_layers : Z;
  encoder_ffn_dim : Z;
  encoder_attention_heads : Z;
  decoder_layers : Z;
  decoder_ffn_dim : Z;
  decoder_attention_heads : Z;
  encoder_layerdrop : scalar;
  decoder_layerdrop : scalar;
  use_cache : bool;
  is_encoder_decoder : bool;
  activation_function : string;
  d_model : Z;
  cfg_dropout : scalar;
  attention_dropout : scalar;
  activation_dropout : scalar;
  init_std : scalar;
  decoder_start_token_id : Z;
  scale_embedding : bool;
  pad_token_id : Z;
  bos_token_id : Z;
  eos_token_id : Z;
  num_hidden_layers : Z
}.

(** [M2M100SinusoidalPositionalEmbedding] (lines 51-63) *)
Record M2M100SinusoidalPositionalEmbedding : Type := mkPositionalEmbedding {
  pe_offset : Z;
  embedding_dim : Z;
  padding_idx : option Z;
  num_positions : Z;
  weights : SinusoidalPositionalEncoding
}.

Definition M2M100SinusoidalPositionalEmbedding_init
    (num_positions embedding_dim : Z) (padding_idx : option Z)
  : result M2M100SinusoidalPositionalEmbedding :=
  rbind (SinusoidalPositionalEncoding_init embedding_dim) (fun w =>
  Ok (mkPositionalEmbedding 2 embedding_dim padding_idx num_positions w)).

(** [__call__(self, input_ids, past_key_values_length=0)]:
    [return self.weights(input_ids)].  The second argument is whatever the
    caller passes (the decoder passes its cache list); it is not read. *)
Definition M2M100SinusoidalPositionalEmbedding_call {T : Type}
    (self : M2M100SinusoidalPositionalEmbedding)
    (input_ids : tensor Z) (past_key_values_length : T) : result array :=
  SinusoidalPositionalEncoding_call (weights self) input_ids.

(* ================================================================= *)
(** ** [M2M100Attention] (lines 65-169) *)

Record M2M100Attention : Type := mkAttention {
  embed_dim : Z;
  num_heads : Z;
  dropout : scalar;
  head_dim : Z;
  scaling : scalar;
  is_decoder : bool;
  is_causal : bool;
  k_proj : Linear;
  v_proj : Linear;
  q_proj : Linear;
  out_proj : Linear
}.

(** [__init__] (lines 66-91).  [embed_dim // num_heads] is Python's floor
    division, which is [Z.div]; it raises on a zero divisor, and
    [head_dim ** -0.5] raises on a zero base. *)
Definition M2M100Attention_init
    (embed_dim num_heads : Z) (dropout : scalar) (is_decoder bias is_causal : bool)
  : result M2M100Attention :=
  if (num_heads =? 0)%Z then Err (ZeroDivisionError "integer division or modulo by zero")
  else
    let head_dim := (embed_dim / num_heads)%Z in
    if (head_dim =? 0)%Z then Err (ZeroDivisionError "0.0 cannot be raised to a negative power")
    else
      let scaling := s_pow (s_of_Z head_dim) (s_div (s_of_Z (-1)) (s_of_Z 2)) in
      rbind (Linear_init embed_dim embed_dim bias) (fun k_proj =>
      rbind (Linear_init embed_dim embed_dim bias) (fun v_proj =>
      rbind (Linear_init embed_dim embed_dim bias) (fun q_proj =>
      rbind (Linear_init embed_dim embed_dim bias) (fun out_proj =>
      Ok (mkAttention embed_dim num_heads dropout head_dim scaling
            is_decoder is_causal k_proj v_proj q_proj out_proj))))).

(** [_shape] (lines 93-95) *)
Definition _shape (self : M2M100Attention) (tensor : array) (seq_len : Z) (bsz : nat)
  : M array :=
  print [PShape (py_shape tensor)] ;;;
  t <- lift (reshape [Z.of_nat bsz; seq_len; num_heads self; head_dim self] tensor) ;;
  lift (transpose s_zero [0; 2; 1; 3] t).

(** Lines 116-117 and 119-120, 124-125: project and split into heads. *)
Definition project_kv (self : M2M100Attention) (source : array) (bsz : nat)
  : M (array * array) :=
  kp <- lift (Linear_call (k_proj self) source) ;;
  key_states <- _shape self kp (-1) bsz ;;
  vp <- lift (Linear_call (v_proj self) source) ;;
  value_states <- _shape self vp (-1) bsz ;;
  ret (key_states, value_states).

(** Lines 112-125: the four ways key and value are obtained. *)
Definition key_value_states_of (self : M2M100Attention)
    (hidden_states : array) (key_value_states : option array)
    (past_key_value : option (array * array)) (bsz : nat) : M (array * array) :=
  match key_value_states, past_key_value with
  | Some kvs, Some (pk, pv) =>
      cached_len <- lift (tuple_index (shape pk) 2) ;;
      source_len <- lift (tuple_index (shape kvs) 1) ;;
      if cached_len =? source_len then ret (pk, pv)
      else project_kv self kvs bsz
  | Some kvs, None => project_kv self kvs bsz
  | None, Some (pk, pv) =>
      ' (key_states, value_states) <- project_kv self hidden_states bsz ;;
      key_states <- lift (concatenate s_zero pk key_states 2) ;;
      value_states <- lift (concatenate s_zero pv value_states 2) ;;
      ret (key_states, value_states)
  | None, None => project_kv self hidden_states bsz
  end.

(** The locals of [__call__] once the attention scores exist (line 137). *)
Record scores : Type := mkScores {
  sc_bsz : nat;
  sc_tgt_len : nat;
  sc_src_len : nat;
  sc_value_states : array;
  sc_cache : option (array * array);
  sc_attn_weights : array
}.

(** Lines 105-137 *)
Definition attention_scores (self : M2M100Attention)
    (hidden_states : array) (key_value_states : option array)
    (past_key_value : option (array * array)) : M scores :=
  print [PStr "hidden_states"; PShape (py_shape hidden_states)] ;;;
  ' (bsz, tgt_len, _) <- lift (unpack3 (shape hidden_states)) ;;
  query_states <- lift (Linear_call (q_proj self) hidden_states) ;;
  ' (key_states, value_states) <-
      key_value_states_of self hidden_states key_value_states past_key_value bsz ;;
  let past_key_value :=
    if is_decoder self then Some (key_states, value_states) else past_key_value in
  let proj_shape :=
    [(Z.of_nat bsz * num_heads self)%Z; Z.of_nat tgt_len; head_dim self] in
  q <- _shape self query_states (Z.of_nat tgt_len) bsz ;;
  query_states <- lift (reshape proj_shape q) ;;
  key_states <- lift (reshape proj_shape key_states) ;;
  value_states <- lift (reshape proj_shape value_states) ;;
  src_len <- lift (tuple_index (shape key_states) 1) ;;
  kt <- lift (transpose s_zero [0; 2; 1] key_states) ;;
  attn_weights <- lift (matmul query_states kt) ;;
  ret (mkScores bsz tgt_len src_len value_states past_key_value attn_weights).

Definition attn_weights_expected (self : M2M100Attention) (st : scores) : list Z :=
  [(Z.of_nat (sc_bsz st) * num_heads self)%Z; Z.of_nat (sc_tgt_len st);
   Z.of_nat (sc_src_len st)].

Definition attention_mask_expected (st : scores) : list Z :=
  [Z.of_nat (sc_bsz st); 1%Z; Z.of_nat (sc_tgt_len st); Z.of_nat (sc_src_len st)].

Definition attn_weights_message (expected actual : list Z) : string :=
  "Attention weights should be of size " +++ repr_tuple expected
    +++ ", but is " +++ repr_tuple actual.

Definition attention_mask_message (expected actual : list Z) : string :=
  "Attention mask should be of size " +++ repr_tuple expected
    +++ ", but is " +++ repr_tuple actual.

(** Lines 139-143 *)
Definition check_attn_weights (self : M2M100Attention) (st : scores) : M unit :=
  if list_eq_dec Z.eq_dec (py_shape (sc_attn_weights st)) (attn_weights_expected self st)
  then ret tt
  else raise (ValueError (attn_weights_message (attn_weights_expected self st)
                            (py_shape (sc_attn_weights st)))).

(** Lines 145-146: the second [print] reads [attention_mask.shape]. *)
Definition print_attention_mask (attention_mask : option array) : M unit :=
  print [PStr "attn_weights";
         match attention_mask with Some m => PArray m | None => PNone end] ;;;
  match attention_mask with
  | Some m => print [PStr "attn_weights"; PShape (py_shape m)]
  | None => raise (AttributeError "'NoneType' object has no attribute 'shape'")
  end.

(** Lines 149-152 *)
Definition check_attention_mask (st : scores) (m : array) : M unit :=
  if list_eq_dec Z.eq_dec (py_shape m) (attention_mask_expected st)
  then ret tt
  else raise (ValueError (attention_mask_message (attention_mask_expected st)
                            (py_shape m))).

(** Lines 148-155 *)
Definition add_attention_mask (self : M2M100Attention) (st : scores)
    (attention_mask : option array) : M array :=
  match attention_mask with
  | Some m =>
      check_attention_mask st m ;;;
      w4 <- lift (reshape [Z.of_nat (sc_bsz st); num_heads self;
                           Z.of_nat (sc_tgt_len st); Z.of_nat (sc_src_len st)]
                    (sc_attn_weights st)) ;;
      w4 <- lift (add w4 m) ;;
      lift (reshape [(Z.of_nat (sc_bsz st) * num_heads self)%Z;
                     Z.of_nat (sc_tgt_len st); Z.of_nat (sc_src_len st)] w4)
  | None => ret (sc_attn_weights st)
  end.

(** Lines 157-169.  [astype] to the array's own dtype changes nothing. *)
Definition attention_output (self : M2M100Attention) (st : scores)
    (attn_weights : array) : M pyval :=
  attn_weights <- lift (softmax attn_weights) ;;
  attn_outputs <- lift (matmul attn_weights (sc_value_states st)) ;;
  attn_output <- lift (reshape [Z.of_nat (sc_bsz st); num_heads self;
                                Z.of_nat (sc_tgt_len st); head_dim self] attn_outputs) ;;
  attn_output <- lift (transpose s_zero [0; 2; 1; 3] attn_output) ;;
  attn_output <- lift (reshape [Z.of_nat (sc_bsz st); Z.of_nat (sc_tgt_len st);
                                embed_dim self] attn_output) ;;
  attn_output <- lift (Linear_call (out_proj self) attn_output) ;;
  print [PStr "attn_output"; PShape (py_shape attn_output)] ;;;
  ret (VArray attn_output).

(** [__call__] (lines 97-169) *)
Definition M2M100Attention_call (self : M2M100Attention)
    (hidden_states : array) (key_value_states : option array)
    (past_key_value : option (array * array)) (attention_mask : option array)
  : M pyval :=
  st <- attention_scores self hidden_states key_value_states past_key_value ;;
  check_attn_weights self st ;;;
  print_attention_mask attention_mask ;;;
  attn_weights <- add_attention_mask self st attention_mask ;;
  attention_output self st attn_weights.

(* ================================================================= *)
(** ** Encoder and decoder layers (lines 172-277) *)

(** [nn.LayerNorm(dims)]: unit weight, zero bias. *)
Definition LayerNorm_init (dims : Z) : result LayerNorm :=
  if (dims <? 0)%Z then Err (ValueError "[ones] negative dimension")
  else Ok (mkLayerNorm (generate [Z.to_nat dims] (fun _ => s_one))
                       (generate [Z.to_nat dims] (fun _ => s_zero))).

(** Lines 189-192 and 239-242: no attribute is set for another name. *)
Definition activation_of (name : string) : option activation :=
  if String.eqb name "gelu" then Some GELU
  else if String.eqb name "relu" then Some ReLU
  else None.

(** [self.activation_fn]: the attribute lookup, which Python performs
    before it evaluates the argument of the call. *)
Definition get_activation_fn (cls : string) (f : option activation) : result activation :=
  match f with
  | Some a => Ok a
  | None => Err (AttributeError ("'" +++ cls +++ "' object has no attribute 'activation_fn'"))
  end.

(** [v + residual] where [v] is what a sub-module returned. *)
Definition py_add (v : pyval) (residual : array) : result array :=
  match v with
  | VArray t => add t residual
  | VTuple _ _ => Err (TypeError "unsupported operand type(s) for +: 'tuple' and 'array'")
  end.

(** [v[0]] where [v] is what a sub-module returned. *)
Definition py_index0 (v : pyval) : result pyval :=
  match v with
  | VArray t => rbind (select_first s_zero t) (fun r => Ok (VArray r))
  | VTuple a _ => Ok a
  end.

Record M2M100EncoderLayer : Type := mkEncoderLayer {
  el_embed_dim : Z;
  el_self_attn : M2M100Attention;
  el_self_attn_layer_norm : LayerNorm;
  el_activation_fn : option activation;
  el_fc1 : Linear;
  el_fc2 : Linear;
  el_final_layer_norm : LayerNorm
}.

Definition M2M100EncoderLayer_init (config : ModelArgs) : result M2M100EncoderLayer :=
  let embed_dim := d_model config in
  rbind (M2M100Attention_init embed_dim (encoder_attention_heads config)
           (attention_dropout config) false true false) (fun self_attn =>
  rbind (LayerNorm_init embed_dim) (fun ln1 =>
  rbind (Linear_init embed_dim (encoder_ffn_dim config) true) (fun fc1 =>
  rbind (Linear_init (encoder_ffn_dim config) embed_dim true) (fun fc2 =>
  rbind (LayerNorm_init embed_dim) (fun ln2 =>
  Ok (mkEncoderLayer embed_dim self_attn ln1
        (activation_of (activation_function config)) fc1 fc2 ln2)))))).

(** [M2M100EncoderLayer.__call__] (lines 198-212) *)
Definition M2M100EncoderLayer_call (self : M2M100EncoderLayer)
    (hidden_states : array) (attention_mask : option array) : M array :=
  let residual := hidden_states in
  hidden_states <- lift (LayerNorm_call (el_self_attn_layer_norm self) hidden_states) ;;
  attn <- M2M100Attention_call (el_self_attn self) hidden_states None None attention_mask ;;
  hidden_states <- lift (py_add attn residual) ;;
  let residual := hidden_states in
  hidden_states <- lift (LayerNorm_call (el_final_layer_norm self) hidden_states) ;;
  activation_fn <- lift (get_activation_fn "M2M100EncoderLayer" (el_activation_fn self)) ;;
  h <- lift (Linear_call (el_fc1 self) hidden_states) ;;
  let hidden_states := activation_call activation_fn h in
  hidden_states <- lift (Linear_call (el_fc2 self) hidden_states) ;;
  hidden_states <- lift (add hidden_states residual) ;;
  ret hidden_states.

Record M2M100DecoderLayer : Type := mkDecoderLayer {
  dl_embed_dim : Z;
  dl_self_attn : M2M100Attention;
  dl_self_attn_layer_norm : LayerNorm;
  dl_encoder_attn : M2M100Attention;
  dl_encoder_attn_layer_norm : LayerNorm;
  dl_activation_fn : option activation;
  dl_fc1 : Linear;
  dl_fc2 : Linear;
  dl_final_layer_norm : LayerNorm
}.

Definition M2M100DecoderLayer_init (config : ModelArgs) : result M2M100DecoderLayer :=
  let embed_dim := d_model config in
  rbind (M2M100Attention_init embed_dim (decoder_attention_heads config)
           (attention_dropout config) true true true) (fun self_attn =>
  rbind (LayerNorm_init embed_dim) (fun ln1 =>
  rbind (M2M100Attention_init embed_dim (decoder_attention_heads config)
           (attention_dropout config) true true false) (fun encoder_attn =>
  rbind (LayerNorm_init embed_dim) (fun ln2 =>
  rbind (Linear_init embed_dim (decoder_ffn_dim config) true) (fun fc1 =>
  rbind (Linear_init (decoder_ffn_dim config) embed_dim true) (fun fc2 =>
  rbind (LayerNorm_init embed_dim) (fun ln3 =>
  Ok (mkDecoderLayer embed_dim self_attn ln1 encoder_attn ln2
        (activation_of (activation_function config)) fc1 fc2 ln3)))))))).

(** [M2M100DecoderLayer.__call__] (lines 248-277) *)
Definition M2M100DecoderLayer_call (self : M2M100DecoderLayer)
    (hidden_states : array) (encoder_hidden_states : option array)
    (attention_mask encoder_attention_mask : option array) : M pyval :=
  let residual := hidden_states in
  hidden_states <- lift (LayerNorm_call (dl_self_attn_layer_norm self) hidden_states) ;;
  attn <- M2M100Attention_call (dl_self_attn self) hidden_states None None attention_mask ;;
  hidden_states <- lift (py_add attn residual) ;;
  hidden_states <-
    match encoder_hidden_states with
    | Some ehs =>
        let residual := hidden_states in
        hidden_states <- lift (LayerNorm_call (dl_encoder_attn_layer_norm self) hidden_states) ;;
        attn <- M2M100Attention_call (dl_encoder_attn self) hidden_states (Some ehs) None
                  encoder_attention_mask ;;
        lift (py_add attn residual)
    | None => ret hidden_states
    end ;;
  let residual := hidden_states in
  hidden_states <- lift (LayerNorm_call (dl_final_layer_norm self) hidden_states) ;;
  activation_fn <- lift (get_activation_fn "M2M100DecoderLayer" (dl_activation_fn self)) ;;
  h <- lift (Linear_call (dl_fc1 self) hidden_states) ;;
  let hidden_states := activation_call activation_fn h in
  hidden_states <- lift (Linear_call (dl_fc2 self) hidden_states) ;;
  hidden_states <- lift (add hidden_states residual) ;;
  ret (VArray hidden_states).

(* ================================================================= *)
(** ** Encoder and decoder (lines 279-362) *)

(** [nn.Embedding(num_embeddings, dims)].  The memory around the fresh table
    is no more specified than the values drawn for the table. *)
Definition Embedding_init (num_embeddings dims : Z) : result Embedding :=
  if (dims =? 0)%Z then Err (ZeroDivisionError "division by zero")
  else if (dims <? 0)%Z then Err (ValueError "math domain error")
  else if (num_embeddings <? 0)%Z then Err (ValueError "[normal] negative dimension")
  else Ok (mkEmbedding (random_uniform [Z.to_nat num_embeddings; Z.to_nat dims])
             (fun id idx => s_uniform [] (Z.abs_nat id :: idx))).

(** [math.sqrt(embed_dim) if config.scale_embedding else 1.0] *)
Definition embed_scale_of (config : ModelArgs) : result scalar :=
  if scale_embedding config then
    if (d_model config <? 0)%Z then Err (ValueError "math domain error")
    else Ok (s_sqrt (s_of_Z (d_model config)))
  else Ok s_one.

(** [[f(config) for _ in range(n)]] *)
Fixpoint replicate_init {X : Type} (n : nat) (f : result X) : result (list X) :=
  match n with
  | O => Ok []
  | S n' => rbind f (fun x => rbind (replicate_init n' f) (fun xs => Ok (x :: xs)))
  end.

(** [_prepare_4d_attention_mask(mask, torch.float16)] of transformers: a
    [[bsz, src_len]] mask becomes [[bsz, 1, src_len, src_len]], zero where the
    mask is 1 and the dtype's minimum elsewhere. *)
Definition _prepare_4d_attention_mask (mask : tensor Z) : result array :=
  match shape mask with
  | [bsz; src_len] =>
      Ok (generate [bsz; 1; src_len; src_len]
            (fun idx =>
               let inverted :=
                 s_sub s_one (s_of_Z (get 0%Z mask [nth 0 idx 0; nth 3 idx 0])) in
               if s_eqb inverted s_zero then inverted else s_min_f16))
  | _ :: _ :: _ :: _ => Err (ValueError "too many values to unpack (expected 2)")
  | sh => Err (ValueError ("not enough values to unpack (expected 2, got "
                             +++ string_of_Z (Z.of_nat (length sh)) +++ ")"))
  end.

Record M2M100Encoder : Type := mkEncoder {
  enc_padding_idx : Z;
  max_source_positions : Z;
  enc_embed_scale : scalar;
  enc_embed_tokens : Embedding;
  enc_embed_positions : M2M100SinusoidalPositionalEmbedding;
  enc_layers : list M2M100EncoderLayer;
  enc_layer_norm : LayerNorm
}.

Definition M2M100Encoder_init (config : ModelArgs) (embed_tokens : option Embedding)
  : result M2M100Encoder :=
  let embed_dim := d_model config in
  rbind (embed_scale_of config) (fun embed_scale =>
  rbind (Embedding_init (vocab_size config) embed_dim) (fun tokens =>
  rbind (M2M100SinusoidalPositionalEmbedding_init
           (max_position_embeddings config) embed_dim None) (fun positions =>
  rbind (replicate_init (Z.to_nat (encoder_layers config))
           (M2M100EncoderLayer_init config)) (fun layers =>
  rbind (LayerNorm_init embed_dim) (fun ln =>
  Ok (mkEncoder (pad_token_id config) (max_position_embeddings config)
        embed_scale tokens positions layers ln)))))).

(** Lines 317-319: [for layer in self.layers] *)
Fixpoint encoder_layers_loop (layers : list M2M100EncoderLayer)
    (hidden_states : array) (attention_mask : option array) : M array :=
  match layers with
  | [] => ret hidden_states
  | layer :: rest =>
      layer_output <- M2M100EncoderLayer_call layer hidden_states attention_mask ;;
      encoder_layers_loop rest layer_output attention_mask
  end.

(** [M2M100Encoder.__call__] (lines 294-322) *)
Definition M2M100Encoder_call (self : M2M100Encoder)
    (input_ids : tensor Z) (attention_mask : option (tensor Z)) : M array :=
  let input_shape := py_shape input_ids in
  last_dim <- lift (tuple_last input_shape) ;;
  input_ids <- lift (reshape [(-1)%Z; last_dim] input_ids) ;;
  print [PIntArray input_ids] ;;;
  print [PModule "Embedding"] ;;;
  e <- lift (Embedding_call (enc_embed_tokens self) input_ids) ;;
  let inputs_embeds := scale_by (enc_embed_scale self) e in
  embed_pos <- lift (M2M100SinusoidalPositionalEmbedding_call
                       (enc_embed_positions self) input_ids 0%Z) ;;
  hidden_states <- lift (add inputs_embeds embed_pos) ;;
  attention_mask <-
    match attention_mask with
    | Some m => m4 <- lift (_prepare_4d_attention_mask m) ;; ret (Some m4)
    | None => ret None
    end ;;
  hidden_states <- encoder_layers_loop (enc_layers self) hidden_states attention_mask ;;
  hidden_states <- lift (LayerNorm_call (enc_layer_norm self) hidden_states) ;;
  ret hidden_states.

Record M2M100Decoder : Type := mkDecoder {
  dec_padding_idx : Z;
  max_target_positions : Z;
  dec_embed_scale : scalar;
  dec_embed_tokens : option Embedding;
  dec_embed_positions : M2M100SinusoidalPositionalEmbedding;
  dec_layers : list M2M100DecoderLayer;
  dec_layer_norm : LayerNorm
}.

Definition M2M100Decoder_init (config : ModelArgs) (embed_tokens : option Embedding)
  : result M2M100Decoder :=
  let embed_dim := d_model config in
  rbind (embed_scale_of config) (fun embed_scale =>
  rbind (M2M100SinusoidalPositionalEmbedding_init
           (max_position_embeddings config) embed_dim None) (fun positions =>
  rbind (replicate_init (Z.to_nat (decoder_layers config))
           (M2M100DecoderLayer_init config)) (fun layers =>
  rbind (LayerNorm_init embed_dim) (fun ln =>
  Ok (mkDecoder (pad_token_id config) (max_position_embeddings config)
        embed_scale embed_tokens positions layers ln))))).

(** [a.size()] on an [mx.array]: [size] is an int property there, and calling
    an int raises. *)
Definition array_size_call {A : Type} (a : tensor A) : result (list Z) :=
  Err (TypeError "'int' object is not callable").

(** [a.view(d0, d1, ...)] on an [mx.array]: there is no reshaping [view]. *)
Definition array_view {A : Type} (a : tensor A) (args : list Z) : result (tensor A) :=
  Err (AttributeError "'mlx.core.array' object has no attribute 'view'").

(** An array where the program needs one. *)
Definition as_array (v : pyval) : result array :=
  match v with
  | VArray t => Ok t
  | VTuple _ _ => Err (TypeError "expected an array, got a tuple")
  end.

(** Lines 356-358: [for layer in self.layers] *)
Fixpoint decoder_layers_loop (layers : list M2M100DecoderLayer)
    (hidden_states : pyval) (encoder_hidden_states : option array)
    (attention_mask encoder_attention_mask : option array) : M pyval :=
  match layers with
  | [] => ret hidden_states
  | layer :: rest =>
      h <- lift (as_array hidden_states) ;;
      layer_output <- M2M100DecoderLayer_call layer h encoder_hidden_states
                        attention_mask encoder_attention_mask ;;
      hidden_states <- lift (py_index0 layer_output) ;;
      decoder_layers_loop rest hidden_states encoder_hidden_states
        attention_mask encoder_attention_mask
  end.

(** [M2M100Decoder.__call__] (lines 340-362) *)
Definition M2M100Decoder_call (self : M2M100Decoder)
    (input_ids : tensor Z) (encoder_hidden_states : option array)
    (attention_mask encoder_attention_mask : option array)
    (past_key_values : option (list (array * array))) : M array :=
  input_shape <- lift (array_size_call input_ids) ;;
  last_dim <- lift (tuple_last input_shape) ;;
  input_ids <- lift (array_view input_ids [(-1)%Z; last_dim]) ;;
  past_key_values_length <-
    match past_key_values with
    | Some pkv =>
        first <- lift (tuple_index pkv 0) ;;
        lift (tuple_index (shape (fst first)) 2)
    | None => ret 0
    end ;;
  e <- match dec_embed_tokens self with
       | Some emb => lift (Embedding_call emb input_ids)
       | None => raise (TypeError "'NoneType' object is not callable")
       end ;;
  let inputs_embeds := scale_by (dec_embed_scale self) e in
  embed_pos <- lift (M2M100SinusoidalPositionalEmbedding_call
                       (dec_embed_positions self) input_ids past_key_values) ;;
  hidden_states <- lift (add inputs_embeds embed_pos) ;;
  attention_mask <-
    match attention_mask with
    | Some m =>
        last_dim <- lift (tuple_last input_shape) ;;
        m4 <- lift (array_view m [(-1)%Z; 1%Z; 1%Z; last_dim]) ;;
        ret (Some m4)
    | None => ret None
    end ;;
  hidden_states <- decoder_layers_loop (dec_layers self) (VArray hidden_states)
                     encoder_hidden_states attention_mask encoder_attention_mask ;;
  h <- lift (as_array hidden_states) ;;
  hidden_states <- lift (LayerNorm_call (dec_layer_norm self) h) ;;
  ret hidden_states.

(* ================================================================= *)
(** ** [M2M100Model] and [M2M100ForConditionalGeneration] (lines 365-395) *)

Record M2M100Model : Type := mkModel {
  mdl_config : ModelArgs;
  shared : Embedding;
  encoder : M2M100Encoder;
  decoder : M2M100Decoder
}.

Definition M2M100Model_init (config : ModelArgs) : result M2M100Model :=
  rbind (Embedding_init (vocab_size config) (d_model config)) (fun shared =>
  rbind (M2M100Encoder_init config (Some shared)) (fun enc =>
  rbind (M2M100Decoder_init config (Some shared)) (fun dec =>
  Ok (mkModel config shared enc dec)))).

Definition M2M100Model_call (self : M2M100Model)
    (input_ids : tensor Z) (attention_mask : option (tensor Z))
    (decoder_input_ids : tensor Z)
    (encoder_attention_mask decoder_attention_mask : option array)
    (past_key_values : option (list (array * array))) : M array :=
  encoder_hidden_states <- M2M100Encoder_call (encoder self) input_ids attention_mask ;;
  decoder_hidden_states <-
    M2M100Decoder_call (decoder self) decoder_input_ids (Some encoder_hidden_states)
      decoder_attention_mask encoder_attention_mask past_key_values ;;
  ret decoder_hidden_states.

Record M2M100ForConditionalGeneration : Type := mkForConditionalGeneration {
  gen_config : ModelArgs;
  model : M2M100Model;
  lm_head : Linear
}.

Definition M2M100ForConditionalGeneration_init (config : ModelArgs)
  : result M2M100ForConditionalGeneration :=
  rbind (M2M100Model_init config) (fun m =>
  rbind (Linear_init (d_model config) (vocab_size config) false) (fun head =>
  Ok (mkForConditionalGeneration config m head))).

Definition M2M100ForConditionalGeneration_call (self : M2M100ForConditionalGeneration)
    (input_ids : tensor Z) (attention_mask : option (tensor Z))
    (decoder_input_ids : tensor Z)
    (encoder_attention_mask decoder_attention_mask : option array)
    (past_key_values : option (list (array * array))) : M array :=
  outputs <- M2M100Model_call (model self) input_ids attention_mask decoder_input_ids
               encoder_attention_mask decoder_attention_mask past_key_values ;;
  first <- lift (select_first s_zero outputs) ;;
  lm_logits <- lift (Linear_call (lm_head self) first) ;;
  ret lm_logits.
End Model.

(* ================================================================= *)
(** ** [test.py]: the greedy decode loop of [forward_mlx] (lines 64-109) *)

Section Decode.
Context {B : Backend}.

(** The model object [forward_mlx] drives.  Its class is imported from
    [m2m_100_model], which is not among the sources; the loop only uses the
    members below, taken here as they are called. *)
Record MLXModel : Type := mkMLXModel {
  mlx_eos_token_id : Z;
  mlx_encode : tensor Z -> tensor Z -> M array;
  mlx_decode : tensor Z -> array -> array -> tensor Z
               -> option (list (array * array)) -> M array;
  mlx_lm_head : array -> M array
}.

(** The tokenizer of transformers: the batch it returns and one entry of
    [lang_code_to_id]. *)
Record NllbTokenizer : Type := mkTokenizer {
  tokenize : list string -> tensor Z * tensor Z;
  fra_Latn : Z
}.

(** Lines 90-107: one pass of the loop body.  The new mask column is
    [mx.ones((bsz, 1))]. *)
Definition decode_step (mdl : MLXModel) (encoder_tokens : array)
    (inputs_attention_mask : tensor Z) (bsz : nat)
    (state : tensor Z * array) : M (tensor Z * array) :=
  let (decoder_input_ids, decoder_input_mask) := state in
  outputs <- mlx_decode mdl decoder_input_ids decoder_input_mask encoder_tokens
               inputs_attention_mask None ;;
  all_logits <- mlx_lm_head mdl outputs ;;
  logits <- lift (select_last_axis1 s_zero all_logits) ;;
  next_token <- lift (argmax logits) ;;
  column <- lift (reshape [(-1)%Z; 1%Z] next_token) ;;
  decoder_input_ids <- lift (concatenate 0%Z decoder_input_ids column 1) ;;
  decoder_input_mask <-
    lift (concatenate s_zero decoder_input_mask (generate [bsz; 1] (fun _ => s_one)) 1) ;;
  ret (decoder_input_ids, decoder_input_mask).

(** [for _ in range(n)] *)
Fixpoint decode_loop (n : nat) (mdl : MLXModel) (encoder_tokens : array)
    (inputs_attention_mask : tensor Z) (bsz : nat)
    (state : tensor Z * array) : M (tensor Z * array) :=
  match n with
  | O => ret state
  | S n' =>
      state' <- decode_step mdl encoder_tokens inputs_attention_mask bsz state ;;
      decode_loop n' mdl encoder_tokens inputs_attention_mask bsz state'
  end.

(** Lines 82-86: [[[eos, fra_Latn]] * 2] and [[[1, 1]] * 2]. *)
Definition initial_decoder_input_ids (mdl : MLXModel) (tok : NllbTokenizer) : tensor Z :=
  mkT [2; 2] [mlx_eos_token_id mdl; fra_Latn tok; mlx_eos_token_id mdl; fra_Latn tok].

Definition initial_decoder_input_mask : array :=
  mkT [2; 2] [s_one; s_one; s_one; s_one].

(** The loop of [forward_mlx] with its step count as a parameter. *)
Definition forward_mlx_steps (n : nat) (mdl : MLXModel) (tok : NllbTokenizer)
    (sample_inputs : list string) : M (tensor Z) :=
  let (input_ids, attention_mask) := tokenize tok sample_inputs in
  let bsz := length sample_inputs in
  let decoder_input_ids := initial_decoder_input_ids mdl tok in
  let decoder_input_mask := initial_decoder_input_mask in
  encoder_tokens <- mlx_encode mdl input_ids attention_mask ;;
  final <- decode_loop n mdl encoder_tokens attention_mask bsz
             (decoder_input_ids, decoder_input_mask) ;;
  ret (fst final).

(** [forward_mlx]: [range(10)]. *)
Definition forward_mlx (mdl : MLXModel) (tok : NllbTokenizer)
    (sample_inputs : list string) : M (tensor Z) :=
  forward_mlx_steps 10 mdl tok sample_inputs.
End Decode.

(* ================================================================= *)
(** ** The real-number backend and the concrete inputs of the examples *)

(** Float arithmetic idealised as real arithmetic.  What the reals do not pin
    down is left as a parameter: GELU (an error-function integral) and the
    values drawn for fresh parameters. *)
Definition RBackend (gelu : R -> R) (uniform : list nat -> list nat -> R) : Backend := {|
  scalar := R;
  s_of_Z := IZR;
  s_add := Rplus;
  s_sub := Rminus;
  s_mul := Rmult;
  s_div := Rdiv;
  s_pow := Rpower;
  s_exp := exp;
  s_log := ln;
  s_sqrt := sqrt;
  s_sin := sin;
  s_cos := cos;
  s_gelu := gelu;
  s_ltb := fun a b => if Rlt_dec a b then true else false;
  s_eqb := fun a b => if Req_dec_T a b then true else false;
  s_min_f16 := IZR (-65504);
  s_uniform := uniform
|}.

Section Examples.
Context {B : Backend}.

(** A [nn.Linear(2, 2)] with the given weight and bias entries. *)
Definition linear22 (wb : list scalar * list scalar) : Linear :=
  mkLinear (mkT [2; 2] (fst wb)) (Some (mkT [2] (snd wb))).

(** The loaded parameters of an attention module with [embed_dim = 2]. *)
Record weights22 : Type := mkWeights22 {
  w_k : list scalar * list scalar;
  w_v : list scalar * list scalar;
  w_q : list scalar * list scalar;
  w_out : list scalar * list scalar
}.

(** [M2M100Attention(embed_dim=2, num_heads=1, is_decoder=...)] after
    [load_weights]: [head_dim = 2 // 1 = 2]. *)
Definition attention22 (is_dec : bool) (ws : weights22) : M2M100Attention :=
  mkAttention 2 1 s_zero 2
    (s_pow (s_of_Z 2) (s_div (s_of_Z (-1)) (s_of_Z 2)))
    is_dec is_dec
    (linear22 (w_k ws)) (linear22 (w_v ws)) (linear22 (w_q ws)) (linear22 (w_out ws)).

Definition layer_norm2 : LayerNorm :=
  mkLayerNorm (mkT [2] [s_one; s_one]) (mkT [2] [s_zero; s_zero]).

(** A decoder layer with [d_model = 2], one head, ReLU. *)
Definition decoder_layer22 (ws : weights22) : M2M100DecoderLayer :=
  mkDecoderLayer 2 (attention22 true ws) layer_norm2 (attention22 true ws) layer_norm2
    (Some ReLU) (linear22 (w_k ws)) (linear22 (w_v ws)) layer_norm2.

(** Hidden states of shape [[1, 1, 2]] (one position) and [[1, 2, 2]] (two). *)
Definition hidden_1 (x : list scalar) : array := mkT [1; 1; 2] x.
Definition hidden_2 (x : list scalar) : array := mkT [1; 2; 2] x.

(** A cached key or value of one past position: [[bsz, heads, 1, head_dim]]. *)
Definition cache_1 (x : list scalar) : array := mkT [1; 1; 1; 2] x.

(** Additive masks of shape [[1, 1, tgt_len, src_len]]. *)
Definition mask_1x1 : array := mkT [1; 1; 1; 1] [s_zero].
Definition mask_1x2 : array := mkT [1; 1; 1; 2] [s_zero; s_zero].
Definition mask_2x2 : array := mkT [1; 1; 2; 2] [s_zero; s_zero; s_zero; s_zero].

(** Observations of an outcome: the shape of the array a call returned
    ([None] when it raised or returned a tuple), and the shapes of a
    (key, value) pair. *)
Definition returned_shape (r : result pyval * stdout) : option (list nat) :=
  match fst r with
  | Ok (VArray t) => Some (shape t)
  | _ => None
  end.

Definition pair_shapes (kv : option (array * array)) : option (list nat * list nat) :=
  option_map (fun p => (shape (fst p), shape (snd p))) kv.

Definition result_to_option {A : Type} (r : result A) : option A :=
  match r with
  | Ok a => Some a
  | Err _ => None
  end.

Definition array_shape (r : result array * stdout) : option (list nat) :=
  option_map (@shape scalar) (result_to_option (fst r)).

(** A configuration with [d_model = 2], one head, one layer on each side,
    a vocabulary of four ids, ReLU. *)
Definition small_config : ModelArgs :=
  mkModelArgs 4 16 1 2 1 1 2 1 s_zero s_zero true true "relu" 2
    s_zero s_zero s_zero s_zero 2 true 1 0 2 1.
End Examples.

(* ================================================================= *)
(** ** A closed backend and closed inputs for the worked examples *)

(** The reals, for the examples that need a closed input.  None of them
    applies GELU or reads freshly drawn parameters; the two slots hold the
    identity and 0. *)
Definition real_backend : Backend := RBackend (fun x => x) (fun _ _ => 0%R).

Definition real_weights22 : weights22 (B := real_backend) :=
  let wb : list R * list R := ([1; 0; 0; 1]%R, [0; 0]%R) in
  mkWeights22 (B := real_backend) wb wb wb wb.

(** A configuration with [d_model = 5] and two heads on each side. *)
Definition config_5_2 : ModelArgs (B := real_backend) :=
  mkModelArgs (B := real_backend)
    8 16 1 4 2 1 4 2 0%R 0%R true true "relu" 5 0%R 0%R 0%R 0%R 2 true 1 0 2 1.

(** A configuration with [d_model = 6] and four heads on each side. *)
Definition config_6_4 : ModelArgs (B := real_backend) :=
  mkModelArgs (B := real_backend)
    8 16 1 4 4 1 4 4 0%R 0%R true true "relu" 6 0%R 0%R 0%R 0%R 2 true 1 0 2 1.

(** A model that is forced to the same logits at every step, vocabulary of
    three ids: row 0 prefers id 1, row 1 prefers id 0. *)
Definition forced_logits : array (B := real_backend) :=
  mkT [2; 1; 3] [1; 5; 2; 7; 0; 3]%R.

Definition forced_model : MLXModel (B := real_backend) :=
  mkMLXModel (B := real_backend) 2
    (fun _ _ => ret (mkT [2; 1; 1] [0; 0]%R))
    (fun _ _ _ _ _ => ret (mkT [2; 1; 1] [0; 0]%R))
    (fun _ => ret forced_logits).

Definition two_sentence_tokenizer : NllbTokenizer :=
  mkTokenizer (fun _ => (mkT [2; 1] [0; 0]%Z, mkT [2; 1] [1; 1]%Z)) 256057.

(** [M2M100SinusoidalPositionalEmbedding(1024, 4)] over the reals. *)
Definition positional_embedding_init4 (gelu : R -> R) (uniform : list nat -> list nat -> R)
  : result (M2M100SinusoidalPositionalEmbedding (B := RBackend gelu uniform)) :=
  M2M100SinusoidalPositionalEmbedding_init (B := RBackend gelu uniform) 1024 4 None.

(** The slice [t[:, k:k+n]] of positions the specification speaks of (the
    source has no such operation). *)
Definition slice_positions {A : Type} (d : A) (k n : nat) (t : tensor A) : tensor A :=
  match shape t with
  | d0 :: _ :: rest =>
      generate (d0 :: n :: rest)
        (fun idx => match idx with
                    | i :: j :: r => get d t (i :: (k + j) :: r)
                    | _ => d
                    end)
  | _ => t
  end.

(** What [nn.SinusoidalPositionalEncoding(4)] computes from one int [p] over
    the reals: the frequencies are 1 and 1/10000, the scale is
    [sqrt(2/4)], sines first, cosines after. *)
Definition encoding_row (p : Z) : list R :=
  [(sin (IZR p * 1) * sqrt (1 / 2))%R;
   (sin (IZR p * (1 / 10000)) * sqrt (1 / 2))%R;
   (cos (IZR p * 1) * sqrt (1 / 2))%R;
   (cos (IZR p * (1 / 10000)) * sqrt (1 / 2))%R].

(* ================================================================= *)
(** ** Vocabulary of the statements *)

(** A computation that ends in an exception from the output state [w]. *)
Definition fails {B : Backend} {A : Type} (m : M A) (w : stdout) : Prop :=
  exists e, fst (m w) = Err e.

(** A call that hands back a bare array whenever it returns. *)
Definition returns_array {B : Backend} (m : M pyval) : Prop :=
  forall w, match fst (m w) with
            | Ok (VTuple _ _) => False
            | _ => True
            end.

(** An exception of the array library: either not a [ValueError], or a
    [ValueError] whose message starts with the operation's tag. *)
Definition library_error (e : exn) : Prop :=
  match e with
  | ValueError (String c _) => c = "["%char
  | ValueError EmptyString => False
  | _ => True
  end.

(** A computation whose exceptions all come from the library. *)
Definition only_library_errors {B : Backend} {A : Type} (m : M A) : Prop :=
  forall w e w', m w = (Err e, w') -> library_error e.

(** What [__init__] leaves in an attention module built for [e] and [h]. *)
Definition attention_dims {B : Backend} (a : M2M100Attention) (e h : Z) : Prop :=
  embed_dim a = e /\ num_heads a = h /\ head_dim a = (e / h)%Z
  /\ (e = (h * head_dim a)%Z <-> (e mod h = 0)%Z).

(** A computation whose result and printed lines are the same from every
    state of standard output: it reads nothing but its arguments. *)
Definition oblivious {B : Backend} {A : Type} (m : M A) : Prop :=
  exists r out, forall w, m w = (r, w ++ out).

(** The backend's [<] is a strict order (as it is on floats, NaN included). *)
Definition strict_order {B : Backend} : Prop :=
  (forall a, s_ltb a a = false)
  /\ (forall a b c, s_ltb a b = true -> s_ltb b c = true -> s_ltb a c = true).

(** The encoder [self] as a run finds it when the memory around its
    embedding table holds [outside]. *)
Definition with_memory {B : Backend} (self : M2M100Encoder)
    (outside : Z -> list nat -> scalar) : M2M100Encoder :=
  mkEncoder (enc_padding_idx self) (max_source_positions self) (enc_embed_scale self)
    (mkEmbedding (emb_weight (enc_embed_tokens self)) outside)
    (enc_embed_positions self) (enc_layers self) (enc_layer_norm self).

(** The number of rows of the embedding table of [self]. *)
Definition table_rows {B : Backend} (self : M2M100Encoder) : nat :=
  nth 0 (shape (emb_weight (enc_embed_tokens self))) 0.

(** [input_ids] holds as many ids as its shape says, and every one of them
    indexes the embedding table of [self], from the start or, when negative,
    from the end. *)
Definition ids_in_table {B : Backend} (self : M2M100Encoder) (input_ids : tensor Z) : Prop :=
  well_formed input_ids
  /\ forall id, In id (data input_ids) ->
       (- Z.of_nat (table_rows self) <= id < Z.of_nat (table_rows self))%Z.

(** A row of numbers: no entry is a NaN. *)
Definition number_row {B : Backend} (xs : list scalar) : Prop :=
  Forall (fun x => s_eqb x x = true) xs.

(** The logits of batch row [b] at the last position of [[batch, len, vocab]]. *)
Definition last_logits {B : Backend} (all_logits : array) (b : nat) : list scalar :=
  match shape all_logits with
  | [_; len; vocab] => map (fun v => get s_zero all_logits [b; len - 1; v]) (seq 0 vocab)
  | _ => []
  end.

(** The id greedy decoding picks for row [b]. *)
Definition greedy_token {B : Backend} (all_logits : array) (b : nat) : Z :=
  Z.of_nat (argmax_list (last_logits all_logits b)).

(** One more column on a two-axis array: [col b] in row [b]. *)
Definition append_column {A : Type} (d : A) (t : tensor A) (col : nat -> A) : tensor A :=
  let r := nth 0 (shape t) 0 in
  let n := nth 1 (shape t) 0 in
  generate [r; n + 1]
    (fun idx => match idx with
                | [b; j] => if j <? n then get d t idx else col b
                | _ => d
                end).

(** What the specification has one step do to the decoder ids and mask,
    given the logits of that step: the ids gain, in each row, the greedy id
    of the row, and the mask gains a column of ones. *)
Definition greedy_next {B : Backend} (state : tensor Z * array) (all_logits : array)
    : tensor Z * array :=
  (append_column 0%Z (fst state) (greedy_token all_logits),
   append_column s_zero (snd state) (fun _ => s_one)).

(** A run of the model under greedy decoding.  [trace] lists, step after
    step, the logits that the model's [decode] and [lm_head] return on the
    ids and mask grown by the picks so far; they have shape
    [[2, len, vocab]] with [len, vocab > 0].  The run starts in [state] with
    standard output [w] and ends in [final] with [w']. *)
Fixpoint greedy_run {B : Backend} (mdl : MLXModel) (enc : array) (am : tensor Z)
    (trace : list array) (state : tensor Z * array) (w : stdout)
    (final : tensor Z * array) (w' : stdout) : Prop :=
  match trace with
  | [] => final = state /\ w' = w
  | all_logits :: rest =>
      exists outputs w1 w2 len vocab,
        mlx_decode mdl (fst state) (snd state) enc am None w = (Ok outputs, w1)
        /\ mlx_lm_head mdl outputs w1 = (Ok all_logits, w2)
        /\ shape all_logits = [2; S len; S vocab]
        /\ greedy_run mdl enc am rest (greedy_next state all_logits) w2 final w'
  end.

(** [k_proj] and [q_proj] give arrays of the same size on [hidden_states]
    (both are [nn.Linear(embed_dim, embed_dim)]). *)
Definition same_projection_size {B : Backend} (self : M2M100Attention) (hidden_states : array) : Prop :=
  forall kp qp,
    Linear_call (k_proj self) hidden_states = Ok kp ->
    Linear_call (q_proj self) hidden_states = Ok qp ->
    numel (shape kp) = numel (shape qp).

(* ================================================================= *)
(** ** Well-formed modules

    The shapes a module's parameters have after [__init__] or
    [load_weights] when its dimensions fit together. *)

(** An [nn.Linear(i, o)]: weight [[o, i]], bias [[o]] if any. *)
Definition linear_dims {B : Backend} (l : Linear) (o i : nat) : Prop :=
  shape (weight l) = [o; i]
  /\ match bias l with Some b => shape b = [o] | None => True end.

(** An attention module over [E = H * D] dimensions, [H] heads of [D]. *)
Definition attention_wf {B : Backend} (self : M2M100Attention) (E H D : nat) : Prop :=
  embed_dim self = Z.of_nat E /\ num_heads self = Z.of_nat H
  /\ head_dim self = Z.of_nat D /\ E = H * D /\ 0 < E
  /\ linear_dims (k_proj self) E E /\ linear_dims (v_proj self) E E
  /\ linear_dims (q_proj self) E E /\ linear_dims (out_proj self) E E.

(** An [nn.LayerNorm(E)]. *)
Definition layer_norm_dims {B : Backend} (ln : LayerNorm) (E : nat) : Prop :=
  shape (ln_weight ln) = [E] /\ shape (ln_bias ln) = [E].

(** An encoder layer of width [E] with [F] feed-forward units and an
    activation. *)
Definition encoder_layer_wf {B : Backend} (l : M2M100EncoderLayer) (E H D F : nat) : Prop :=
  attention_wf (el_self_attn l) E H D
  /\ layer_norm_dims (el_self_attn_layer_norm l) E
  /\ el_activation_fn l <> None
  /\ linear_dims (el_fc1 l) F E /\ linear_dims (el_fc2 l) E F
  /\ layer_norm_dims (el_final_layer_norm l) E.

(** A decoder layer of width [E] with [F] feed-forward units and an
    activation. *)
Definition decoder_layer_wf {B : Backend} (l : M2M100DecoderLayer) (E H D F : nat) : Prop :=
  attention_wf (dl_self_attn l) E H D
  /\ layer_norm_dims (dl_self_attn_layer_norm l) E
  /\ attention_wf (dl_encoder_attn l) E H D
  /\ layer_norm_dims (dl_encoder_attn_layer_norm l) E
  /\ dl_activation_fn l <> None
  /\ linear_dims (dl_fc1 l) F E /\ linear_dims (dl_fc2 l) E F
  /\ layer_norm_dims (dl_final_layer_norm l) E.


(** One entry of the sinusoidal table: the encoding of the integer [v] at
    frequency [sigma], after the module's scale. *)
Definition encoding_entry {B : Backend} (spe : SinusoidalPositionalEncoding)
    (wave : scalar -> scalar) (v : Z) (sigma : scalar) : scalar :=
  let y := wave (s_mul (s_of_Z v) sigma) in
  if s_eqb (spe_scale spe) s_one then y else s_mul y (spe_scale spe).

(** An encoder layer with [d_model = 2], one head, ReLU. *)
Definition encoder_layer22 {B : Backend} (ws : weights22) : M2M100EncoderLayer :=
  mkEncoderLayer 2 (attention22 false ws) layer_norm2 (Some ReLU)
    (linear22 (w_k ws)) (linear22 (w_v ws)) layer_norm2.

(** [small_config] over the reals with an activation name the layers do
    not know. *)
Definition tanh_config : ModelArgs (B := real_backend) :=
  mkModelArgs (B := real_backend)
    4 16 1 2 1 1 2 1 0%R 0%R true true "tanh" 2 0%R 0%R 0%R 0%R 2 true 1 0 2 1.

(** [config_6_4] with an activation name the layers do not know. *)
Definition tanh_config_6_4 : ModelArgs (B := real_backend) :=
  mkModelArgs (B := real_backend)
    8 16 1 4 4 1 4 4 0%R 0%R true true "tanh" 6 0%R 0%R 0%R 0%R 2 true 1 0 2 1.

(** An encoder without layers over a table of 4 ids: embedding, positions
    and the final layer norm are all that runs. *)
Definition table4_config : ModelArgs (B := real_backend) :=
  mkModelArgs (B := real_backend) 4 1024 0 4 1 0 4 1 0%R 0%R true true "relu" 4
    0%R 0%R 0%R 0%R 2 false 1 0 2 0.

(** Two contents of the memory around the table: with the first the hidden
    states of the id 7 are [[0, 0, 0, 0]], with the second [[4, 0, 0, 0]]. *)
Definition memory_a : Z -> list nat -> R :=
  fun _ idx => Ropp (nth (nth 0 idx 0) (encoding_row 7) 0%R).

Definition memory_b : Z -> list nat -> R :=
  fun _ idx =>
    Rminus (match idx with [0] => 4%R | _ => 0%R end)
           (nth (nth 0 idx 0) (encoding_row 7) 0%R).

(* ================================================================= *)
(** * Properties *)

(** ** Worked examples of the primitives *)

Example repr_tuple_3 : repr_tuple [2; 3; 4]%Z = "(2, 3, 4)"%string.
Proof. reflexivity. Qed.

Example repr_tuple_1 : repr_tuple [3]%Z = "(3,)"%string.
Proof. reflexivity. Qed.

Example attention_mask_message_example :
  attention_mask_message [1; 1; 1; 1]%Z [1; 1; 1; 2]%Z
  = "Attention mask should be of size (1, 1, 1, 1), but is (1, 1, 1, 2)"%string.
Proof. reflexivity. Qed.

Example indices_2x2 : indices [2; 2] = [[0; 0]; [0; 1]; [1; 0]; [1; 1]].
Proof. reflexivity. Qed.

Example reshape_infers :
  reshape [(-1)%Z; 2%Z] (mkT [2; 3] [1; 2; 3; 4; 5; 6])
  = Ok (mkT [3; 2] [1; 2; 3; 4; 5; 6]).
Proof. reflexivity. Qed.

Example reshape_rejects :
  reshape [4%Z; 2%Z] (mkT [2; 3] [1; 2; 3; 4; 5; 6])
  = Err (ValueError "[reshape] Cannot reshape array").
Proof. reflexivity. Qed.

Example transpose_2x3 :
  transpose 0 [1; 0] (mkT [2; 3] [1; 2; 3; 4; 5; 6])
  = Ok (mkT [3; 2] [1; 4; 2; 5; 3; 6]).
Proof. reflexivity. Qed.

Example concatenate_columns :
  concatenate 0 (mkT [2; 2] [1; 2; 3; 4]) (mkT [2; 1] [7; 8]) 1
  = Ok (mkT [2; 3] [1; 2; 7; 3; 4; 8]).
Proof. reflexivity. Qed.

Example concatenate_last_axis :
  concatenate 0 (mkT [2; 2] [1; 2; 3; 4]) (mkT [2; 1] [7; 8]) (-1)
  = Ok (mkT [2; 3] [1; 2; 7; 3; 4; 8]).
Proof. reflexivity. Qed.

Example broadcast_shapes_example : broadcast_shapes [2; 1; 3] [4; 1] = Some [2; 4; 3].
Proof. reflexivity. Qed.

Example broadcast_add_row :
  binop 0 0 Nat.add (mkT [2; 2] [1; 2; 3; 4]) (mkT [2] [10; 20])
  = Ok (mkT [2; 2] [11; 22; 13; 24]).
Proof. reflexivity. Qed.

Example select_last_position :
  select_last_axis1 0 (mkT [1; 2; 3] [1; 2; 3; 4; 5; 6]) = Ok (mkT [1; 3] [4; 5; 6]).
Proof. reflexivity. Qed.

Example matmul_2x2_2x1 :
  matmul (B := real_backend) (mkT [2; 2] [1; 2; 3; 4]%R) (mkT [2; 1] [5; 6]%R)
  = Ok (mkT [2; 1] [17; 39]%R).
Proof.
  cbv - [Rplus Rmult IZR]. do 2 f_equal. repeat (f_equal; try lra).
Qed.

Example python_floor_division : ((-7) / 2 = -4 /\ 7 / (-2) = -4 /\ 5 / 2 = 2)%Z.
Proof. repeat split. Qed.

(** ** The interpreter monad *)

Section MonadFacts.
Context {B : Backend}.

Lemma bind_ok {A C : Type} (m : M A) (f : A -> M C) (w w' : stdout) (a : A) :
  m w = (Ok a, w') -> bind m f w = f a w'.
Proof. intros H. unfold bind. now rewrite H. Qed.

Lemma bind_err {A C : Type} (m : M A) (f : A -> M C) (w w' : stdout) (e : exn) :
  m w = (Err e, w') -> bind m f w = (Err e, w').
Proof. intros H. unfold bind. now rewrite H. Qed.

Lemma fails_bind_l {A C : Type} (m : M A) (f : A -> M C) (w : stdout) :
  fails m w -> fails (bind m f) w.
Proof.
  intros [e He]. exists e. unfold bind.
  destruct (m w) as [[a | e'] w']; simpl in *; congruence.
Qed.

Lemma fails_bind_r {A C : Type} (m : M A) (f : A -> M C) (w : stdout) :
  (forall a w', fails (f a) w') -> fails (bind m f) w.
Proof.
  intros H. unfold fails, bind.
  destruct (m w) as [[a | e] w'].
  - apply H.
  - now exists e.
Qed.

Lemma fails_raise {A : Type} (e : exn) (w : stdout) : fails (@raise B A e) w.
Proof. now exists e. Qed.
End MonadFacts.

(** ** The top-level decoder *)

(** The first statement of [M2M100Decoder.__call__] decides the call. *)
Lemma decoder_call_eq :
  forall (B : Backend) (self : M2M100Decoder) (input_ids : tensor Z)
         (encoder_hidden_states attention_mask encoder_attention_mask : option array)
         (past_key_values : option (list (array * array))) (w : stdout),
    M2M100Decoder_call self input_ids encoder_hidden_states attention_mask
      encoder_attention_mask past_key_values w
    = (Err (TypeError "'int' object is not callable"), w).
Proof. reflexivity. Qed.

(** C10: [M2M100Decoder.__call__] raises on its first statement,
    [input_ids.size()], whatever its arguments: the call ends with a
    [TypeError], standard output is left as it was (no decoder layer has
    printed anything, none has run), and the outcome is the same for every
    list of layers. *)
Theorem decoder_call_raises_before_layers :
  forall (B : Backend) (self : M2M100Decoder) (input_ids : tensor Z)
         (encoder_hidden_states attention_mask encoder_attention_mask : option array)
         (past_key_values : option (list (array * array))) (w : stdout),
    M2M100Decoder_call self input_ids encoder_hidden_states attention_mask
      encoder_attention_mask past_key_values w
    = (Err (TypeError "'int' object is not callable"), w)
    /\ forall layers : list M2M100DecoderLayer,
        M2M100Decoder_call
          (mkDecoder (dec_padding_idx self) (max_target_positions self)
             (dec_embed_scale self) (dec_embed_tokens self)
             (dec_embed_positions self) layers (dec_layer_norm self))
          input_ids encoder_hidden_states attention_mask
          encoder_attention_mask past_key_values w
        = M2M100Decoder_call self input_ids encoder_hidden_states attention_mask
            encoder_attention_mask past_key_values w.
Proof.
  intros. split; [apply decoder_call_eq | intros; now rewrite !decoder_call_eq].
Qed.

(** The same holds for the modules built on the decoder. *)
Lemma model_call_never_returns :
  forall (B : Backend) (self : M2M100Model) input_ids attention_mask decoder_input_ids
         encoder_attention_mask decoder_attention_mask past_key_values (w : stdout),
    fails (M2M100Model_call self input_ids attention_mask decoder_input_ids
             encoder_attention_mask decoder_attention_mask past_key_values) w.
Proof.
  intros. unfold M2M100Model_call.
  apply fails_bind_r. intros ehs w'.
  apply fails_bind_l.
  exists (TypeError "'int' object is not callable").
  now rewrite decoder_call_eq.
Qed.

(** ** Attention: the mask argument, the return value, the cache *)

Section AttentionFacts.
Context {B : Backend}.

(** Line 146 reads [attention_mask.shape] before line 148 tests for [None]. *)
Lemma print_attention_mask_None (w : stdout) :
  print_attention_mask None w
  = (Err (AttributeError "'NoneType' object has no attribute 'shape'"),
     w ++ [[PStr "attn_weights"; PNone]]).
Proof. reflexivity. Qed.

Lemma attention_call_None_fails (self : M2M100Attention) (hidden_states : array)
    (key_value_states : option array) (past_key_value : option (array * array))
    (w : stdout) :
  fails (M2M100Attention_call self hidden_states key_value_states past_key_value None) w.
Proof.
  unfold M2M100Attention_call.
  apply fails_bind_r. intros st w1.
  apply fails_bind_r. intros _ w2.
  apply fails_bind_l.
  eexists. now rewrite print_attention_mask_None.
Qed.

(** When the scores were computed and have the expected shape, the exception
    is the [AttributeError] of line 146. *)
Lemma attention_call_None_AttributeError (self : M2M100Attention) (hidden_states : array)
    (key_value_states : option array) (past_key_value : option (array * array))
    (w w1 : stdout) (st : scores) :
  attention_scores self hidden_states key_value_states past_key_value w = (Ok st, w1) ->
  py_shape (sc_attn_weights st) = attn_weights_expected self st ->
  M2M100Attention_call self hidden_states key_value_states past_key_value None w
  = (Err (AttributeError "'NoneType' object has no attribute 'shape'"),
     w1 ++ [[PStr "attn_weights"; PNone]]).
Proof.
  intros Hs Hshape. unfold M2M100Attention_call.
  rewrite (bind_ok _ _ _ _ _ Hs).
  unfold check_attn_weights.
  destruct (list_eq_dec Z.eq_dec _ _) as [_ | n]; [| contradiction].
  reflexivity.
Qed.

Lemma returns_array_bind {A : Type} (m : M A) (f : A -> M pyval) :
  (forall a, returns_array (f a)) -> returns_array (bind m f).
Proof.
  intros H w. unfold bind.
  destruct (m w) as [[a | e] w']; [apply H | exact I].
Qed.

Lemma returns_array_ret (t : array) : returns_array (ret (VArray t)).
Proof. intros w. exact I. Qed.

(** What the attention call hands back is [VArray attn_output] (line 169),
    for every module, [is_decoder] or not, and every argument. *)
Lemma attention_call_returns_array (self : M2M100Attention) (hidden_states : array)
    (key_value_states : option array) (past_key_value : option (array * array))
    (attention_mask : option array) :
  returns_array
    (M2M100Attention_call self hidden_states key_value_states past_key_value attention_mask).
Proof.
  unfold M2M100Attention_call, attention_output.
  repeat (apply returns_array_bind; intros).
  apply returns_array_ret.
Qed.

(** The decoder layer hands back [VArray hidden_states] (line 277). *)
Lemma decoder_layer_call_returns_array (self : M2M100DecoderLayer) (hidden_states : array)
    (encoder_hidden_states attention_mask encoder_attention_mask : option array) :
  returns_array
    (M2M100DecoderLayer_call self hidden_states encoder_hidden_states attention_mask
       encoder_attention_mask).
Proof.
  unfold M2M100DecoderLayer_call.
  repeat (apply returns_array_bind; intros).
  apply returns_array_ret.
Qed.
End AttentionFacts.

(** C9: a self-attention call with [attention_mask = None] never returns.
    Line 146 prints [attention_mask.shape] before the [is not None] test of
    line 148, so every such call ends in an exception; on a well-shaped input
    (one position, [embed_dim = 2], any weights and values) it is the
    [AttributeError] of that line, raised after the scores were computed and
    before the softmax. *)
Theorem self_attention_without_mask_raises :
  forall B : Backend,
    (forall (self : M2M100Attention) (hidden_states : array)
            (past_key_value : option (array * array)) (w : stdout),
        fails (M2M100Attention_call self hidden_states None past_key_value None) w)
    /\ (forall (ws : weights22) (x : list scalar),
          M2M100Attention_call (attention22 false ws) (hidden_1 x) None None None []
          = (Err (AttributeError "'NoneType' object has no attribute 'shape'"),
             [[PStr "hidden_states"; PShape [1; 1; 2]%Z];
              [PShape [1; 1; 2]%Z]; [PShape [1; 1; 2]%Z]; [PShape [1; 1; 2]%Z];
              [PStr "attn_weights"; PNone]])).
Proof.
  intros B. split.
  - intros. apply attention_call_None_fails.
  - intros. reflexivity.
Qed.

(** C3: the attention call of a decoder module ([is_decoder = True]) computes
    the updated (key, value) pair at line 128 and then returns the attention
    output alone; the decoder layer returns its hidden states alone.  Neither
    ever returns a tuple, and on a well-shaped input (one position,
    [embed_dim = 2], any weights and values) both do return, an array of
    shape [[1, 1, 2]]. *)
Theorem decoder_attention_returns_output_only :
  forall B : Backend,
    (forall self hidden_states key_value_states past_key_value attention_mask,
        returns_array (M2M100Attention_call self hidden_states key_value_states
                         past_key_value attention_mask))
    /\ (forall self hidden_states encoder_hidden_states attention_mask
               encoder_attention_mask,
          returns_array (M2M100DecoderLayer_call self hidden_states
                           encoder_hidden_states attention_mask encoder_attention_mask))
    /\ (forall (ws : weights22) (x : list scalar),
          option_map (fun st => pair_shapes (sc_cache st))
            (result_to_option
               (fst (attention_scores (attention22 true ws) (hidden_1 x) None None [])))
          = Some (Some ([1; 1; 1; 2], [1; 1; 1; 2]))
          /\ returned_shape
               (M2M100Attention_call (attention22 true ws) (hidden_1 x) None None
                  (Some mask_1x1) [])
             = Some [1; 1; 2])
    /\ (forall (ws : weights22) (x e : list scalar),
          returned_shape
            (M2M100DecoderLayer_call (decoder_layer22 ws) (hidden_1 x)
               (Some (hidden_1 e)) (Some mask_1x1) (Some mask_1x1) [])
          = Some [1; 1; 2]).
Proof.
  intros B. repeat split.
  - apply attention_call_returns_array.
  - apply decoder_layer_call_returns_array.
Qed.

(** *** A cache of at least one position *)

Section CacheFacts.
Context {B : Backend}.

Lemma bind_Ok_inv {A C : Type} (m : M A) (f : A -> M C) (w w' : stdout) (c : C) :
  bind m f w = (Ok c, w') ->
  exists a w1, m w = (Ok a, w1) /\ f a w1 = (Ok c, w').
Proof.
  unfold bind. destruct (m w) as [[a | e] w1]; [eauto | discriminate].
Qed.

Lemma lift_Ok_inv {A : Type} (r : result A) (w w' : stdout) (a : A) :
  lift r w = (Ok a, w') -> r = Ok a /\ w' = w.
Proof. unfold lift. intros H. inversion H. auto. Qed.

Lemma reshape_Ok {A : Type} (args : list Z) (t r : tensor A) :
  reshape args t = Ok r ->
  infer_shape (numel (shape t)) args = Ok (shape r) /\ data r = data t.
Proof.
  unfold reshape, rbind. destruct (infer_shape _ _) as [sh | e]; [| discriminate].
  intros H. inversion H. auto.
Qed.

Lemma infer_shape_numel (size : nat) (args : list Z) (sh : list nat) :
  infer_shape size args = Ok sh -> numel sh = size.
Proof.
  unfold infer_shape.
  destruct (existsb _ _); [discriminate |].
  destruct (length (filter _ args)) as [| [| n]]; [| | discriminate].
  - destruct (numel _ =? size) eqn:E; [| discriminate].
    intros H. inversion H; subst. now apply Nat.eqb_eq.
  - destruct (_ =? 0); [discriminate |].
    destruct (numel _ =? size) eqn:E; [| discriminate].
    intros H. inversion H; subst. now apply Nat.eqb_eq.
Qed.

(** The shape inferred for [(bsz, -1, num_heads, head_dim)]. *)
Lemma infer_shape_heads (size bsz : nat) (h d : Z) (sh : list nat) :
  infer_shape size [Z.of_nat bsz; (-1)%Z; h; d] = Ok sh ->
  (0 <= h)%Z /\ (0 <= d)%Z
  /\ bsz * (Z.to_nat h * (Z.to_nat d * 1)) <> 0
  /\ exists len, sh = [bsz; len; Z.to_nat h; Z.to_nat d].
Proof.
  unfold infer_shape. cbn [existsb filter].
  destruct (Z.ltb_spec (Z.of_nat bsz) (-1)); [lia |].
  destruct (Z.ltb_spec h (-1)); [cbn; rewrite ?orb_true_r; discriminate |].
  destruct (Z.ltb_spec d (-1)); [cbn; rewrite ?orb_true_r; discriminate |].
  cbn [orb Z.ltb Z.compare].
  destruct (Z.eqb_spec (Z.of_nat bsz) (-1)) as [| Hb]; [lia |].
  change (-1 =? -1)%Z with true. cbn [negb].
  destruct (Z.eqb_spec h (-1)) as [| Hh]; [destruct (d =? -1)%Z; discriminate |].
  destruct (Z.eqb_spec d (-1)) as [| Hd]; [discriminate |].
  cbn [length negb map numel fold_right].
  rewrite Nat2Z.id.
  destruct (Nat.eqb_spec (bsz * (Z.to_nat h * (Z.to_nat d * 1))) 0); [discriminate |].
  destruct (_ =? size); [| discriminate].
  intros Hsh. inversion Hsh; subst.
  repeat split; try lia.
  rewrite (proj2 (Z.eqb_neq _ _) Hb), (proj2 (Z.eqb_neq _ _) Hh),
    (proj2 (Z.eqb_neq _ _) Hd).
  eauto.
Qed.

(** The shape accepted for a tuple without [-1]. *)
Lemma infer_shape_exact (size : nat) (args : list Z) (sh : list nat) :
  forallb (fun z => (0 <=? z)%Z) args = true ->
  infer_shape size args = Ok sh -> sh = map Z.to_nat args.
Proof.
  intros Hpos. unfold infer_shape.
  destruct (existsb _ _); [discriminate |].
  assert (Hf : filter (fun z => (z =? -1)%Z) args = []).
  { induction args as [| z args IH]; [reflexivity |].
    simpl in *. apply andb_prop in Hpos. destruct Hpos as [Hz Hr].
    destruct (Z.eqb_spec z (-1)); [apply Z.leb_le in Hz; lia | now apply IH]. }
  rewrite Hf. cbn [length].
  destruct (_ =? size); [| discriminate].
  intros H. now inversion H.
Qed.

Lemma transpose_heads_Ok {A : Type} (d : A) (t r : tensor A) (a b c e : nat) :
  shape t = [a; b; c; e] -> transpose d [0; 2; 1; 3] t = Ok r -> shape r = [a; c; b; e].
Proof.
  intros Hs. unfold transpose. rewrite Hs.
  destruct (is_perm _ _); [| discriminate].
  intros H. inversion H. reflexivity.
Qed.

Lemma concatenate_axis2_Ok {A : Type} (d : A) (x y r : tensor A) (a b c e : nat) :
  shape y = [a; b; c; e] -> concatenate d x y 2 = Ok r ->
  shape r = [a; b; nth 2 (shape x) 0 + c; e].
Proof.
  intros Hy. unfold concatenate. rewrite Hy.
  destruct (norm_axis 2 (length (shape x))) as [ax |] eqn:Hax; [| discriminate].
  unfold norm_axis in Hax. cbn [Z.ltb Z.compare] in Hax.
  destruct ((0 <=? 2) && (2 <? Z.of_nat (length (shape x))))%Z; [| discriminate].
  inversion Hax; subst ax. change (Z.to_nat 2) with 2.
  destruct (length (shape x) =? length [a; b; c; e]) eqn:Hl; [| discriminate].
  apply Nat.eqb_eq in Hl.
  destruct (shape x) as [| x0 [| x1 [| x2 [| x3 [| ? ?]]]]]; try discriminate.
  cbn [andb].
  destruct (list_eq_dec _ _ _) as [E | _]; [| discriminate].
  intros H. inversion H. cbn in E. inversion E; subst. reflexivity.
Qed.

Lemma shape_call_Ok (self : M2M100Attention) (t r : array) (seq_len : Z) (bsz : nat)
    (w w' : stdout) :
  _shape self t seq_len bsz w = (Ok r, w') ->
  exists r0,
    infer_shape (numel (shape t)) [Z.of_nat bsz; seq_len; num_heads self; head_dim self]
    = Ok (shape r0)
    /\ transpose s_zero [0; 2; 1; 3] r0 = Ok r.
Proof.
  unfold _shape. intros H.
  apply bind_Ok_inv in H. destruct H as (u & w1 & _ & H).
  apply bind_Ok_inv in H. destruct H as (r0 & w2 & Hr & H).
  apply lift_Ok_inv in Hr. destruct Hr as [Hr _].
  apply lift_Ok_inv in H. destruct H as [H _].
  apply reshape_Ok in Hr. destruct Hr as [Hr _].
  eauto.
Qed.

Lemma cached_key_shape (self : M2M100Attention) (hs pk pv key value : array)
    (bsz : nat) (w w' : stdout) :
  key_value_states_of self hs None (Some (pk, pv)) bsz w = (Ok (key, value), w') ->
  exists kp len,
    Linear_call (k_proj self) hs = Ok kp
    /\ (0 <= num_heads self)%Z /\ (0 <= head_dim self)%Z
    /\ bsz * (Z.to_nat (num_heads self) * (Z.to_nat (head_dim self) * 1)) <> 0
    /\ numel [bsz; len; Z.to_nat (num_heads self); Z.to_nat (head_dim self)]
       = numel (shape kp)
    /\ shape key = [bsz; Z.to_nat (num_heads self); nth 2 (shape pk) 0 + len;
                    Z.to_nat (head_dim self)].
Proof.
  unfold key_value_states_of, project_kv. intros H.
  apply bind_Ok_inv in H. destruct H as ([k0 v0] & w1 & Hp & H).
  apply bind_Ok_inv in Hp. destruct Hp as (kp & w2 & Hkp & Hp).
  apply lift_Ok_inv in Hkp. destruct Hkp as [Hkp _].
  apply bind_Ok_inv in Hp. destruct Hp as (k1 & w3 & Hk1 & Hp).
  apply bind_Ok_inv in Hp. destruct Hp as (vp & w4 & _ & Hp).
  apply bind_Ok_inv in Hp. destruct Hp as (v1 & w5 & _ & Hp).
  inversion Hp; subst k0 v0 w1. clear Hp.
  apply bind_Ok_inv in H. destruct H as (key1 & w6 & Hc & H).
  apply lift_Ok_inv in Hc. destruct Hc as [Hc _].
  apply bind_Ok_inv in H. destruct H as (val1 & w7 & _ & H).
  inversion H; subst key1 val1 w7. clear H.
  apply shape_call_Ok in Hk1. destruct Hk1 as (r0 & Hinf & Htr).
  pose proof (infer_shape_numel _ _ _ Hinf) as Hnum.
  apply infer_shape_heads in Hinf. destruct Hinf as (Hh & Hd & Hk & len & Hsh).
  rewrite Hsh in Hnum.
  pose proof (transpose_heads_Ok s_zero r0 k1 _ _ _ _ Hsh Htr) as Hk1.
  pose proof (concatenate_axis2_Ok s_zero pk k1 key _ _ _ _ Hk1 Hc) as Hkey.
  exists kp, len. repeat split; auto.
Qed.

(** A call with a cache that holds at least one position never returns: the
    concatenated key is longer than [tgt_len], and line 133 reshapes it to
    [proj_shape], which is built from [tgt_len]. *)
Lemma cached_self_attention_fails (self : M2M100Attention) (hs pk pv : array)
    (attention_mask : option array) (w : stdout) :
  same_projection_size self hs ->
  nth 2 (shape pk) 0 <> 0 ->
  fails (M2M100Attention_call self hs None (Some (pk, pv)) attention_mask) w.
Proof.
  intros Hsame Hpast. unfold M2M100Attention_call. apply fails_bind_l.
  destruct (attention_scores self hs None (Some (pk, pv)) w) as [[st | e] w'] eqn:E;
    [exfalso | exists e; now rewrite E].
  unfold attention_scores in E.
  apply bind_Ok_inv in E. destruct E as (u & w1 & _ & E).
  apply bind_Ok_inv in E. destruct E as ([[bsz tgt] edim] & w2 & _ & E).
  apply bind_Ok_inv in E. destruct E as (query & w3 & Hq & E).
  apply lift_Ok_inv in Hq. destruct Hq as [Hq _].
  apply bind_Ok_inv in E. destruct E as ([key value] & w4 & Hkv & E).
  apply bind_Ok_inv in E. destruct E as (q & w5 & Hqs & E).
  apply bind_Ok_inv in E. destruct E as (q' & w6 & _ & E).
  apply bind_Ok_inv in E. destruct E as (key' & w7 & Hkr & _).
  apply lift_Ok_inv in Hkr. destruct Hkr as [Hkr _].
  apply cached_key_shape in Hkv.
  destruct Hkv as (kp & len & Hkp & Hh & Hd & Hk & Hnum & Hkey).
  specialize (Hsame kp query Hkp Hq).
  apply shape_call_Ok in Hqs. destruct Hqs as (r0 & Hinf & _).
  pose proof (infer_shape_numel _ _ _ Hinf) as Hnq.
  apply infer_shape_exact in Hinf;
    [| cbn [forallb]; rewrite !andb_true_r;
       repeat (apply andb_true_intro; split); apply Z.leb_le; lia].
  rewrite Hinf in Hnq.
  apply reshape_Ok in Hkr. destruct Hkr as [Hkr _].
  pose proof (infer_shape_numel _ _ _ Hkr) as Hnk.
  apply infer_shape_exact in Hkr;
    [| cbn [forallb]; rewrite !andb_true_r;
       repeat (apply andb_true_intro; split); apply Z.leb_le; lia].
  rewrite Hkr, Hkey in Hnk.
  cbn [map numel fold_right] in *.
  rewrite !Nat2Z.id in *.
  rewrite Z2Nat.inj_mul, Nat2Z.id in Hnk by lia.
  nia.
Qed.
End CacheFacts.

(** C2: incremental self-attention does not reproduce the full call.
    A call with a self-attention cache projects the new positions only and
    concatenates them to the cached key and value on axis 2 (lines 119-122),
    and then raises at line 133, where the concatenated key is reshaped to
    [proj_shape], built from [tgt_len]:
    - every call with a cache of at least one position ends in an exception
      (for [k_proj] and [q_proj] of the same output size);
    - with [embed_dim = 2], one head and any weight and input values, the
      call over the full two-position sequence returns hidden states of shape
      [[1, 2, 2]], while the call for the second position alone, given the
      first position's key and value, builds key and value of shape
      [[1, 1, 2, 2]] and raises. *)
Theorem incremental_self_attention_raises :
  forall B : Backend,
    (forall (self : M2M100Attention) (hidden_states pk pv : array)
            (attention_mask : option array) (w : stdout),
        same_projection_size self hidden_states ->
        nth 2 (shape pk) 0 <> 0 ->
        fails (M2M100Attention_call self hidden_states None (Some (pk, pv))
                 attention_mask) w)
    /\ (forall (ws : weights22) (x x2 ck cv : list scalar),
          returned_shape
            (M2M100Attention_call (attention22 true ws) (hidden_2 x) None None
               (Some mask_2x2) [])
          = Some [1; 2; 2]
          /\ pair_shapes
               (result_to_option
                  (fst (key_value_states_of (attention22 true ws) (hidden_1 x2) None
                          (Some (cache_1 ck, cache_1 cv)) 1 [])))
             = Some ([1; 1; 2; 2], [1; 1; 2; 2])
          /\ (forall (attention_mask : option array) (w : stdout),
                fst (M2M100Attention_call (attention22 true ws) (hidden_1 x2) None
                       (Some (cache_1 ck, cache_1 cv)) attention_mask w)
                = Err (ValueError "[reshape] Cannot reshape array")))
    /\ (forall (ws : weights22) (x : list scalar),
          same_projection_size (attention22 true ws) (hidden_1 x)).
Proof.
  intros B. split; [| split].
  - intros. now apply cached_self_attention_fails.
  - intros. split; [reflexivity | split; [reflexivity | intros; reflexivity]].
  - intros ws x kp qp Hk Hq.
    apply (f_equal (fun r => option_map (@shape scalar) (result_to_option r))) in Hk, Hq.
    cbn in Hk, Hq. inversion Hk. inversion Hq. reflexivity.
Qed.

(** ** The two shape checks of the attention call *)

Lemma library_error_not_weights (e : exn) (a b : list Z) :
  library_error e -> e <> ValueError (attn_weights_message a b).
Proof. intros H ->. discriminate H. Qed.

Lemma library_error_not_mask (e : exn) (a b : list Z) :
  library_error e -> e <> ValueError (attention_mask_message a b).
Proof. intros H ->. discriminate H. Qed.

Section LibraryErrors.
Context {B : Backend}.

Lemma infer_shape_error (n : nat) (args : list Z) (e : exn) :
  infer_shape n args = Err e -> library_error e.
Proof.
  unfold infer_shape.
  repeat match goal with
         | |- context [if ?c then _ else _] => destruct c
         | |- context [match ?n with O => _ | S _ => _ end] => destruct n
         end; intros H; inversion H; reflexivity.
Qed.

Lemma reshape_error {A : Type} (args : list Z) (t : tensor A) (e : exn) :
  reshape args t = Err e -> library_error e.
Proof.
  unfold reshape, rbind.
  destruct (infer_shape _ _) eqn:E; intros H; inversion H; subst.
  eapply infer_shape_error; eauto.
Qed.

Lemma transpose_error {A : Type} (d : A) (perm : list nat) (t : tensor A) (e : exn) :
  transpose d perm t = Err e -> library_error e.
Proof.
  unfold transpose. destruct (is_perm _ _); intros H; inversion H; reflexivity.
Qed.

Lemma binop_error {X Y Z' : Type} (dx : X) (dy : Y) (f : X -> Y -> Z')
    (a : tensor X) (b : tensor Y) (e : exn) :
  binop dx dy f a b = Err e -> library_error e.
Proof.
  unfold binop. destruct (broadcast_shapes _ _); intros H; inversion H; reflexivity.
Qed.

Lemma matmul_error (a b : array) (e : exn) :
  matmul a b = Err e -> library_error e.
Proof.
  unfold matmul.
  repeat match goal with
         | |- context [match ?x with Some _ => _ | None => _ end] => destruct x
         | |- context [let (_, _) := ?p in _] => destruct p
         | |- context [if ?c then _ else _] => destruct c
         end; intros H; inversion H; reflexivity.
Qed.

Lemma softmax_error (a : array) (e : exn) :
  softmax a = Err e -> library_error e.
Proof.
  unfold softmax, on_rows. destruct (shape a); intros H; inversion H; reflexivity.
Qed.

Lemma Linear_call_error (l : Linear) (x : array) (e : exn) :
  Linear_call l x = Err e -> library_error e.
Proof.
  unfold Linear_call, rbind, transpose_all.
  destruct (transpose _ _ _) eqn:Et; [| intros H; inversion H; subst; eapply transpose_error; eauto].
  destruct (matmul _ _) eqn:Em; [| intros H; inversion H; subst; eapply matmul_error; eauto].
  destruct (bias l); [| discriminate].
  apply binop_error.
Qed.

Lemma only_library_bind {A C : Type} (m : M A) (f : A -> M C) :
  only_library_errors m -> (forall a, only_library_errors (f a)) ->
  only_library_errors (bind m f).
Proof.
  intros Hm Hf w e w'. unfold bind.
  destruct (m w) as [[a | e0] w0] eqn:E.
  - apply Hf.
  - intros H; inversion H; subst. eapply Hm; eauto.
Qed.

Lemma only_library_lift {A : Type} (r : result A) :
  (forall e, r = Err e -> library_error e) -> only_library_errors (lift r).
Proof. intros H w e w' E. inversion E; subst. now apply H. Qed.

Lemma only_library_ret {A : Type} (a : A) : only_library_errors (ret a).
Proof. intros w e w' E. inversion E. Qed.

Lemma only_library_print (items : list pyprint) : only_library_errors (print items).
Proof. intros w e w' E. inversion E. Qed.
End LibraryErrors.

Section ShapeChecks.
Context {B : Backend}.

Lemma attention_output_only_library (self : M2M100Attention) (st : scores) (a : array) :
  only_library_errors (attention_output self st a).
Proof.
  unfold attention_output.
  repeat first
    [ apply only_library_bind; [| intros]
    | apply only_library_ret
    | apply only_library_print
    | apply only_library_lift; intros e He;
      first [ eapply reshape_error; eassumption
            | eapply transpose_error; eassumption
            | eapply matmul_error; eassumption
            | eapply softmax_error; eassumption
            | eapply Linear_call_error; eassumption ] ].
Qed.

(** After a mask of the expected shape passed line 149, lines 154-155 raise
    library errors only. *)
Lemma add_mask_after_check_only_library (self : M2M100Attention) (st : scores) (m : array) :
  only_library_errors
    (w4 <- lift (reshape [Z.of_nat (sc_bsz st); num_heads self;
                          Z.of_nat (sc_tgt_len st); Z.of_nat (sc_src_len st)]
                   (sc_attn_weights st)) ;;
     w4 <- lift (add w4 m) ;;
     lift (reshape [(Z.of_nat (sc_bsz st) * num_heads self)%Z;
                    Z.of_nat (sc_tgt_len st); Z.of_nat (sc_src_len st)] w4)).
Proof.
  repeat first
    [ apply only_library_bind; [| intros]
    | apply only_library_lift; intros e He;
      first [ eapply reshape_error; eassumption
            | eapply binop_error; eassumption ] ].
Qed.

(** The statements after the first check (lines 145-169), for a mask that is
    absent or of the expected shape, raise neither of the two messages. *)
Lemma after_checks_only_library (self : M2M100Attention) (st : scores)
    (attention_mask : option array) :
  (forall m, attention_mask = Some m -> py_shape m = attention_mask_expected st) ->
  only_library_errors
    (print_attention_mask attention_mask ;;;
     attn_weights <- add_attention_mask self st attention_mask ;;
     attention_output self st attn_weights).
Proof.
  intros Hmask. destruct attention_mask as [m |].
  - specialize (Hmask m eq_refl).
    apply only_library_bind.
    + unfold print_attention_mask.
      apply only_library_bind; [apply only_library_print | intros; apply only_library_print].
    + intros _. apply only_library_bind.
      * unfold add_attention_mask, check_attention_mask.
        destruct (list_eq_dec Z.eq_dec _ _) as [_ | n]; [| contradiction].
        apply only_library_bind; [apply only_library_ret | intros _].
        apply add_mask_after_check_only_library.
      * intros a. apply attention_output_only_library.
  - apply only_library_bind.
    + intros w e w' H. inversion H; subst. exact I.
    + intros _. apply only_library_bind.
      * apply only_library_ret.
      * intros a. apply attention_output_only_library.
Qed.
End ShapeChecks.

(** ** Construction: [head_dim] *)

Section Construction.
Context {B : Backend}.

Lemma rbind_Ok {X Y : Type} (r : result X) (f : X -> result Y) (y : Y) :
  rbind r f = Ok y -> exists x, r = Ok x /\ f x = Ok y.
Proof. destruct r as [x | e]; simpl; [eauto | discriminate]. Qed.

Lemma floor_quotient_exact (e h : Z) :
  h <> 0%Z -> (e = h * (e / h) <-> e mod h = 0)%Z.
Proof.
  intros Hh. pose proof (Z.div_mod e h Hh). lia.
Qed.

Lemma attention_init_dims (e h : Z) (dr : scalar) (dec bias causal : bool)
    (a : M2M100Attention) :
  M2M100Attention_init e h dr dec bias causal = Ok a -> attention_dims a e h.
Proof.
  unfold M2M100Attention_init.
  destruct (h =? 0)%Z eqn:Hh; [discriminate |].
  destruct (e / h =? 0)%Z; [discriminate |].
  intros H.
  repeat (apply rbind_Ok in H; destruct H as [? [_ H]]).
  inversion H; subst; clear H. unfold attention_dims; simpl.
  repeat split; try reflexivity; apply floor_quotient_exact; lia.
Qed.

Lemma Linear_init_ok (i o : Z) (bias : bool) :
  (0 < i)%Z -> (0 <= o)%Z -> is_ok (Linear_init i o bias) = true.
Proof.
  intros Hi Ho. unfold Linear_init.
  destruct (i =? 0)%Z eqn:E1; [lia |].
  destruct (i <? 0)%Z eqn:E2; [lia |].
  destruct (o <? 0)%Z eqn:E3; [lia | reflexivity].
Qed.

Lemma is_ok_rbind {X Y : Type} (r : result X) (f : X -> result Y) :
  is_ok r = true -> (forall x, is_ok (f x) = true) -> is_ok (rbind r f) = true.
Proof. destruct r; simpl; [auto | discriminate]. Qed.

(** No divisibility test: construction succeeds whenever there is at least
    one head and no more heads than dimensions. *)
Lemma attention_init_ok (e h : Z) (dr : scalar) (dec bias causal : bool) :
  (0 < h <= e)%Z -> is_ok (M2M100Attention_init e h dr dec bias causal) = true.
Proof.
  intros Hh. unfold M2M100Attention_init.
  destruct (h =? 0)%Z eqn:E1; [lia |].
  assert (0 < e / h)%Z by (apply Z.div_str_pos; lia).
  destruct (e / h =? 0)%Z eqn:E2; [lia |].
  repeat (apply is_ok_rbind; [apply Linear_init_ok; lia | intros]).
  reflexivity.
Qed.

(** C6 (as the code has it): [head_dim] is the floor quotient
    [embed_dim // num_heads] in every attention module of an encoder layer
    (built from [encoder_attention_heads]) and of a decoder layer (both
    modules, built from [decoder_attention_heads]); [embed_dim] equals
    [num_heads * head_dim] exactly when the head count divides it; and
    construction raises nothing for [0 < num_heads <= embed_dim], divisible
    or not. *)
Theorem head_dim_is_floor_quotient :
  forall config : ModelArgs,
    (forall l, M2M100EncoderLayer_init config = Ok l ->
       attention_dims (el_self_attn l) (d_model config) (encoder_attention_heads config))
    /\ (forall l, M2M100DecoderLayer_init config = Ok l ->
          attention_dims (dl_self_attn l) (d_model config) (decoder_attention_heads config)
          /\ attention_dims (dl_encoder_attn l) (d_model config)
               (decoder_attention_heads config))
    /\ (forall (e h : Z) (dr : scalar) (dec bias causal : bool),
          (0 < h <= e)%Z ->
          is_ok (M2M100Attention_init e h dr dec bias causal) = true).
Proof.
  intros config. split; [| split].
  - intros l H. unfold M2M100EncoderLayer_init in H.
    apply rbind_Ok in H. destruct H as [a [Ha H]].
    repeat (apply rbind_Ok in H; destruct H as [? [_ H]]).
    inversion H; subst; simpl. eapply attention_init_dims; eauto.
  - intros l H. unfold M2M100DecoderLayer_init in H.
    apply rbind_Ok in H. destruct H as [a [Ha H]].
    apply rbind_Ok in H. destruct H as [? [_ H]].
    apply rbind_Ok in H. destruct H as [a2 [Ha2 H]].
    repeat (apply rbind_Ok in H; destruct H as [? [_ H]]).
    inversion H; subst; simpl.
    split; eapply attention_init_dims; eauto.
  - intros. now apply attention_init_ok.
Qed.
End Construction.

(** ** Determinism of the encoder *)

Section Determinism.
Context {B : Backend}.

Lemma oblivious_ret {A : Type} (a : A) : oblivious (ret a).
Proof. exists (Ok a), []. intros w. unfold ret. now rewrite app_nil_r. Qed.

Lemma oblivious_raise {A : Type} (e : exn) : oblivious (@raise B A e).
Proof. exists (Err e), []. intros w. unfold raise. now rewrite app_nil_r. Qed.

Lemma oblivious_lift {A : Type} (r : result A) : oblivious (lift r).
Proof. exists r, []. intros w. unfold lift. now rewrite app_nil_r. Qed.

Lemma oblivious_print (items : list pyprint) : oblivious (print items).
Proof. exists (Ok tt), [items]. reflexivity. Qed.

Lemma oblivious_bind {A C : Type} (m : M A) (f : A -> M C) :
  oblivious m -> (forall a, oblivious (f a)) -> oblivious (bind m f).
Proof.
  intros [r [out Hm]] Hf. destruct r as [a | e].
  - destruct (Hf a) as [r2 [out2 H2]].
    exists r2, (out ++ out2). intros w. unfold bind.
    rewrite Hm, H2. now rewrite app_assoc.
  - exists (Err e), out. intros w. unfold bind. now rewrite Hm.
Qed.

Ltac oblivious_step :=
  first
    [ apply oblivious_ret
    | apply oblivious_raise
    | apply oblivious_lift
    | apply oblivious_print
    | apply oblivious_bind; [| intros]
    | match goal with
      | |- oblivious (match ?x with _ => _ end) => destruct x
      | |- oblivious (if ?c then _ else _) => destruct c
      end ].

Lemma oblivious_shape (self : M2M100Attention) (t : array) (seq_len : Z) (bsz : nat) :
  oblivious (_shape self t seq_len bsz).
Proof. unfold _shape. repeat oblivious_step. Qed.

Lemma oblivious_project_kv (self : M2M100Attention) (source : array) (bsz : nat) :
  oblivious (project_kv self source bsz).
Proof.
  unfold project_kv.
  repeat first [apply oblivious_shape | oblivious_step].
Qed.

Lemma oblivious_key_value_states_of (self : M2M100Attention) (hs : array)
    (kvs : option array) (pkv : option (array * array)) (bsz : nat) :
  oblivious (key_value_states_of self hs kvs pkv bsz).
Proof.
  unfold key_value_states_of.
  repeat first [apply oblivious_project_kv | oblivious_step].
Qed.

Lemma oblivious_attention_call (self : M2M100Attention) (hs : array)
    (kvs : option array) (pkv : option (array * array)) (mask : option array) :
  oblivious (M2M100Attention_call self hs kvs pkv mask).
Proof.
  unfold M2M100Attention_call, attention_scores, check_attn_weights,
    print_attention_mask, add_attention_mask, check_attention_mask, attention_output.
  repeat first
    [ apply oblivious_key_value_states_of | apply oblivious_shape | oblivious_step ].
Qed.

Lemma oblivious_encoder_layer_call (self : M2M100EncoderLayer) (hs : array)
    (mask : option array) :
  oblivious (M2M100EncoderLayer_call self hs mask).
Proof.
  unfold M2M100EncoderLayer_call.
  repeat first [apply oblivious_attention_call | oblivious_step].
Qed.

Lemma oblivious_encoder_layers_loop (layers : list M2M100EncoderLayer) (hs : array)
    (mask : option array) :
  oblivious (encoder_layers_loop layers hs mask).
Proof.
  revert hs. induction layers as [| layer rest IH]; intros hs; simpl.
  - apply oblivious_ret.
  - apply oblivious_bind; [apply oblivious_encoder_layer_call | intros; apply IH].
Qed.

Lemma oblivious_encoder_call (self : M2M100Encoder) (input_ids : tensor Z)
    (attention_mask : option (tensor Z)) :
  oblivious (M2M100Encoder_call self input_ids attention_mask).
Proof.
  unfold M2M100Encoder_call.
  repeat first [apply oblivious_encoder_layers_loop | oblivious_step].
Qed.

(** The encoder does return on a well-formed input: built from
    [small_config], on two token ids with a mask of ones, it gives hidden
    states of shape [[1, 2, 2]]. *)
Lemma encoder_returns (a b : Z) :
  match M2M100Encoder_init small_config None with
  | Ok enc =>
      array_shape (M2M100Encoder_call enc (mkT [1; 2] [a; b])
                     (Some (mkT [1; 2] [1%Z; 1%Z])) [])
      = Some [1; 2; 2]
  | Err _ => False
  end.
Proof.
  set (r := M2M100Encoder_init small_config None).
  lazy in r. subst r. cbv beta iota.
  unfold M2M100Encoder_call, M2M100SinusoidalPositionalEmbedding_call,
    SinusoidalPositionalEncoding_call.
  cbn [enc_embed_positions weights spe_scale cos_first].
  destruct (s_eqb _ _); reflexivity.
Qed.

(** Without a mask the encoder raises in its first layer (line 146). *)
Lemma encoder_without_mask_raises (a b : Z) :
  match M2M100Encoder_init small_config None with
  | Ok enc =>
      fst (M2M100Encoder_call enc (mkT [1; 2] [a; b]) None [])
      = Err (AttributeError "'NoneType' object has no attribute 'shape'")
  | Err _ => False
  end.
Proof.
  set (r := M2M100Encoder_init small_config None).
  lazy in r. subst r. cbv beta iota.
  unfold M2M100Encoder_call, M2M100SinusoidalPositionalEmbedding_call,
    SinusoidalPositionalEncoding_call.
  cbn [enc_embed_positions weights spe_scale cos_first].
  destruct (s_eqb _ _); reflexivity.
Qed.
End Determinism.

(** ** Arrays: reading what [generate] wrote *)

Section ArrayFacts.

Lemma length_indices (sh : list nat) : length (indices sh) = numel sh.
Proof.
  induction sh as [| n rest IH]; simpl; [reflexivity |].
  generalize 0 as s. induction n as [| n IHn]; intros s; simpl; [reflexivity |].
  rewrite length_app, length_map, IH, IHn. reflexivity.
Qed.

Lemma offset_lt (sh idx : list nat) :
  in_bounds sh idx -> offset sh idx < numel sh.
Proof.
  revert idx. induction sh as [| n rest IH]; intros [| i idx]; simpl; try tauto.
  - intros _. lia.
  - intros [Hi Hb]. specialize (IH idx Hb). nia.
Qed.

Lemma nth_flat_map_chunks {X Y : Type} (g : X -> list Y) (c : nat) (dx : X) (dy : Y) :
  (forall x, length (g x) = c) ->
  forall (l : list X) (i j : nat),
    i < length l -> j < c ->
    nth (i * c + j) (flat_map g l) dy = nth j (g (nth i l dx)) dy.
Proof.
  intros Hc l. induction l as [| x l IH]; intros i j Hi Hj; simpl in *; [lia |].
  destruct i as [| i].
  - simpl. rewrite app_nth1; [reflexivity | rewrite Hc; lia].
  - rewrite app_nth2; rewrite Hc; [| simpl; lia].
    replace (S i * c + j - c) with (i * c + j) by (simpl; lia).
    apply IH; lia.
Qed.

Lemma nth_indices (sh idx : list nat) (d : list nat) :
  in_bounds sh idx -> nth (offset sh idx) (indices sh) d = idx.
Proof.
  revert idx d. induction sh as [| n rest IH]; intros [| i idx] d; simpl; try tauto.
  intros [Hi Hb].
  rewrite (nth_flat_map_chunks (fun i => map (cons i) (indices rest)) (numel rest) 0 d).
  - rewrite seq_nth by lia. simpl.
    rewrite (nth_indep _ d (i :: d)).
    + rewrite (map_nth (cons i)). f_equal. now apply IH.
    + rewrite length_map, length_indices. now apply offset_lt.
  - intros x. now rewrite length_map, length_indices.
  - now rewrite length_seq.
  - now apply offset_lt.
Qed.

Lemma get_generate {A : Type} (d : A) (sh : list nat) (f : list nat -> A)
    (idx : list nat) :
  in_bounds sh idx -> get d (generate sh f) idx = f idx.
Proof.
  intros Hb. unfold get, get_at, generate. simpl.
  rewrite (nth_indep _ d (f idx)).
  - rewrite (map_nth f). f_equal. now apply nth_indices.
  - rewrite length_map, length_indices. now apply offset_lt.
Qed.

Lemma generate_well_formed {A : Type} (sh : list nat) (f : list nat -> A) :
  well_formed (generate sh f).
Proof. unfold well_formed, generate. simpl. now rewrite length_map, length_indices. Qed.
End ArrayFacts.

(** ** The greedy decode loop *)

Section Greedy.
Context {B : Backend}.
Hypothesis Hord : strict_order.

Lemma skipn_cons_inv {X : Type} (l : list X) (i : nat) (x d : X) (xs : list X) :
  skipn i l = x :: xs -> nth i l d = x /\ skipn (S i) l = xs /\ i < length l.
Proof.
  revert l. induction i as [| i IH]; intros [| y l] H; simpl in *; try discriminate.
  - inversion H; subst. repeat split; lia.
  - destruct (IH l H) as [H1 [H2 H3]]. repeat split; auto; lia.
Qed.

Lemma argmax_from_max (l : list scalar) (d : scalar) :
  forall (xs : list scalar) (i bi : nat) (b : scalar),
    xs = skipn i l -> bi < i -> i <= length l -> nth bi l d = b ->
    (forall j, j < i -> s_ltb b (nth j l d) = false) ->
    argmax_from bi b i xs < length l
    /\ forall j, j < length l ->
         s_ltb (nth (argmax_from bi b i xs) l d) (nth j l d) = false.
Proof.
  destruct Hord as [Hirr Htr].
  induction xs as [| x xs IH]; intros i bi b Hxs Hbi Hi Hb Hinv; simpl.
  - assert (length l <= i).
    { destruct (Nat.le_gt_cases (length l) i) as [Hl | Hl]; [exact Hl |].
      apply (f_equal (@length _)) in Hxs. rewrite length_skipn in Hxs. simpl in Hxs. lia. }
    split; [lia |]. intros j Hj. rewrite Hb. apply Hinv. lia.
  - symmetry in Hxs. destruct (skipn_cons_inv l i x d xs Hxs) as [Hx [Hrest Hlt]].
    destruct (s_ltb b x) eqn:Hbx.
    + apply IH; auto; try lia.
      intros j Hj. destruct (Nat.eq_dec j i) as [-> | Hne].
      * rewrite Hx. apply Hirr.
      * destruct (s_ltb x (nth j l d)) eqn:E; [| reflexivity].
        assert (Hj' : j < i) by lia.
        rewrite <- (Hinv j Hj'). symmetry. apply (Htr _ _ _ Hbx E).
    + apply IH; auto; try lia.
      intros j Hj. destruct (Nat.eq_dec j i) as [-> | Hne].
      * now rewrite Hx.
      * apply Hinv. lia.
Qed.

Lemma first_nan_lt (l : list scalar) (i k : nat) :
  first_nan i l = Some k -> k < i + length l.
Proof.
  revert i. induction l as [| x xs IH]; intros i; simpl; [discriminate |].
  destruct (is_nan x).
  - intros H. inversion H. lia.
  - intros H. apply IH in H. lia.
Qed.

Lemma argmax_from_lt (xs : list scalar) (bi : nat) (b : scalar) (i : nat) :
  bi < i -> argmax_from bi b i xs < i + length xs.
Proof.
  revert bi b i. induction xs as [| x xs IH]; intros bi b i H; simpl; [lia |].
  destruct (s_ltb b x).
  - specialize (IH i x (S i) ltac:(lia)). lia.
  - specialize (IH bi b (S i) ltac:(lia)). lia.
Qed.

Lemma first_nan_number_row (l : list scalar) (i : nat) :
  number_row l -> first_nan i l = None.
Proof.
  intros H. revert i. induction H as [| x xs Hx _ IH]; intros i; simpl.
  - reflexivity.
  - unfold is_nan. rewrite Hx. apply IH.
Qed.

(** On a row of numbers [argmax_list] is the left-to-right scan. *)
Lemma argmax_list_scan (x : scalar) (xs : list scalar) :
  number_row (x :: xs) -> argmax_list (x :: xs) = argmax_from 0 x 1 xs.
Proof. intros H. unfold argmax_list. now rewrite first_nan_number_row. Qed.

(** On a row of numbers [argmax_list] returns a position whose entry no
    other entry exceeds. *)
Lemma argmax_list_max (l : list scalar) (d : scalar) :
  l <> [] -> number_row l ->
  argmax_list l < length l
  /\ forall j, j < length l -> s_ltb (nth (argmax_list l) l d) (nth j l d) = false.
Proof.
  destruct l as [| x xs]; [congruence | intros _ Hnum].
  rewrite (argmax_list_scan x xs Hnum).
  apply (argmax_from_max (x :: xs) d xs 1 0 x); simpl; auto; try lia.
  intros j Hj. assert (j = 0) by lia. subst. apply (proj1 Hord).
Qed.
End Greedy.

Section DecodeFacts.
Context {B : Backend}.

Lemma select_last_axis1_3d {A : Type} (d : A) (t : tensor A) (a l v : nat) :
  shape t = [a; S l; v] ->
  select_last_axis1 d t
  = Ok (generate [a; v] (fun idx => match idx with
                                    | i :: r => get d t (i :: l :: r)
                                    | [] => d
                                    end)).
Proof.
  intros H. unfold select_last_axis1. rewrite H. cbn [Nat.eqb].
  now rewrite Nat.sub_1_r.
Qed.

Lemma argmax_2d (t : array) (a v : nat) :
  shape t = [a; S v] ->
  argmax t = Ok (generate [a] (fun idx => Z.of_nat (argmax_list (row s_zero t idx)))).
Proof. intros H. unfold argmax. rewrite H. reflexivity. Qed.

Lemma reshape_column {A : Type} (t : tensor A) (a : nat) :
  shape t = [a] -> reshape [(-1)%Z; 1%Z] t = Ok (mkT [a; 1] (data t)).
Proof.
  intros H. unfold reshape, infer_shape. rewrite H.
  cbn [existsb Z.ltb Z.compare orb filter Z.eqb length negb map numel fold_right].
  change (Z.to_nat 1) with 1. cbn [Nat.mul Nat.add Nat.eqb].
  rewrite Nat.div_1_r, !Nat.mul_1_r, Nat.eqb_refl. reflexivity.
Qed.

Lemma concatenate_axis1 {A : Type} (d : A) (a b : tensor A) (r n m : nat) :
  shape a = [r; n] -> shape b = [r; m] ->
  concatenate d a b 1
  = Ok (generate [r; n + m]
          (fun idx => let i := nth 1 idx 0 in
                      if i <? n then get d a idx else get d b (set_nth 1 (i - n) idx))).
Proof.
  intros Ha Hb. unfold concatenate. rewrite Ha, Hb.
  change (norm_axis 1 (length [r; n])) with (Some 1).
  cbv beta iota zeta.
  change (nth 1 [r; n] 0) with n. change (nth 1 [r; m] 0) with m.
  change (set_nth 1 (n + m) [r; n]) with [r; n + m].
  change (set_nth 1 0 [r; n]) with [r; 0].
  change (set_nth 1 0 [r; m]) with [r; 0].
  change (length [r; n] =? length [r; m]) with true.
  destruct (list_eq_dec Nat.eq_dec [r; 0] [r; 0]) as [_ | ne]; [| congruence].
  reflexivity.
Qed.

Lemma get_column {A : Type} (d : A) (a b : nat) (g : list nat -> A) :
  b < a -> get d (mkT [a; 1] (data (generate [a] g))) [b; 0] = g [b].
Proof.
  intros Hb. rewrite <- (get_generate d [a] g [b]) by (simpl; auto).
  unfold get, get_at. cbn [shape data offset numel fold_right]. f_equal; lia.
Qed.

Lemma row_last_position (logits : array) (len vocab b : nat) :
  shape logits = [2; S len; S vocab] -> b < 2 ->
  row s_zero
    (generate [2; S vocab]
       (fun idx => match idx with
                   | i :: r => get s_zero logits (i :: len :: r)
                   | [] => s_zero
                   end)) [b]
  = last_logits logits b.
Proof.
  intros Hs Hb. unfold row, last_logits. rewrite Hs.
  cbn [generate shape last]. rewrite Nat.sub_1_r. cbn [Nat.pred].
  apply map_ext_in. intros k Hk. apply in_seq in Hk.
  change ([b] ++ [k]) with [b; k].
  rewrite (get_generate s_zero [2; S vocab]) by (simpl; repeat split; lia).
  reflexivity.
Qed.

Lemma in_indices (sh idx : list nat) : In idx (indices sh) -> in_bounds sh idx.
Proof.
  revert idx. induction sh as [| n rest IH]; intros idx; simpl.
  - intros [<- | []]. exact I.
  - rewrite in_flat_map. intros (i & Hi & Hin).
    apply in_map_iff in Hin. destruct Hin as (r & <- & Hr).
    apply in_seq in Hi. split; [lia | now apply IH].
Qed.

Lemma generate_ext {A : Type} (sh : list nat) (f g : list nat -> A) :
  (forall idx, in_bounds sh idx -> f idx = g idx) -> generate sh f = generate sh g.
Proof.
  intros H. unfold generate. f_equal. apply map_ext_in.
  intros idx Hin. apply H. now apply in_indices.
Qed.

Lemma append_column_shape {A : Type} (d : A) (t : tensor A) (col : nat -> A) (r n : nat) :
  shape t = [r; n] -> shape (append_column d t col) = [r; n + 1].
Proof. intros H. unfold append_column. now rewrite H. Qed.

Lemma append_column_old {A : Type} (d : A) (t : tensor A) (col : nat -> A)
    (r n b j : nat) :
  shape t = [r; n] -> b < r -> j < n ->
  get d (append_column d t col) [b; j] = get d t [b; j].
Proof.
  intros H Hb Hj. unfold append_column. rewrite H. cbn [nth].
  rewrite get_generate by (simpl; repeat split; lia).
  apply Nat.ltb_lt in Hj. now rewrite Hj.
Qed.

Lemma append_column_new {A : Type} (d : A) (t : tensor A) (col : nat -> A)
    (r n b : nat) :
  shape t = [r; n] -> b < r ->
  get d (append_column d t col) [b; n] = col b.
Proof.
  intros H Hb. unfold append_column. rewrite H. cbn [nth].
  rewrite get_generate by (simpl; repeat split; lia).
  now rewrite Nat.ltb_irrefl.
Qed.

(** One pass of the loop body does what [greedy_next] says, on the logits
    the model returns. *)
Lemma decode_step_greedy (mdl : MLXModel) (enc : array) (am : tensor Z)
    (ids : tensor Z) (mask : array) (w w1 w2 : stdout) (outputs logits : array)
    (n len vocab : nat) :
  shape ids = [2; n] -> shape mask = [2; n] ->
  mlx_decode mdl ids mask enc am None w = (Ok outputs, w1) ->
  mlx_lm_head mdl outputs w1 = (Ok logits, w2) ->
  shape logits = [2; S len; S vocab] ->
  decode_step mdl enc am 2 (ids, mask) w = (Ok (greedy_next (ids, mask) logits), w2).
Proof.
  intros Hids Hmask Hd Hh Hs. unfold decode_step.
  rewrite (bind_ok _ _ _ _ _ Hd), (bind_ok _ _ _ _ _ Hh).
  rewrite (select_last_axis1_3d s_zero logits 2 len (S vocab) Hs).
  unfold lift at 1. unfold bind at 1.
  erewrite (argmax_2d _ 2 vocab) by reflexivity.
  unfold lift at 1. unfold bind at 1.
  erewrite (reshape_column _ 2) by reflexivity.
  unfold lift at 1. unfold bind at 1.
  erewrite (concatenate_axis1 0%Z ids _ 2 n 1 Hids) by reflexivity.
  unfold lift at 1. unfold bind at 1.
  erewrite (concatenate_axis1 s_zero mask _ 2 n 1 Hmask) by reflexivity.
  unfold lift at 1. unfold bind at 1. unfold ret.
  unfold greedy_next, append_column. cbn [fst snd]. rewrite Hids, Hmask. cbn [nth].
  f_equal. f_equal. f_equal.
  - apply generate_ext. intros [| b [| j [| k idx]]] Hb; simpl in Hb; try tauto.
    destruct Hb as (Hb & Hj & _). cbn [nth].
    destruct (j <? n) eqn:E; [reflexivity |].
    apply Nat.ltb_ge in E. assert (j = n) by lia. subst j.
    rewrite Nat.sub_diag.
    cbn [set_nth length Nat.ltb Nat.leb firstn skipn app].
    rewrite get_column by exact Hb.
    unfold greedy_token. f_equal. f_equal.
    now apply row_last_position.
  - apply generate_ext. intros [| b [| j [| k idx]]] Hb; simpl in Hb; try tauto.
    destruct Hb as (Hb & Hj & _). cbn [nth].
    destruct (j <? n) eqn:E; [reflexivity |].
    apply Nat.ltb_ge in E. assert (j = n) by lia. subst j.
    rewrite Nat.sub_diag.
    cbn [set_nth length Nat.ltb Nat.leb firstn skipn app].
    now rewrite get_generate by (simpl; repeat split; lia).
Qed.

(** The picked id is a position of the last-position logits that no other
    logit exceeds. *)
Lemma greedy_token_is_highest (logits : array) (a len vocab b : nat) :
  strict_order ->
  shape logits = [a; len; S vocab] ->
  number_row (last_logits logits b) ->
  (0 <= greedy_token logits b < Z.of_nat (S vocab))%Z
  /\ forall v, v < S vocab ->
       s_ltb (nth (Z.to_nat (greedy_token logits b)) (last_logits logits b) s_zero)
             (nth v (last_logits logits b) s_zero) = false.
Proof.
  intros Hord Hs Hnum. unfold greedy_token. rewrite Nat2Z.id.
  assert (Hlen : length (last_logits logits b) = S vocab).
  { unfold last_logits. rewrite Hs. now rewrite length_map, length_seq. }
  destruct (argmax_list_max Hord (last_logits logits b) s_zero) as [Hlt Hmax].
  { intros E. rewrite E in Hlen. discriminate. }
  { exact Hnum. }
  rewrite Hlen in *. split; [lia | exact Hmax].
Qed.

End DecodeFacts.


(** C7: the greedy decode loop.  Let the backend's [<] be a strict order and
    let a run of the model under greedy decoding be given, with the logits
    [trace] = [l_0, ..., l_(N-1)] the model's [decode] and [lm_head] return
    step after step.
    - From ids and mask of shape [[2, n]] the loop run for [N] steps returns
      the final state of that run.  Ids and mask have shape [[2, n + N]],
      their first [n] columns are unchanged, and for every step [k] column
      [n + k] of the mask is 1 and column [n + k] of the ids is, in each row
      [b], the greedy id of [l_k]: a vocabulary id, and one whose logit at
      the last position no other logit exceeds when the logits are numbers
      (argmax, no sampling).
    - [forward_mlx] on two sample inputs, with the encoder's output and the
      initial [[2, 2]] ids and mask: the loop of [N] steps returns the ids of
      the run, of shape [[2, 2 + N]], whose columns 0 and 1 are the initial
      ids and whose column [2 + k] is the greedy id of [l_k]; [forward_mlx]
      itself is the run of 10 steps. *)
Theorem greedy_decode_appends_argmax :
  forall (B : Backend) (mdl : MLXModel),
    strict_order ->
    (forall (enc : array) (am : tensor Z) (trace : list array)
            (state final : tensor Z * array) (w w' : stdout) (n : nat),
        shape (fst state) = [2; n] -> shape (snd state) = [2; n] ->
        greedy_run mdl enc am trace state w final w' ->
        decode_loop (length trace) mdl enc am 2 state w = (Ok final, w')
        /\ shape (fst final) = [2; n + length trace]
        /\ shape (snd final) = [2; n + length trace]
        /\ forall b, b < 2 ->
             (forall j, j < n ->
                get 0%Z (fst final) [b; j] = get 0%Z (fst state) [b; j]
                /\ get s_zero (snd final) [b; j] = get s_zero (snd state) [b; j])
             /\ forall k logits, nth_error trace k = Some logits ->
                  get 0%Z (fst final) [b; n + k] = greedy_token logits b
                  /\ (0 <= greedy_token logits b
                      < Z.of_nat (length (last_logits logits b)))%Z
                  /\ (number_row (last_logits logits b) ->
                      forall v, v < length (last_logits logits b) ->
                        s_ltb (nth (Z.to_nat (get 0%Z (fst final) [b; n + k]))
                                   (last_logits logits b) s_zero)
                              (nth v (last_logits logits b) s_zero) = false)
                  /\ get s_zero (snd final) [b; n + k] = s_one)
    /\ (forall (tok : NllbTokenizer) (sample_inputs : list string)
               (input_ids attention_mask : tensor Z) (enc : array)
               (trace : list array) (final : tensor Z * array) (w w1 w' : stdout),
        length sample_inputs = 2 ->
        tokenize tok sample_inputs = (input_ids, attention_mask) ->
        mlx_encode mdl input_ids attention_mask w = (Ok enc, w1) ->
        greedy_run mdl enc attention_mask trace
          (initial_decoder_input_ids mdl tok, initial_decoder_input_mask) w1 final w' ->
        forward_mlx_steps (length trace) mdl tok sample_inputs w = (Ok (fst final), w')
        /\ (length trace = 10 ->
            forward_mlx mdl tok sample_inputs w = (Ok (fst final), w'))
        /\ shape (fst final) = [2; 2 + length trace]
        /\ forall b, b < 2 ->
             get 0%Z (fst final) [b; 0] = mlx_eos_token_id mdl
             /\ get 0%Z (fst final) [b; 1] = fra_Latn tok
             /\ forall k logits, nth_error trace k = Some logits ->
                  get 0%Z (fst final) [b; 2 + k] = greedy_token logits b).
Proof.
  intros B mdl Hord.
  assert (Hloop : forall (enc : array) (am : tensor Z) (trace : list array)
            (state final : tensor Z * array) (w w' : stdout) (n : nat),
        shape (fst state) = [2; n] -> shape (snd state) = [2; n] ->
        greedy_run mdl enc am trace state w final w' ->
        decode_loop (length trace) mdl enc am 2 state w = (Ok final, w')
        /\ shape (fst final) = [2; n + length trace]
        /\ shape (snd final) = [2; n + length trace]
        /\ forall b, b < 2 ->
             (forall j, j < n ->
                get 0%Z (fst final) [b; j] = get 0%Z (fst state) [b; j]
                /\ get s_zero (snd final) [b; j] = get s_zero (snd state) [b; j])
             /\ forall k logits, nth_error trace k = Some logits ->
                  get 0%Z (fst final) [b; n + k] = greedy_token logits b
                  /\ (0 <= greedy_token logits b
                      < Z.of_nat (length (last_logits logits b)))%Z
                  /\ (number_row (last_logits logits b) ->
                      forall v, v < length (last_logits logits b) ->
                        s_ltb (nth (Z.to_nat (get 0%Z (fst final) [b; n + k]))
                                   (last_logits logits b) s_zero)
                              (nth v (last_logits logits b) s_zero) = false)
                  /\ get s_zero (snd final) [b; n + k] = s_one).
  { intros enc am trace.
    induction trace as [| l0 rest IH]; intros state final w w' n Hids Hmask Hrun.
    - destruct Hrun as [-> ->]. cbn [length decode_loop]. rewrite Nat.add_0_r.
      split; [reflexivity |]. split; [exact Hids |]. split; [exact Hmask |].
      intros b Hb. split; [intros j Hj; split; reflexivity |].
      intros [| k] logits Hk; discriminate.
    - destruct Hrun as (outputs & w1 & w2 & len & vocab & Hd & Hh & Hs & Hrest).
      destruct state as [ids mask]. cbn [fst snd] in Hids, Hmask, Hd.
      pose proof (decode_step_greedy mdl enc am ids mask w w1 w2 outputs l0
                    n len vocab Hids Hmask Hd Hh Hs) as Hstep.
      assert (Hids1 : shape (fst (greedy_next (ids, mask) l0)) = [2; S n]).
      { cbn [greedy_next fst].
        rewrite (append_column_shape _ _ _ 2 n Hids). f_equal. f_equal. lia. }
      assert (Hmask1 : shape (snd (greedy_next (ids, mask) l0)) = [2; S n]).
      { cbn [greedy_next snd].
        rewrite (append_column_shape _ _ _ 2 n Hmask). f_equal. f_equal. lia. }
      destruct (IH _ final w2 w' (S n) Hids1 Hmask1 Hrest)
        as (Hl & Hsi & Hsm & Hcols).
      cbn [length decode_loop]. rewrite (bind_ok _ _ _ _ _ Hstep).
      replace (n + S (length rest)) with (S n + length rest) by lia.
      split; [exact Hl |]. split; [exact Hsi |]. split; [exact Hsm |].
      intros b Hb. destruct (Hcols b Hb) as [Hold Hnew]. cbn [fst snd].
      split.
      + intros j Hj. destruct (Hold j ltac:(lia)) as [Hi Hm].
        rewrite Hi, Hm. cbn [greedy_next fst snd].
        rewrite (append_column_old _ _ _ 2 n b j Hids Hb Hj).
        rewrite (append_column_old _ _ _ 2 n b j Hmask Hb Hj).
        split; reflexivity.
      + intros [| k] logits Hk.
        * cbn [nth_error] in Hk. inversion Hk; subst logits. clear Hk.
          rewrite Nat.add_0_r.
          destruct (Hold n ltac:(lia)) as [Hi Hm].
          assert (Hcol : get 0%Z (fst final) [b; n] = greedy_token l0 b).
          { rewrite Hi. cbn [greedy_next fst].
            now rewrite (append_column_new _ _ _ 2 n b Hids Hb). }
          assert (Hlen : length (last_logits l0 b) = S vocab).
          { unfold last_logits. rewrite Hs. now rewrite length_map, length_seq. }
          split; [exact Hcol |]. split; [| split].
          -- unfold greedy_token. unfold argmax_list.
             destruct (first_nan 0 (last_logits l0 b)) as [i |] eqn:En.
             ++ split; [lia |]. apply Nat2Z.inj_lt.
                now apply (first_nan_lt (last_logits l0 b) 0 i).
             ++ destruct (last_logits l0 b) as [| x xs] eqn:El; [discriminate |].
                split; [lia |]. apply Nat2Z.inj_lt.
                apply (argmax_from_lt xs 0 x 1). simpl. lia.
          -- intros Hnum v Hv. rewrite Hcol.
             destruct (greedy_token_is_highest l0 2 (S len) vocab b Hord Hs Hnum)
               as [_ Hmax].
             apply Hmax. lia.
          -- rewrite Hm. cbn [greedy_next snd].
             now rewrite (append_column_new _ _ _ 2 n b Hmask Hb).
        * cbn [nth_error] in Hk.
          replace (n + S k) with (S n + k) by lia.
          now apply Hnew. }
  split; [exact Hloop |].
  intros tok sample_inputs input_ids attention_mask enc trace final w w1 w'
         Hlen Htok Henc Hrun.
  destruct (Hloop enc attention_mask trace
              (initial_decoder_input_ids mdl tok, initial_decoder_input_mask)
              final w1 w' 2 eq_refl eq_refl Hrun)
    as (Hl & Hsi & _ & Hcols).
  assert (Hsteps : forward_mlx_steps (length trace) mdl tok sample_inputs w
                   = (Ok (fst final), w')).
  { unfold forward_mlx_steps. rewrite Htok, Hlen.
    rewrite (bind_ok _ _ _ _ _ Henc), (bind_ok _ _ _ _ _ Hl). reflexivity. }
  split; [exact Hsteps |]. split.
  { intros H10. unfold forward_mlx. now rewrite <- H10. }
  split; [exact Hsi |].
  intros b Hb. destruct (Hcols b Hb) as [Hold Hnew].
  rewrite (proj1 (Hold 0 ltac:(lia))), (proj1 (Hold 1 ltac:(lia))). cbn [fst].
  split; [| split].
  - destruct b as [| [| b]]; [reflexivity | reflexivity | lia].
  - destruct b as [| [| b]]; [reflexivity | reflexivity | lia].
  - intros k logits Hk. now destruct (Hnew k logits Hk) as [Hg _].
Qed.

(** ** The positional embedding over the reals *)

Section RealFacts.
Variable gelu : R -> R.
Variable uniform : list nat -> list nat -> R.

Lemma sigma_first :
  exp ((1 - 0 / 1) * (ln 1 - ln (1 / 10000)) + ln (1 / 10000)) = 1%R.
Proof.
  rewrite ln_1.
  replace ((1 - 0 / 1) * (0 - ln (1 / 10000)) + ln (1 / 10000))%R with 0%R by lra.
  apply exp_0.
Qed.

Lemma sigma_second :
  exp ((1 - 1 / 1) * (ln 1 - ln (1 / 10000)) + ln (1 / 10000)) = (1 / 10000)%R.
Proof.
  replace ((1 - 1 / 1) * (ln 1 - ln (1 / 10000)) + ln (1 / 10000))%R
    with (ln (1 / 10000)) by lra.
  apply exp_ln. lra.
Qed.

Lemma scale_value : Rpower (2 / 4) (1 / 2) = sqrt (1 / 2).
Proof.
  replace (2 / 4)%R with (1 / 2)%R by lra.
  replace (1 / 2)%R with (/ 2)%R at 2 by lra.
  apply Rpower_sqrt. lra.
Qed.

Lemma scale_not_one : sqrt (1 / 2) <> 1%R.
Proof.
  intros H. assert (Hs : (sqrt (1 / 2) * sqrt (1 / 2) = 1 / 2)%R) by (apply sqrt_sqrt; lra).
  rewrite H in Hs. lra.
Qed.

Lemma scale_positive : (0 < sqrt (1 / 2))%R.
Proof. apply sqrt_lt_R0. lra. Qed.

Lemma sin_1_positive : (0 < sin 1)%R.
Proof. apply sin_gt_0; [lra |]. pose proof PI2_1. lra. Qed.

Ltac eval_encoding :=
  cbv - [Rplus Rminus Rmult Rdiv Rpower exp ln sqrt sin cos IZR Req_dec_T Rinv];
  rewrite ?sigma_first, ?sigma_second, ?scale_value;
  destruct (Req_dec_T (sqrt (1 / 2)) 1) as [E | _]; [destruct (scale_not_one E) |].

Lemma encoding_init :
  exists pe, positional_embedding_init4 gelu uniform = Ok pe
  /\ (forall (T : Type) (p : Z) (k : T),
      M2M100SinusoidalPositionalEmbedding_call (B := RBackend gelu uniform) pe
            (mkT [1; 1] [p]) k
      = Ok (mkT [1; 1; 4] (encoding_row p)))
  /\ (forall (T : Type) (p q : Z) (k : T),
      M2M100SinusoidalPositionalEmbedding_call (B := RBackend gelu uniform) pe
            (mkT [1; 2] [p; q]) k
      = Ok (mkT [1; 2; 4] (encoding_row p ++ encoding_row q))).
Proof.
  eexists. split; [reflexivity |]. split.
  - intros. eval_encoding. reflexivity.
  - intros. eval_encoding. reflexivity.
Qed.

Lemma encoding_row_0_1 : encoding_row 0 <> encoding_row 1.
Proof.
  unfold encoding_row. intros H. injection H as H _ _ _.
  rewrite Rmult_0_l, sin_0, Rmult_0_l, Rmult_1_r in H.
  pose proof sin_1_positive. pose proof scale_positive.
  assert (0 < sin 1 * sqrt (1 / 2))%R by (apply Rmult_lt_0_compat; assumption).
  lra.
Qed.

Lemma slice_second_position (r1 r2 : list R) :
  length r1 = 4 -> length r2 = 4 ->
  slice_positions 0%R 1 1 (mkT [1; 2; 4] (r1 ++ r2)) = mkT [1; 1; 4] r2.
Proof.
  intros H1 H2.
  destruct r1 as [| a1 [| a2 [| a3 [| a4 [| ? ?]]]]]; try discriminate.
  destruct r2 as [| b1 [| b2 [| b3 [| b4 [| ? ?]]]]]; try discriminate.
  reflexivity.
Qed.

(** C1: the positional embedding is computed from the token ids, not from
    positions.  With [embedding_dim = 4] over the reals, a call on ids
    [[[p]]] returns [sin(p), sin(p/10000), cos(p), cos(p/10000)], each times
    [sqrt(2/4)], whatever [past_key_values_length] is passed; so the ids
    [[[0]]] and [[[1]]], of the same shape and at the same offset, get
    different embeddings. *)
Theorem positional_embedding_reads_token_values :
  exists pe,
    positional_embedding_init4 gelu uniform = Ok pe
    /\ (forall p k : Z,
          M2M100SinusoidalPositionalEmbedding_call (B := RBackend gelu uniform) pe
            (mkT [1; 1] [p]) k
          = Ok (mkT [1; 1; 4] (encoding_row p)))
    /\ M2M100SinusoidalPositionalEmbedding_call (B := RBackend gelu uniform) pe
            (mkT [1; 1] [0%Z]) 0%Z
       <> M2M100SinusoidalPositionalEmbedding_call (B := RBackend gelu uniform) pe
            (mkT [1; 1] [1%Z]) 0%Z.
Proof.
  destruct encoding_init as (pe & Hinit & Hone & _).
  exists pe. split; [exact Hinit |]. split.
  - intros p k. apply Hone.
  - rewrite !Hone. intros H.
    apply (f_equal (fun r => match r with Ok t => data t | Err _ => [] end)) in H.
    exact (encoding_row_0_1 H).
Qed.

(** C4: the embedding at offset 1 for one position is not the slice [1..2)
    of the embedding at offset 0 for two positions: the offset is not read
    (any two offsets give the same result) and the values follow the token
    ids ([[[0]]] against [[[0, 1]]]).  The two sides agree when the single id
    is the id at position 1 of the longer input. *)
Theorem positional_embedding_offset_is_not_read :
  exists pe step full,
    positional_embedding_init4 gelu uniform = Ok pe
    /\ M2M100SinusoidalPositionalEmbedding_call (B := RBackend gelu uniform) pe
            (mkT [1; 1] [0%Z]) 1%Z
       = Ok step
    /\ M2M100SinusoidalPositionalEmbedding_call (B := RBackend gelu uniform) pe
            (mkT [1; 2] [0%Z; 1%Z]) 0%Z
       = Ok full
    /\ slice_positions 0%R 1 1 full <> step
    /\ (forall (ids : tensor Z) (k k' : Z),
          M2M100SinusoidalPositionalEmbedding_call (B := RBackend gelu uniform) pe ids k
          = M2M100SinusoidalPositionalEmbedding_call (B := RBackend gelu uniform) pe ids k')
    /\ (forall p q k : Z,
          rbind (M2M100SinusoidalPositionalEmbedding_call (B := RBackend gelu uniform) pe
           
                   (mkT [1; 2] [p; q]) 0%Z)
                (fun t => Ok (slice_positions 0%R 1 1 t))
          = M2M100SinusoidalPositionalEmbedding_call (B := RBackend gelu uniform) pe
            (mkT [1; 1] [q]) k).
Proof.
  destruct encoding_init as (pe & Hinit & Hone & Htwo).
  exists pe, (mkT [1; 1; 4] (encoding_row 0)),
    (mkT [1; 2; 4] (encoding_row 0 ++ encoding_row 1)).
  split; [exact Hinit |]. split; [apply Hone |]. split; [apply Htwo |].
  split; [| split].
  - rewrite (slice_second_position (encoding_row 0) (encoding_row 1) eq_refl eq_refl).
    intros H. apply (f_equal (@data R)) in H. symmetry in H.
    exact (encoding_row_0_1 H).
  - intros ids k k'. reflexivity.
  - intros p q k. rewrite Htwo, Hone. cbn [rbind].
    now rewrite (slice_second_position (encoding_row p) (encoding_row q) eq_refl eq_refl).
Qed.
End RealFacts.

(** ** Closed instances *)

(** C6, counterexample: a configuration with [d_model = 6] and four heads
    is accepted.  The whole model is constructed without an exception, and
    its attention modules have [head_dim = 1], so that
    [num_heads * head_dim = 4 <> 6 = embed_dim]. *)
Lemma indivisible_embed_dim_is_accepted :
  is_ok (M2M100ForConditionalGeneration_init config_6_4) = true
  /\ match M2M100EncoderLayer_init config_6_4 with
     | Ok l => (embed_dim (el_self_attn l), num_heads (el_self_attn l),
                head_dim (el_self_attn l)) = (6, 4, 1)%Z
     | Err _ => False
     end
  /\ match M2M100DecoderLayer_init config_6_4 with
     | Ok l => (embed_dim (dl_self_attn l), num_heads (dl_self_attn l),
                head_dim (dl_self_attn l)) = (6, 4, 1)%Z
               /\ (embed_dim (dl_encoder_attn l), num_heads (dl_encoder_attn l),
                   head_dim (dl_encoder_attn l)) = (6, 4, 1)%Z
     | Err _ => False
     end.
Proof. repeat split. Qed.

(** [embed_dim = 5] with two heads: construction raises nothing. *)
Lemma head_dim_is_floor_quotient_witness :
  is_ok (M2M100Attention_init (B := real_backend) 5 2 0%R false true false) = true.
Proof.
  apply (proj2 (proj2 (head_dim_is_floor_quotient (B := real_backend) config_5_2))).
  lia.
Defined.

(** [<] on the reals is a strict order. *)
Lemma real_strict_order : strict_order (B := real_backend).
Proof.
  split.
  - intros a. simpl. destruct (Rlt_dec a a); [lra | reflexivity].
  - intros a b c. simpl.
    destruct (Rlt_dec a b); [| discriminate].
    destruct (Rlt_dec b c); [| discriminate].
    destruct (Rlt_dec a c); [reflexivity | lra].
Defined.

(** The forced model, two sentences: [forward_mlx] returns ids of shape
    [[2, 12]]. *)
Lemma real_number_row (xs : list R) : number_row (B := real_backend) xs.
Proof.
  induction xs as [| x xs IH]; constructor; [| exact IH].
  simpl. destruct (Req_dec_T x x); [reflexivity | congruence].
Qed.

(** The greedy ids of the forced logits: 1 in row 0, 0 in row 1. *)
Lemma forced_logits_greedy :
  greedy_token forced_logits 0 = 1%Z /\ greedy_token forced_logits 1 = 0%Z.
Proof.
  unfold greedy_token. split.
  - unfold last_logits, forced_logits.
    cbn [shape map seq get get_at data offset numel fold_right Nat.mul Nat.add Nat.sub nth].
    rewrite (argmax_list_scan (B := real_backend)) by apply real_number_row.
    cbn [argmax_from s_ltb real_backend RBackend].
    repeat match goal with
           | |- context [Rlt_dec ?a ?b] => destruct (Rlt_dec a b); try lra
           end; reflexivity.
  - unfold last_logits, forced_logits.
    cbn [shape map seq get get_at data offset numel fold_right Nat.mul Nat.add Nat.sub nth].
    rewrite (argmax_list_scan (B := real_backend)) by apply real_number_row.
    cbn [argmax_from s_ltb real_backend RBackend].
    repeat match goal with
           | |- context [Rlt_dec ?a ?b] => destruct (Rlt_dec a b); try lra
           end; reflexivity.
Qed.

(** The forced model runs under greedy decoding from every state, for any
    number of steps, returning the forced logits at each. *)
Lemma forced_model_greedy_run (enc : array (B := real_backend)) (am : tensor Z)
    (steps : nat) :
  forall (state : tensor Z * array (B := real_backend))
         (w : stdout (B := real_backend)),
  exists final,
    greedy_run forced_model enc am (repeat forced_logits steps) state w final w.
Proof.
  induction steps as [| steps IH]; intros state w.
  - exists state. split; reflexivity.
  - destruct (IH (greedy_next state forced_logits) w) as [final Hf].
    exists final. cbn [repeat greedy_run].
    exists (mkT [2; 1; 1] [0; 0]%R), w, w, 0, 2.
    split; [reflexivity |]. split; [reflexivity |]. split; [reflexivity |].
    exact Hf.
Qed.

(** The scenario of the specification: a decoder forced to one
    highest-logit id per row (1 in row 0, 0 in row 1).  After the 10 steps of
    [forward_mlx] the ids have shape [[2, 12]] and every appended column
    holds that id. *)
Lemma greedy_decode_witness :
  exists ids w',
    forward_mlx forced_model two_sentence_tokenizer
      ["what is your name?"; "what is your name?"]%string []
    = (Ok ids, w')
    /\ shape ids = [2; 12]
    /\ forall j, 2 <= j < 12 ->
         get 0%Z ids [0; j] = 1%Z /\ get 0%Z ids [1; j] = 0%Z.
Proof.
  destruct (forced_model_greedy_run (mkT [2; 1; 1] [0; 0]%R) (mkT [2; 1] [1; 1]%Z) 10
              (initial_decoder_input_ids forced_model two_sentence_tokenizer,
               initial_decoder_input_mask (B := real_backend)) [])
    as [final Hrun].
  destruct (proj2 (greedy_decode_appends_argmax real_backend forced_model
                     real_strict_order)
              two_sentence_tokenizer
              ["what is your name?"; "what is your name?"]%string
              (mkT [2; 1] [0; 0]%Z) (mkT [2; 1] [1; 1]%Z)
              (mkT [2; 1; 1] [0; 0]%R) (repeat forced_logits 10) final [] [] []
              eq_refl eq_refl eq_refl Hrun)
    as (_ & H10 & Hs & Hcols).
  exists (fst final), []. split; [exact (H10 eq_refl) |]. split; [exact Hs |].
  intros j Hj. destruct forced_logits_greedy as [G0 G1].
  assert (Hk : nth_error (repeat forced_logits 10) (j - 2) = Some forced_logits).
  { do 10 (destruct j as [| j]; [try lia; reflexivity |]).
    destruct j as [| j]; [reflexivity |]. destruct j as [| j]; [reflexivity |]. lia. }
  remember (j - 2) as k eqn:Ek. assert (Ej : j = 2 + k) by lia. clear Ek.
  subst j. split.
  - destruct (Hcols 0 ltac:(lia)) as (_ & _ & Hnew). now rewrite (Hnew _ _ Hk).
  - destruct (Hcols 1 ltac:(lia)) as (_ & _ & Hnew). now rewrite (Hnew _ _ Hk).
Defined.

(* ================================================================= *)
(** * Forward passes, failures and unread fields *)

(** ** Shapes through the attention call and the layers *)

Section ShapeForward.
Context {B : Backend}.

Lemma bind_lift_Ok {A C : Type} (a : A) (k : A -> M C) (w : stdout) :
  bind (lift (Ok a)) k w = k a w.
Proof. reflexivity. Qed.

Lemma bind_print (items : list pyprint) {C : Type} (k : unit -> M C) (w : stdout) :
  bind (print items) k w = k tt (w ++ [items]).
Proof. reflexivity. Qed.

Lemma bind_ret {A C : Type} (a : A) (k : A -> M C) (w : stdout) :
  bind (ret a) k w = k a w.
Proof. reflexivity. Qed.

Lemma print_attention_mask_Some (m : array) (w : stdout) :
  print_attention_mask (Some m) w
  = (Ok tt, (w ++ [[PStr "attn_weights"; PArray m]])
            ++ [[PStr "attn_weights"; PShape (py_shape m)]]).
Proof. reflexivity. Qed.

Lemma bshape_rev_same (s : list nat) : bshape_rev s s = Some s.
Proof.
  induction s as [| x s IH]; [reflexivity |].
  simpl. rewrite IH. destruct s; now rewrite Nat.eqb_refl.
Qed.

Lemma broadcast_shapes_same (s : list nat) : broadcast_shapes s s = Some s.
Proof. unfold broadcast_shapes. rewrite bshape_rev_same. simpl. now rewrite rev_involutive. Qed.

Lemma binop_same_shape {X Y Z' : Type} (dx : X) (dy : Y) (f : X -> Y -> Z')
    (a : tensor X) (b : tensor Y) :
  shape a = shape b ->
  exists r, binop dx dy f a b = Ok r /\ shape r = shape a.
Proof.
  intros H. unfold binop. rewrite <- H, broadcast_shapes_same. eauto.
Qed.

Lemma binop_last_axis {X Y Z' : Type} (dx : X) (dy : Y) (f : X -> Y -> Z')
    (a : tensor X) (b : tensor Y) (lead : list nat) (o : nat) :
  shape a = lead ++ [o] -> shape b = [o] ->
  exists r, binop dx dy f a b = Ok r /\ shape r = lead ++ [o].
Proof.
  intros Ha Hb. unfold binop, broadcast_shapes. rewrite Ha, Hb.
  rewrite rev_app_distr. simpl.
  destruct (rev lead) as [| x l] eqn:E; rewrite Nat.eqb_refl; simpl;
    rewrite <- ?E; eexists; split; try reflexivity; simpl.
  - apply (f_equal (@rev nat)) in E. rewrite rev_involutive in E. now subst.
  - rewrite <- (rev_involutive lead), E. simpl. reflexivity.
Qed.

Lemma transpose_all_2d {A : Type} (d : A) (t : tensor A) (a b : nat) :
  shape t = [a; b] ->
  exists r, transpose_all d t = Ok r /\ shape r = [b; a].
Proof.
  intros H. unfold transpose_all, transpose. rewrite H. cbn. eauto.
Qed.

Lemma transpose_0213 {A : Type} (d : A) (t : tensor A) (a b c e : nat) :
  shape t = [a; b; c; e] ->
  exists r, transpose d [0; 2; 1; 3] t = Ok r /\ shape r = [a; c; b; e].
Proof. intros H. unfold transpose. rewrite H. cbn. eauto. Qed.

Lemma transpose_021 {A : Type} (d : A) (t : tensor A) (a b c : nat) :
  shape t = [a; b; c] ->
  exists r, transpose d [0; 2; 1] t = Ok r /\ shape r = [a; c; b].
Proof. intros H. unfold transpose. rewrite H. cbn. eauto. Qed.

Lemma matmul_3d_2d (x w : array) (b t i o : nat) :
  shape x = [b; t; i] -> shape w = [i; o] ->
  exists y, matmul x w = Ok y /\ shape y = [b; t; o].
Proof.
  intros Hx Hw. unfold matmul. rewrite Hx, Hw.
  cbn [mat_dims rev app].
  destruct (Nat.eqb_spec i i) as [_ | E]; [| congruence].
  cbn [broadcast_shapes rev app bshape_rev option_map].
  eexists; split; reflexivity.
Qed.

Lemma matmul_3d_3d (x y : array) (n t k s : nat) :
  shape x = [n; t; k] -> shape y = [n; k; s] ->
  exists z, matmul x y = Ok z /\ shape z = [n; t; s].
Proof.
  intros Hx Hy. unfold matmul. rewrite Hx, Hy.
  cbn [mat_dims rev app].
  destruct (Nat.eqb_spec k k) as [_ | E]; [| congruence].
  rewrite (broadcast_shapes_same [n]).
  eexists; split; reflexivity.
Qed.

Lemma Linear_call_3d (l : Linear) (x : array) (b t i o : nat) :
  linear_dims l o i -> shape x = [b; t; i] ->
  exists y, Linear_call l x = Ok y /\ shape y = [b; t; o].
Proof.
  intros [Hw Hb] Hx. unfold Linear_call.
  destruct (transpose_all_2d s_zero (weight l) o i Hw) as (wt & -> & Hwt).
  cbn [rbind].
  destruct (matmul_3d_2d x wt b t i o Hx Hwt) as (y & -> & Hy).
  cbn [rbind]. destruct (bias l) as [bv |]; [| eauto].
  apply (binop_last_axis s_zero s_zero s_add y bv [b; t] o); assumption.
Qed.

Lemma infer_shape_nonneg (args : list Z) :
  forallb (fun z => (0 <=? z)%Z) args = true ->
  infer_shape (numel (map Z.to_nat args)) args = Ok (map Z.to_nat args).
Proof.
  intros Hpos. unfold infer_shape.
  assert (He : existsb (fun z => (z <? -1)%Z) args = false).
  { induction args as [| z args IH]; [reflexivity |]. simpl in *.
    apply andb_prop in Hpos. destruct Hpos as [Hz Hr]. rewrite (IH Hr).
    apply Z.leb_le in Hz. destruct (Z.ltb_spec z (-1)); [lia | reflexivity]. }
  assert (Hf : filter (fun z => (z =? -1)%Z) args = []).
  { induction args as [| z args IH]; [reflexivity |]. simpl in *.
    apply andb_prop in Hpos. destruct Hpos as [Hz Hr].
    apply orb_false_elim in He. destruct He as [_ He].
    apply Z.leb_le in Hz. destruct (Z.eqb_spec z (-1)); [lia | now apply IH]. }
  rewrite He, Hf. cbn [length]. now rewrite Nat.eqb_refl.
Qed.

(** [reshape] to a tuple of non-negative ints with the right number of
    elements. *)
Lemma reshape_nat {A : Type} (t : tensor A) (sh : list nat) :
  numel sh = numel (shape t) ->
  reshape (map Z.of_nat sh) t = Ok (mkT sh (data t)).
Proof.
  intros H. unfold reshape. rewrite <- H.
  assert (Hm : map Z.to_nat (map Z.of_nat sh) = sh).
  { rewrite map_map. rewrite <- (map_id sh) at 2. apply map_ext. intros; apply Nat2Z.id. }
  rewrite <- Hm at 1. rewrite infer_shape_nonneg.
  - cbn [rbind]. now rewrite Hm.
  - clear. induction sh as [| x sh IH]; [reflexivity |]. simpl. rewrite IH.
    destruct (Z.leb_spec 0 (Z.of_nat x)); [reflexivity | lia].
Qed.

(** [reshape(bsz, -1, heads, head_dim)] *)
Lemma reshape_heads {A : Type} (t : tensor A) (b len h d : nat) :
  numel (shape t) = b * len * h * d -> b * h * d <> 0 ->
  reshape [Z.of_nat b; (-1)%Z; Z.of_nat h; Z.of_nat d] t
  = Ok (mkT [b; len; h; d] (data t)).
Proof.
  intros Hn Hk. unfold reshape, infer_shape. cbn [existsb filter map].
  assert (Eb : (Z.of_nat b =? -1)%Z = false) by (apply Z.eqb_neq; lia).
  assert (Eh : (Z.of_nat h =? -1)%Z = false) by (apply Z.eqb_neq; lia).
  assert (Ed : (Z.of_nat d =? -1)%Z = false) by (apply Z.eqb_neq; lia).
  assert (Lb : (Z.of_nat b <? -1)%Z = false) by (apply Z.ltb_ge; lia).
  assert (Lh : (Z.of_nat h <? -1)%Z = false) by (apply Z.ltb_ge; lia).
  assert (Ld : (Z.of_nat d <? -1)%Z = false) by (apply Z.ltb_ge; lia).
  rewrite Eb, Eh, Ed, Lb, Lh, Ld.
  change (-1 =? -1)%Z with true. change (-1 <? -1)%Z with false.
  cbn [orb negb length map numel fold_right].
  rewrite !Nat2Z.id.
  destruct (Nat.eqb_spec (b * (h * (d * 1))) 0) as [E | _]; [exfalso; nia |].
  assert (Hdiv : numel (shape t) / (b * (h * (d * 1))) = len).
  { rewrite Hn. replace (b * len * h * d) with (len * (b * (h * (d * 1)))) by lia.
    apply Nat.div_mul. nia. }
  rewrite Hdiv.
  destruct (Nat.eqb_spec (b * (len * (h * (d * 1)))) (numel (shape t))) as [_ | E];
    [reflexivity | exfalso; nia].
Qed.

Lemma binop_heads_mask {X Y Z' : Type} (dx : X) (dy : Y) (f : X -> Y -> Z')
    (a : tensor X) (m : tensor Y) (b h t s : nat) :
  shape a = [b; h; t; s] -> shape m = [b; 1; t; s] ->
  exists r, binop dx dy f a m = Ok r /\ shape r = [b; h; t; s].
Proof.
  intros Ha Hm. unfold binop, broadcast_shapes. rewrite Ha, Hm.
  cbn [rev app bshape_rev]. rewrite !Nat.eqb_refl.
  destruct (h =? 1) eqn:E; cbn; eexists; split; reflexivity.
Qed.

Lemma on_rows_shape (tag : string) (f : list scalar -> list scalar) (t : array)
    (d : nat) (sh : list nat) :
  shape t = d :: sh ->
  exists r, on_rows tag f t = Ok r /\ shape r = d :: sh.
Proof. intros H. unfold on_rows. rewrite H. eexists; split; reflexivity. Qed.

Section WellFormed.
Variables (self : M2M100Attention) (E H D : nat).
Hypothesis Hwf : attention_wf self E H D.

Lemma shape_call_infer (t : array) (bsz len : nat) (w : stdout) :
  0 < bsz -> shape t = [bsz; len; E] ->
  exists r, _shape self t (-1) bsz w = (Ok r, w ++ [[PShape (py_shape t)]])
            /\ shape r = [bsz; H; len; D].
Proof.
  intros Hb Ht. destruct Hwf as (_ & Hh & Hd & HE & Hpos & _).
  destruct (transpose_0213 s_zero (mkT [bsz; len; H; D] (data t)) bsz len H D eq_refl)
    as (r & Hr & Hrs).
  exists r. split; [| exact Hrs].
  unfold _shape. rewrite Hh, Hd.
  rewrite (reshape_heads t bsz len H D) by (rewrite ?Ht; cbn; nia).
  cbn [bind lift print]. now rewrite Hr.
Qed.

Lemma shape_call_exact (t : array) (bsz len : nat) (w : stdout) :
  shape t = [bsz; len; E] ->
  exists r, _shape self t (Z.of_nat len) bsz w = (Ok r, w ++ [[PShape (py_shape t)]])
            /\ shape r = [bsz; H; len; D].
Proof.
  intros Ht. destruct Hwf as (_ & Hh & Hd & HE & Hpos & _).
  destruct (transpose_0213 s_zero (mkT [bsz; len; H; D] (data t)) bsz len H D eq_refl)
    as (r & Hr & Hrs).
  exists r. split; [| exact Hrs].
  unfold _shape. rewrite Hh, Hd.
  change [Z.of_nat bsz; Z.of_nat len; Z.of_nat H; Z.of_nat D]
    with (map Z.of_nat [bsz; len; H; D]).
  rewrite reshape_nat by (rewrite ?Ht; cbn; nia).
  cbn [bind lift print]. now rewrite Hr.
Qed.

Lemma project_kv_returns (source : array) (bsz len : nat) (w : stdout) :
  0 < bsz -> shape source = [bsz; len; E] ->
  exists k v w',
    project_kv self source bsz w = (Ok (k, v), w')
    /\ shape k = [bsz; H; len; D] /\ shape v = [bsz; H; len; D].
Proof.
  intros Hb Hs. pose proof Hwf as (_ & _ & _ & _ & _ & Hk & Hv & _).
  destruct (Linear_call_3d (k_proj self) source bsz len E E Hk Hs) as (kp & Hkp & Hkps).
  destruct (shape_call_infer kp bsz len w Hb Hkps) as (k & Hkk & Hks).
  destruct (Linear_call_3d (v_proj self) source bsz len E E Hv Hs) as (vp & Hvp & Hvps).
  destruct (shape_call_infer vp bsz len (w ++ [[PShape (py_shape kp)]]) Hb Hvps)
    as (v & Hvv & Hvs).
  exists k, v. eexists. split; [| split; assumption].
  unfold project_kv. rewrite Hkp, bind_lift_Ok. rewrite (bind_ok _ _ _ _ _ Hkk).
  rewrite Hvp, bind_lift_Ok. rewrite (bind_ok _ _ _ _ _ Hvv). reflexivity.
Qed.

(** The source of key and value: [key_value_states], or [hidden_states]. *)
Lemma key_value_states_of_returns (hs : array) (kvs : option array) (bsz tgt : nat)
    (w : stdout) :
  0 < bsz -> shape hs = [bsz; tgt; E] ->
  (forall kv, kvs = Some kv -> shape kv = [bsz; tgt; E]) ->
  exists k v w',
    key_value_states_of self hs kvs None bsz w = (Ok (k, v), w')
    /\ shape k = [bsz; H; tgt; D] /\ shape v = [bsz; H; tgt; D].
Proof.
  intros Hb Hhs Hkv. unfold key_value_states_of. destruct kvs as [kv |].
  - apply project_kv_returns; auto.
  - apply project_kv_returns; auto.
Qed.

Lemma attention_scores_returns (hs : array) (kvs : option array) (bsz tgt : nat)
    (w : stdout) :
  0 < bsz -> shape hs = [bsz; tgt; E] ->
  (forall kv, kvs = Some kv -> shape kv = [bsz; tgt; E]) ->
  exists st w',
    attention_scores self hs kvs None w = (Ok st, w')
    /\ sc_bsz st = bsz /\ sc_tgt_len st = tgt /\ sc_src_len st = tgt
    /\ shape (sc_value_states st) = [bsz * H; tgt; D]
    /\ shape (sc_attn_weights st) = [bsz * H; tgt; tgt].
Proof.
  intros Hb Hhs Hkv.
  pose proof Hwf as (_ & Hh & Hd & HE & Hpos & _ & _ & Hq & _).
  destruct (Linear_call_3d (q_proj self) hs bsz tgt E E Hq Hhs) as (query & Hqp & Hqs).
  set (w1 := w ++ [[PStr "hidden_states"; PShape (py_shape hs)]]).
  destruct (key_value_states_of_returns hs kvs bsz tgt w1 Hb Hhs Hkv)
    as (key & value & w2 & Hkvs & Hks & Hvs).
  destruct (shape_call_exact query bsz tgt w2 Hqs) as (q & Hqq & Hqqs).
  set (w3 := w2 ++ [[PShape (py_shape query)]]) in *.
  assert (Hproj : forall t : array, shape t = [bsz; H; tgt; D] ->
            reshape [(Z.of_nat bsz * num_heads self)%Z; Z.of_nat tgt; head_dim self] t
            = Ok (mkT [bsz * H; tgt; D] (data t))).
  { intros t Ht. rewrite Hh, Hd, <- Nat2Z.inj_mul.
    change [Z.of_nat (bsz * H); Z.of_nat tgt; Z.of_nat D]
      with (map Z.of_nat [bsz * H; tgt; D]).
    apply reshape_nat. rewrite Ht. cbn. nia. }
  destruct (transpose_021 s_zero (mkT [bsz * H; tgt; D] (data key)) _ _ _ eq_refl)
    as (kt & Hkt & Hkts).
  destruct (matmul_3d_3d (mkT [bsz * H; tgt; D] (data q)) kt _ _ _ _ eq_refl Hkts)
    as (aw & Haw & Haws).
  eexists. exists w3. split.
  - unfold attention_scores. rewrite bind_print. rewrite Hhs.
    cbn [unpack3]. rewrite bind_lift_Ok. rewrite Hqp, bind_lift_Ok.
    fold w1. rewrite (bind_ok _ _ _ _ _ Hkvs).
    rewrite (bind_ok _ _ _ _ _ Hqq).
    rewrite (Hproj q Hqqs), bind_lift_Ok.
    rewrite (Hproj key Hks), bind_lift_Ok.
    rewrite (Hproj value Hvs), bind_lift_Ok.
    cbn [shape tuple_index nth_error]. rewrite bind_lift_Ok.
    rewrite Hkt, bind_lift_Ok. rewrite Haw, bind_lift_Ok.
    reflexivity.
  - cbn. auto.
Qed.

Lemma add_attention_mask_returns (st : scores) (mask : array) (bsz tgt : nat)
    (w : stdout) :
  sc_bsz st = bsz -> sc_tgt_len st = tgt -> sc_src_len st = tgt ->
  shape (sc_attn_weights st) = [bsz * H; tgt; tgt] ->
  shape mask = [bsz; 1; tgt; tgt] ->
  exists aw, add_attention_mask self st (Some mask) w = (Ok aw, w)
             /\ shape aw = [bsz * H; tgt; tgt].
Proof.
  intros Hsb Hstg Hss Hsw Hmask.
  pose proof Hwf as (He & Hh & Hd & HE & Hpos & _).
  destruct (binop_heads_mask s_zero s_zero s_add
              (mkT [bsz; H; tgt; tgt] (data (sc_attn_weights st))) mask
              bsz H tgt tgt eq_refl Hmask) as (w4 & Hw4 & Hw4s).
  eexists. split.
  - unfold add_attention_mask, check_attention_mask, attention_mask_expected, py_shape.
    rewrite Hmask, Hsb, Hstg, Hss. cbn [map].
    destruct (list_eq_dec Z.eq_dec _ _) as [_ | ne]; [| exfalso; apply ne; reflexivity].
    rewrite bind_ret, Hh.
    change [Z.of_nat bsz; Z.of_nat H; Z.of_nat tgt; Z.of_nat tgt]
      with (map Z.of_nat [bsz; H; tgt; tgt]).
    rewrite reshape_nat by (rewrite Hsw; cbn; nia).
    rewrite bind_lift_Ok. unfold add. rewrite Hw4, bind_lift_Ok.
    rewrite <- Nat2Z.inj_mul.
    change [Z.of_nat (bsz * H); Z.of_nat tgt; Z.of_nat tgt]
      with (map Z.of_nat [bsz * H; tgt; tgt]).
    rewrite reshape_nat by (rewrite Hw4s; cbn; nia).
    reflexivity.
  - reflexivity.
Qed.

Lemma attention_output_returns (st : scores) (aw : array) (bsz tgt : nat) (w : stdout) :
  sc_bsz st = bsz -> sc_tgt_len st = tgt ->
  shape (sc_value_states st) = [bsz * H; tgt; D] ->
  shape aw = [bsz * H; tgt; tgt] ->
  exists out w',
    attention_output self st aw w = (Ok (VArray out), w')
    /\ shape out = [bsz; tgt; E].
Proof.
  intros Hsb Hstg Hsv Haw.
  pose proof Hwf as (He & Hh & Hd & HE & Hpos & _ & _ & _ & Ho).
  destruct (on_rows_shape "[softmax] invalid axis" softmax_row aw (bsz * H) [tgt; tgt] Haw)
    as (sm & Hsm & Hsms).
  destruct (matmul_3d_3d sm (sc_value_states st) _ _ _ _ Hsms Hsv) as (ao & Hao & Haos).
  destruct (transpose_0213 s_zero (mkT [bsz; H; tgt; D] (data ao)) _ _ _ _ eq_refl)
    as (at' & Hat & Hats).
  destruct (Linear_call_3d (out_proj self) (mkT [bsz; tgt; E] (data at')) bsz tgt E E
              Ho eq_refl) as (out & Hout & Houts).
  exists out. eexists. split; [| exact Houts].
  unfold attention_output. unfold softmax. rewrite Hsm, bind_lift_Ok.
  rewrite Hao, bind_lift_Ok. rewrite Hsb, Hstg, Hh, Hd, He.
  change [Z.of_nat bsz; Z.of_nat H; Z.of_nat tgt; Z.of_nat D]
    with (map Z.of_nat [bsz; H; tgt; D]).
  rewrite reshape_nat by (rewrite Haos; cbn; nia).
  rewrite bind_lift_Ok, Hat, bind_lift_Ok.
  change [Z.of_nat bsz; Z.of_nat tgt; Z.of_nat E]
    with (map Z.of_nat [bsz; tgt; E]).
  rewrite reshape_nat by (rewrite Hats; cbn; nia).
  rewrite bind_lift_Ok, Hout, bind_lift_Ok, bind_print. reflexivity.
Qed.

(** Self-attention, or cross-attention over a source as long as the
    target, with a mask of the expected shape: the call returns an array of
    the shape of [hidden_states]. *)
Lemma attention_call_returns (hs : array) (kvs : option array) (mask : array)
    (bsz tgt : nat) (w : stdout) :
  0 < bsz -> shape hs = [bsz; tgt; E] ->
  (forall kv, kvs = Some kv -> shape kv = [bsz; tgt; E]) ->
  shape mask = [bsz; 1; tgt; tgt] ->
  exists out w',
    M2M100Attention_call self hs kvs None (Some mask) w = (Ok (VArray out), w')
    /\ shape out = [bsz; tgt; E].
Proof.
  intros Hb Hhs Hkv Hmask.
  pose proof Hwf as (He & Hh & Hd & HE & Hpos & _).
  destruct (attention_scores_returns hs kvs bsz tgt w Hb Hhs Hkv)
    as (st & w1 & Hst & Hsb & Hstg & Hss & Hsv & Hsw).
  set (w2 := (w1 ++ [[PStr "attn_weights"; PArray mask]])
             ++ [[PStr "attn_weights"; PShape (py_shape mask)]]).
  destruct (add_attention_mask_returns st mask bsz tgt w2 Hsb Hstg Hss Hsw Hmask)
    as (aw & Haw & Haws).
  destruct (attention_output_returns st aw bsz tgt w2 Hsb Hstg Hsv Haws)
    as (out & w3 & Hout & Houts).
  exists out, w3. split; [| exact Houts].
  unfold M2M100Attention_call. rewrite (bind_ok _ _ _ _ _ Hst).
  unfold check_attn_weights, attn_weights_expected, py_shape.
  rewrite Hsw, Hsb, Hstg, Hss, Hh. cbn [map]. rewrite Nat2Z.inj_mul.
  destruct (list_eq_dec Z.eq_dec _ _) as [_ | ne]; [| congruence].
  rewrite bind_ret. rewrite (bind_ok _ _ _ _ _ (print_attention_mask_Some mask w1)).
  fold w2. rewrite (bind_ok _ _ _ _ _ Haw). exact Hout.
Qed.
End WellFormed.

Lemma binop_first_operand_row {X Y Z' : Type} (dx : X) (dy : Y) (f : X -> Y -> Z')
    (a : tensor X) (b : tensor Y) (lead : list nat) (o : nat) :
  shape a = [o] -> shape b = lead ++ [o] ->
  exists r, binop dx dy f a b = Ok r /\ shape r = lead ++ [o].
Proof.
  intros Ha Hb. unfold binop, broadcast_shapes. rewrite Ha, Hb.
  rewrite rev_app_distr. cbn [rev app bshape_rev]. rewrite Nat.eqb_refl.
  cbn [option_map rev]. rewrite rev_involutive. eexists; split; reflexivity.
Qed.

Lemma LayerNorm_call_3d (ln : LayerNorm) (x : array) (b t E : nat) :
  layer_norm_dims ln E -> shape x = [b; t; E] ->
  exists y, LayerNorm_call ln x = Ok y /\ shape y = [b; t; E].
Proof.
  intros [Hw Hb] Hx. unfold LayerNorm_call.
  destruct (on_rows_shape "[mean] invalid axis" layer_norm_row x b [t; E] Hx)
    as (n & -> & Hn).
  cbn [rbind]. unfold mul.
  destruct (binop_first_operand_row s_zero s_zero s_mul (ln_weight ln) n [b; t] E Hw Hn)
    as (wn & -> & Hwn).
  cbn [rbind]. unfold add.
  apply (binop_last_axis s_zero s_zero s_add wn (ln_bias ln) [b; t] E); assumption.
Qed.

Lemma add_same_shape (a b : array) :
  shape a = shape b -> exists r, add a b = Ok r /\ shape r = shape a.
Proof. apply binop_same_shape. Qed.

Lemma feed_forward_returns (cls : string) (act : option activation) (fc1 fc2 : Linear)
    (x : array) (b t E F : nat) :
  act <> None -> linear_dims fc1 F E -> linear_dims fc2 E F -> shape x = [b; t; E] ->
  exists f h y,
    get_activation_fn cls act = Ok f /\ Linear_call fc1 x = Ok h
    /\ Linear_call fc2 (activation_call f h) = Ok y /\ shape y = [b; t; E].
Proof.
  intros Hact H1 H2 Hx.
  destruct (Linear_call_3d fc1 x b t E F H1 Hx) as (h & Hh & Hhs).
  destruct act as [f |]; [| congruence].
  assert (Ha : shape (activation_call f h) = [b; t; F]) by (destruct f; exact Hhs).
  destruct (Linear_call_3d fc2 (activation_call f h) b t F E H2 Ha) as (y & Hy & Hys).
  exists f, h, y. auto.
Qed.

(** An encoder layer keeps the shape of its input. *)
Lemma encoder_layer_call_returns (l : M2M100EncoderLayer) (E H D F : nat)
    (hs mask : array) (b t : nat) (w : stdout) :
  encoder_layer_wf l E H D F ->
  0 < b -> shape hs = [b; t; E] -> shape mask = [b; 1; t; t] ->
  exists out w',
    M2M100EncoderLayer_call l hs (Some mask) w = (Ok out, w')
    /\ shape out = [b; t; E].
Proof.
  intros (Hattn & Hln1 & Hact & Hfc1 & Hfc2 & Hln2) Hb Hhs Hmask.
  destruct (LayerNorm_call_3d _ hs b t E Hln1 Hhs) as (n1 & Hn1 & Hn1s).
  destruct (attention_call_returns _ E H D Hattn n1 None mask b t w Hb Hn1s
              ltac:(discriminate) Hmask) as (ao & w1 & Hao & Haos).
  destruct (add_same_shape ao hs ltac:(congruence)) as (r1 & Hr1 & Hr1s).
  rewrite Haos in Hr1s.
  destruct (LayerNorm_call_3d _ r1 b t E Hln2 Hr1s) as (n2 & Hn2 & Hn2s).
  destruct (feed_forward_returns "M2M100EncoderLayer" _ _ _ n2 b t E F Hact Hfc1 Hfc2 Hn2s)
    as (f & h & y & Ha & Hh & Hy & Hys).
  destruct (add_same_shape y r1 ltac:(congruence)) as (out & Hout & Houts).
  rewrite Hys in Houts.
  exists out, w1. split; [| exact Houts].
  unfold M2M100EncoderLayer_call. rewrite Hn1, bind_lift_Ok.
  rewrite (bind_ok _ _ _ _ _ Hao). cbn [py_add]. rewrite Hr1, bind_lift_Ok.
  rewrite Hn2, bind_lift_Ok, Ha, bind_lift_Ok, Hh, bind_lift_Ok. cbv zeta.
  rewrite Hy, bind_lift_Ok, Hout, bind_lift_Ok. reflexivity.
Qed.

(** A decoder layer, with or without encoder states (as long as the
    target), keeps the shape of its input and returns it as a bare array. *)
Lemma decoder_layer_call_returns (l : M2M100DecoderLayer) (E H D F : nat)
    (hs : array) (ehs : option array) (mask emask : array) (b t : nat) (w : stdout) :
  decoder_layer_wf l E H D F ->
  0 < b -> shape hs = [b; t; E] ->
  (forall e, ehs = Some e -> shape e = [b; t; E]) ->
  shape mask = [b; 1; t; t] -> shape emask = [b; 1; t; t] ->
  exists out w',
    M2M100DecoderLayer_call l hs ehs (Some mask) (Some emask) w = (Ok (VArray out), w')
    /\ shape out = [b; t; E].
Proof.
  intros (Hattn & Hln1 & Hcross & Hln2 & Hact & Hfc1 & Hfc2 & Hln3) Hb Hhs Hehs Hmask Hemask.
  destruct (LayerNorm_call_3d _ hs b t E Hln1 Hhs) as (n1 & Hn1 & Hn1s).
  destruct (attention_call_returns _ E H D Hattn n1 None mask b t w Hb Hn1s
              ltac:(discriminate) Hmask) as (ao & w1 & Hao & Haos).
  destruct (add_same_shape ao hs ltac:(congruence)) as (r1 & Hr1 & Hr1s).
  rewrite Haos in Hr1s.
  assert (Hmid : exists r2 w2,
             (match ehs with
              | Some e =>
                  let residual := r1 in
                  hidden_states <- lift (LayerNorm_call (dl_encoder_attn_layer_norm l) r1) ;;
                  attn <- M2M100Attention_call (dl_encoder_attn l) hidden_states (Some e)
                            None (Some emask) ;;
                  lift (py_add attn residual)
              | None => ret r1
              end) w1 = (Ok r2, w2) /\ shape r2 = [b; t; E]).
  { destruct ehs as [e |]; [| exists r1, w1; split; [reflexivity | exact Hr1s]].
    destruct (LayerNorm_call_3d _ r1 b t E Hln2 Hr1s) as (n2 & Hn2 & Hn2s).
    destruct (attention_call_returns _ E H D Hcross n2 (Some e) emask b t w1 Hb Hn2s
                ltac:(intros kv Hk; inversion Hk; subst; now apply Hehs) Hemask)
      as (co & w2 & Hco & Hcos).
    destruct (add_same_shape co r1 ltac:(congruence)) as (r2 & Hr2 & Hr2s).
    rewrite Hcos in Hr2s.
    exists r2, w2. split; [| exact Hr2s].
    cbv zeta. rewrite Hn2, bind_lift_Ok. rewrite (bind_ok _ _ _ _ _ Hco).
    cbn [py_add]. now rewrite Hr2. }
  destruct Hmid as (r2 & w2 & Hmid & Hr2s).
  destruct (LayerNorm_call_3d _ r2 b t E Hln3 Hr2s) as (n3 & Hn3 & Hn3s).
  destruct (feed_forward_returns "M2M100DecoderLayer" _ _ _ n3 b t E F Hact Hfc1 Hfc2 Hn3s)
    as (f & h & y & Ha & Hh & Hy & Hys).
  destruct (add_same_shape y r2 ltac:(congruence)) as (out & Hout & Houts).
  rewrite Hys in Houts.
  exists out, w2. split; [| exact Houts].
  unfold M2M100DecoderLayer_call. rewrite Hn1, bind_lift_Ok.
  rewrite (bind_ok _ _ _ _ _ Hao). cbn [py_add]. rewrite Hr1, bind_lift_Ok.
  rewrite (bind_ok _ _ _ _ _ Hmid).
  rewrite Hn3, bind_lift_Ok, Ha, bind_lift_Ok, Hh, bind_lift_Ok. cbv zeta.
  rewrite Hy, bind_lift_Ok, Hout, bind_lift_Ok. reflexivity.
Qed.
End ShapeForward.

(** ** The encoder and the memory around its embedding table *)

Section EncoderMemory.
Context {B : Backend}.

Lemma in_bounds_firstn (sh1 sh2 idx : list nat) :
  in_bounds (sh1 ++ sh2) idx -> in_bounds sh1 (firstn (length sh1) idx).
Proof.
  revert idx. induction sh1 as [| n rest IH]; intros idx H.
  - exact I.
  - destruct idx as [| i idx]; simpl in H; [tauto |].
    destruct H as [Hi Hb]. simpl. split; [exact Hi | now apply IH].
Qed.

(** An id read at a position of a well-formed array is one of its data. *)
Lemma get_in_data (x : tensor Z) (idx : list nat) :
  well_formed x -> in_bounds (shape x) idx -> In (get 0%Z x idx) (data x).
Proof.
  intros Hwf Hb. unfold get, get_at. apply nth_In.
  rewrite Hwf. now apply offset_lt.
Qed.

(** On ids that index the table the gather does not read the memory around
    it. *)
Lemma Embedding_call_in_table (weight : array) (outside1 outside2 : Z -> list nat -> scalar)
    (x : tensor Z) (v : nat) :
  well_formed x ->
  v = nth 0 (shape weight) 0 ->
  (forall id, In id (data x) -> (- Z.of_nat v <= id < Z.of_nat v)%Z) ->
  Embedding_call (mkEmbedding weight outside1) x
  = Embedding_call (mkEmbedding weight outside2) x.
Proof.
  intros Hwf Hv Hin. unfold Embedding_call. cbn [emb_weight emb_outside].
  destruct (shape weight) as [| v0 rest]; [reflexivity |].
  cbn [nth] in Hv. subst v0. f_equal. apply generate_ext. intros idx Hb. cbv zeta.
  pose proof (Hin _ (get_in_data x _ Hwf (in_bounds_firstn _ _ _ Hb))) as Hid.
  set (id := get 0%Z x (firstn (length (shape x)) idx)) in *.
  destruct (id <? 0)%Z eqn:Eneg.
  - apply Z.ltb_lt in Eneg.
    replace ((0 <=? id + Z.of_nat v) && (id + Z.of_nat v <? Z.of_nat v))%Z with true;
      [reflexivity |].
    symmetry. apply andb_true_iff. split; [apply Z.leb_le | apply Z.ltb_lt]; lia.
  - apply Z.ltb_ge in Eneg.
    replace ((0 <=? id) && (id <? Z.of_nat v))%Z with true; [reflexivity |].
    symmetry. apply andb_true_iff. split; [apply Z.leb_le | apply Z.ltb_lt]; lia.
Qed.

Lemma encoder_call_in_table (self : M2M100Encoder) (input_ids : tensor Z)
    (attention_mask : option (tensor Z)) (outside1 outside2 : Z -> list nat -> scalar)
    (w : stdout) :
  ids_in_table self input_ids ->
  M2M100Encoder_call (with_memory self outside1) input_ids attention_mask w
  = M2M100Encoder_call (with_memory self outside2) input_ids attention_mask w.
Proof.
  intros [Hwf Hin]. unfold M2M100Encoder_call, with_memory.
  cbn [enc_embed_tokens enc_embed_scale enc_embed_positions enc_layers enc_layer_norm].
  destruct (tuple_last (py_shape input_ids)) as [last_dim | e]; [| reflexivity].
  rewrite !bind_lift_Ok.
  destruct (reshape [(-1)%Z; last_dim] input_ids) as [ids | e] eqn:Er; [| reflexivity].
  rewrite !bind_lift_Ok.
  destruct (reshape_Ok _ _ _ Er) as [Hs Hd].
  apply infer_shape_numel in Hs.
  rewrite (Embedding_call_in_table _ outside1 outside2 ids (table_rows self)).
  - reflexivity.
  - unfold well_formed in *. rewrite Hd, Hs. exact Hwf.
  - reflexivity.
  - rewrite Hd. exact Hin.
Qed.
End EncoderMemory.

(** C8: on input ids that all index the embedding table, the
    encoder forward pass is a function of the module (its weights and
    configuration), the input ids and the mask alone.  Whatever the memory
    around the table holds in either run, and from any two states of the
    output stream, two runs give the same result (hidden states or exception)
    and print the same lines; in particular a second run, started where the
    first one ended, repeats the result of the first. *)
Theorem encoder_is_deterministic_on_table_ids :
  forall (B : Backend) (self : M2M100Encoder) (input_ids : tensor Z)
         (attention_mask : option (tensor Z)),
    ids_in_table self input_ids ->
    (forall outside1 outside2 w1 w2,
        fst (M2M100Encoder_call (with_memory self outside1) input_ids attention_mask w1)
        = fst (M2M100Encoder_call (with_memory self outside2) input_ids attention_mask w2))
    /\ (exists out, forall outside w,
           snd (M2M100Encoder_call (with_memory self outside) input_ids attention_mask w)
           = w ++ out)
    /\ (forall outside1 outside2 w,
           fst (M2M100Encoder_call (with_memory self outside2) input_ids attention_mask
                  (snd (M2M100Encoder_call (with_memory self outside1) input_ids
                          attention_mask w)))
           = fst (M2M100Encoder_call (with_memory self outside1) input_ids
                    attention_mask w)).
Proof.
  intros B self input_ids attention_mask Hin.
  destruct (oblivious_encoder_call (with_memory self (fun _ _ => s_zero))
              input_ids attention_mask) as [r [out H]].
  assert (Hall : forall outside w,
             M2M100Encoder_call (with_memory self outside) input_ids attention_mask w
             = (r, w ++ out)).
  { intros outside w.
    rewrite (encoder_call_in_table self input_ids attention_mask outside
               (fun _ _ => s_zero) w Hin).
    apply H. }
  split; [| split].
  - intros outside1 outside2 w1 w2. now rewrite !Hall.
  - exists out. intros outside w. now rewrite Hall.
  - intros outside1 outside2 w. now rewrite !Hall.
Qed.

(** ** The encoder over the reals: an id outside the table *)

Ltac eval_real :=
  cbv - [Rplus Rminus Rmult Rdiv Rpower exp ln sqrt sin cos IZR Req_dec_T Rinv Ropp
         Rlt_dec INR];
  rewrite ?sigma_first, ?sigma_second, ?scale_value.

Ltac eval_real_tests :=
  eval_real;
  repeat match goal with
         | |- context [Req_dec_T ?a ?b] =>
             destruct (Req_dec_T a b);
             [try lra; try (exfalso; now apply scale_not_one)
             | try lra ]; eval_real
         end.

(** The encoder of [table4_config] on the id 7, which its table of 4 rows
    does not hold: the hidden states are the layer norm of what the gather
    found in memory plus the positional encoding of 7. *)
Lemma table4_encoder_call :
  exists enc,
    M2M100Encoder_init table4_config None = Ok enc
    /\ table_rows enc = 4
    /\ forall (outside : Z -> list nat -> R) (w : stdout (B := real_backend)),
         fst (M2M100Encoder_call (with_memory enc outside) (mkT [1; 1] [7%Z])
                (Some (mkT [1; 1] [1%Z])) w)
         = Ok (mkT [1; 1; 4]
                 (map (fun x => (1 * x + 0)%R)
                    (layer_norm_row (B := real_backend)
                       (map (fun j => (outside 7%Z [j] * 1
                                       + nth j (encoding_row 7) 0)%R)
                          [0; 1; 2; 3])))).
Proof.
  eexists. split; [reflexivity |]. split; [reflexivity |].
  intros outside w. eval_real_tests. reflexivity.
Qed.

(** The layer norm of a constant row is zero; the first entry of the layer
    norm of [[4, 0, 0, 0]] is positive. *)
Lemma layer_norm_row_constant (h0 h1 h2 h3 : R) :
  h0 = 0%R -> h1 = 0%R -> h2 = 0%R -> h3 = 0%R ->
  nth 0 (layer_norm_row (B := real_backend) [h0; h1; h2; h3]) 0%R = 0%R.
Proof.
  intros -> -> -> ->. eval_real.
  match goal with |- context [sqrt ?x] => generalize (sqrt x) end.
  intros s. unfold Rdiv. ring.
Qed.

Lemma layer_norm_row_peak (h0 h1 h2 h3 : R) :
  h0 = 4%R -> h1 = 0%R -> h2 = 0%R -> h3 = 0%R ->
  (0 < nth 0 (layer_norm_row (B := real_backend) [h0; h1; h2; h3]) 0)%R.
Proof.
  intros -> -> -> ->. eval_real.
  apply Rmult_lt_0_compat; [lra |].
  apply Rdiv_lt_0_compat; [lra |].
  apply sqrt_lt_R0. lra.
Qed.

(** C8, counterexample: the encoder of [table4_config], run twice on the
    id 7 with the same weights and mask, returns different hidden states when
    the memory around the table holds [memory_a] in one run and [memory_b]
    in the other. *)
Lemma gather_outside_table_follows_memory :
  exists enc,
    M2M100Encoder_init table4_config None = Ok enc
    /\ table_rows enc = 4
    /\ fst (M2M100Encoder_call (with_memory enc memory_a) (mkT [1; 1] [7%Z])
              (Some (mkT [1; 1] [1%Z])) [])
       <> fst (M2M100Encoder_call (with_memory enc memory_b) (mkT [1; 1] [7%Z])
                 (Some (mkT [1; 1] [1%Z])) []).
Proof.
  destruct table4_encoder_call as (enc & Hinit & Hrows & Hcall).
  exists enc. split; [exact Hinit |]. split; [exact Hrows |].
  rewrite !Hcall. intros H.
  apply (f_equal (fun r => match r with
                           | Ok t => nth 0 (data t) 0%R
                           | Err _ => 0%R
                           end)) in H.
  cbn [data map] in H.
  match type of H with
  | nth 0 (map ?f (layer_norm_row ?ra)) _ = nth 0 (map _ (layer_norm_row ?rb)) _ =>
      change (f (nth 0 (layer_norm_row (B := real_backend) ra) 0%R)
              = f (nth 0 (layer_norm_row (B := real_backend) rb) 0%R)) in H
  end.
  cbv beta in H.
  assert (Ha : forall j, j < 4 ->
            (memory_a 7 [j] * 1 + nth j (encoding_row 7) 0 = 0)%R).
  { intros j Hj. unfold memory_a. cbn [nth]. lra. }
  assert (Hb : forall j, 0 < j < 4 ->
            (memory_b 7 [j] * 1 + nth j (encoding_row 7) 0 = 0)%R).
  { intros [| [| [| [| j]]]] Hj; try lia; unfold memory_b; cbn [nth]; lra. }
  assert (Hb0 : (memory_b 7 [0%nat] * 1 + nth 0 (encoding_row 7) 0 = 4)%R).
  { unfold memory_b. cbn [nth]. lra. }
  pose proof (layer_norm_row_constant _ _ _ _
                (Ha 0 ltac:(lia)) (Ha 1 ltac:(lia)) (Ha 2 ltac:(lia)) (Ha 3 ltac:(lia)))
    as Hzero.
  pose proof (layer_norm_row_peak _ _ _ _
                Hb0 (Hb 1 ltac:(lia)) (Hb 2 ltac:(lia)) (Hb 3 ltac:(lia)))
    as Hpos.
  rewrite Hzero in H.
  lra.
Qed.

(** The id 3 is in the table: the two memories give the same result. *)
Lemma encoder_is_deterministic_on_table_ids_witness :
  exists enc,
    M2M100Encoder_init table4_config None = Ok enc
    /\ fst (M2M100Encoder_call (with_memory enc memory_a) (mkT [1; 1] [3%Z])
              (Some (mkT [1; 1] [1%Z])) [])
       = fst (M2M100Encoder_call (with_memory enc memory_b) (mkT [1; 1] [3%Z])
                (Some (mkT [1; 1] [1%Z])) []).
Proof.
  destruct table4_encoder_call as (enc & Hinit & Hrows & _).
  exists enc. split; [exact Hinit |].
  refine (proj1 (encoder_is_deterministic_on_table_ids real_backend enc
                   (mkT [1; 1] [3%Z]) (Some (mkT [1; 1] [1%Z])) _)
            memory_a memory_b [] []).
  split; [reflexivity |].
  intros id [<- | []]. rewrite Hrows. lia.
Defined.

(** ** What the constructors build *)

Section Built.
Context {B : Backend}.

Lemma Linear_init_dims (i o : Z) (b : bool) (l : Linear) :
  Linear_init i o b = Ok l ->
  (0 < i)%Z /\ (0 <= o)%Z /\ linear_dims l (Z.to_nat o) (Z.to_nat i).
Proof.
  unfold Linear_init.
  destruct (Z.eqb_spec i 0); [discriminate |].
  destruct (Z.ltb_spec i 0); [discriminate |].
  destruct (Z.ltb_spec o 0); [discriminate |].
  intros Hl. inversion Hl; subst. split; [lia | split; [lia |]].
  split; [reflexivity | destruct b; [reflexivity | exact I]].
Qed.

Lemma LayerNorm_init_dims (d : Z) (ln : LayerNorm) :
  LayerNorm_init d = Ok ln -> layer_norm_dims ln (Z.to_nat d).
Proof.
  unfold LayerNorm_init. destruct (d <? 0)%Z; [discriminate |].
  intros H. inversion H. split; reflexivity.
Qed.

(** What [__init__] builds when the heads divide the embedding. *)
Lemma attention_init_wf (e h : Z) (dr : scalar) (dec bias causal : bool)
    (a : M2M100Attention) :
  M2M100Attention_init e h dr dec bias causal = Ok a ->
  (0 < h)%Z -> (e mod h = 0)%Z ->
  attention_wf a (Z.to_nat e) (Z.to_nat h) (Z.to_nat (e / h)).
Proof.
  unfold M2M100Attention_init.
  destruct (Z.eqb_spec h 0); [discriminate |].
  destruct (Z.eqb_spec (e / h) 0); [discriminate |].
  intros H Hh Hmod.
  apply rbind_Ok in H. destruct H as (k & Hk & H).
  apply rbind_Ok in H. destruct H as (v & Hv & H).
  apply rbind_Ok in H. destruct H as (q & Hq & H).
  apply rbind_Ok in H. destruct H as (o & Ho & H).
  inversion H; subst; clear H.
  apply Linear_init_dims in Hk, Hv, Hq, Ho.
  destruct Hk as (He & _ & Hk), Hv as (_ & _ & Hv), Hq as (_ & _ & Hq), Ho as (_ & _ & Ho).
  assert (Hdiv : (e = h * (e / h))%Z) by (apply floor_quotient_exact; lia).
  assert (Hpos : (0 <= e / h)%Z) by (apply Z.div_pos; lia).
  unfold attention_wf. cbn.
  destruct Hk, Hv, Hq, Ho.
  repeat split; try assumption; try (rewrite Z2Nat.id; lia); try lia.
Qed.


Lemma decoder_layer_init_wf (config : ModelArgs) (l : M2M100DecoderLayer) :
  M2M100DecoderLayer_init config = Ok l ->
  (0 < decoder_attention_heads config)%Z ->
  (d_model config mod decoder_attention_heads config = 0)%Z ->
  activation_of (activation_function config) <> None ->
  decoder_layer_wf l (Z.to_nat (d_model config))
    (Z.to_nat (decoder_attention_heads config))
    (Z.to_nat (d_model config / decoder_attention_heads config))
    (Z.to_nat (decoder_ffn_dim config)).
Proof.
  unfold M2M100DecoderLayer_init. intros H Hh Hmod Hact.
  apply rbind_Ok in H. destruct H as (a & Ha & H).
  apply rbind_Ok in H. destruct H as (ln1 & Hln1 & H).
  apply rbind_Ok in H. destruct H as (c & Hc & H).
  apply rbind_Ok in H. destruct H as (ln2 & Hln2 & H).
  apply rbind_Ok in H. destruct H as (fc1 & Hfc1 & H).
  apply rbind_Ok in H. destruct H as (fc2 & Hfc2 & H).
  apply rbind_Ok in H. destruct H as (ln3 & Hln3 & H).
  inversion H; subst; clear H.
  pose proof (attention_init_wf _ _ _ _ _ _ _ Ha Hh Hmod).
  pose proof (attention_init_wf _ _ _ _ _ _ _ Hc Hh Hmod).
  apply LayerNorm_init_dims in Hln1, Hln2, Hln3.
  apply Linear_init_dims in Hfc1, Hfc2.
  unfold decoder_layer_wf. cbn. tauto.
Qed.



Lemma positional_init_sigmas (n d : Z) (p : option Z)
    (pe : M2M100SinusoidalPositionalEmbedding) :
  M2M100SinusoidalPositionalEmbedding_init n d p = Ok pe ->
  shape (_sigmas (weights pe)) = [Z.to_nat (d / 2)].
Proof.
  unfold M2M100SinusoidalPositionalEmbedding_init, SinusoidalPositionalEncoding_init.
  destruct (negb (d mod 2 =? 0)%Z); [discriminate |].
  destruct (d =? 0)%Z; [discriminate |].
  cbn [rbind]. intros H. now inversion H.
Qed.


(** Construction succeeds on such a configuration. *)
Lemma LayerNorm_init_ok (d : Z) : (0 <= d)%Z -> is_ok (LayerNorm_init d) = true.
Proof.
  intros H. unfold LayerNorm_init. destruct (Z.ltb_spec d 0); [lia | reflexivity].
Qed.

Lemma replicate_init_ok {X : Type} (n : nat) (f : result X) :
  is_ok f = true -> is_ok (replicate_init n f) = true.
Proof.
  intros H. induction n as [| n IH]; [reflexivity |]. simpl.
  destruct f as [x | e]; [| discriminate]. simpl.
  destruct (replicate_init n (Ok x)); [reflexivity | discriminate].
Qed.

Lemma encoder_layer_init_ok (config : ModelArgs) :
  (0 < encoder_attention_heads config <= d_model config)%Z ->
  (0 < encoder_ffn_dim config)%Z ->
  is_ok (M2M100EncoderLayer_init config) = true.
Proof.
  intros Hh Hf. unfold M2M100EncoderLayer_init.
  apply is_ok_rbind; [apply attention_init_ok; lia | intros].
  apply is_ok_rbind; [apply LayerNorm_init_ok; lia | intros].
  apply is_ok_rbind; [apply Linear_init_ok; lia | intros].
  apply is_ok_rbind; [apply Linear_init_ok; lia | intros].
  apply is_ok_rbind; [apply LayerNorm_init_ok; lia | intros].
  reflexivity.
Qed.

Lemma encoder_init_ok (config : ModelArgs) (emb : option Embedding) :
  (0 < encoder_attention_heads config <= d_model config)%Z ->
  (d_model config mod 2 = 0)%Z ->
  (0 < encoder_ffn_dim config)%Z -> (0 <= vocab_size config)%Z ->
  is_ok (M2M100Encoder_init config emb) = true.
Proof.
  intros Hh Heven Hf Hv. unfold M2M100Encoder_init.
  apply is_ok_rbind.
  { unfold embed_scale_of. destruct (scale_embedding config); [| reflexivity].
    destruct (Z.ltb_spec (d_model config) 0); [lia | reflexivity]. }
  intros sc. apply is_ok_rbind.
  { unfold Embedding_init.
    destruct (Z.eqb_spec (d_model config) 0); [lia |].
    destruct (Z.ltb_spec (d_model config) 0); [lia |].
    destruct (Z.ltb_spec (vocab_size config) 0); [lia | reflexivity]. }
  intros tok. apply is_ok_rbind.
  { unfold M2M100SinusoidalPositionalEmbedding_init, SinusoidalPositionalEncoding_init.
    rewrite Heven. cbn [Z.eqb negb].
    destruct (Z.eqb_spec (d_model config) 0); [lia | reflexivity]. }
  intros pos. apply is_ok_rbind.
  { apply replicate_init_ok. now apply encoder_layer_init_ok. }
  intros layers. apply is_ok_rbind; [apply LayerNorm_init_ok; lia | intros].
  reflexivity.
Qed.
End Built.

(** ** The encoder's forward pass *)

Section EncoderForward.
Context {B : Backend}.

Lemma bshape_rev_nil_r (a : list nat) : bshape_rev a [] = Some a.
Proof. destruct a; reflexivity. Qed.

Lemma set_nth_last {X : Type} (l : list X) (u v : X) :
  set_nth (length l) v (l ++ [u]) = l ++ [v].
Proof.
  unfold set_nth. rewrite length_app. cbn [length].
  destruct (Nat.ltb_spec (length l) (length l + 1)); [| lia].
  rewrite firstn_app, Nat.sub_diag, firstn_all. cbn [firstn]. rewrite app_nil_r.
  rewrite skipn_all2 by (rewrite length_app; cbn [length]; lia). reflexivity.
Qed.

Lemma norm_axis_last (n : nat) : norm_axis (-1) (S n) = Some n.
Proof.
  unfold norm_axis. change (-1 <? 0)%Z with true. cbv beta iota zeta.
  destruct (Z.leb_spec 0 (-1 + Z.of_nat (S n))); [| lia].
  destruct (Z.ltb_spec (-1 + Z.of_nat (S n)) (Z.of_nat (S n))); [| lia].
  cbn [andb]. f_equal. lia.
Qed.








End EncoderForward.

(** ** Calls that never return *)

Section Failures.
Context {B : Backend}.

Lemma fails_bind_ret {A C : Type} (a : A) (k : A -> M C) (w : stdout) :
  fails (k a) w -> fails (bind (ret a) k) w.
Proof. intros H. exact H. Qed.

Lemma fails_lift_Err {A : Type} (e : exn) (w : stdout) : fails (@lift B A (Err e)) w.
Proof. now exists e. Qed.

Lemma infer_shape_nat (size : nat) (sh : list nat) :
  infer_shape size (map Z.of_nat sh)
  = if numel sh =? size then Ok sh
    else Err (ValueError "[reshape] Cannot reshape array").
Proof.
  unfold infer_shape.
  assert (He : existsb (fun z => (z <? -1)%Z) (map Z.of_nat sh) = false).
  { induction sh as [| x sh IH]; [reflexivity |]. simpl. rewrite IH.
    destruct (Z.ltb_spec (Z.of_nat x) (-1)); [lia | reflexivity]. }
  assert (Hf : filter (fun z => (z =? -1)%Z) (map Z.of_nat sh) = []).
  { induction sh as [| x sh IH]; [reflexivity |]. simpl in *.
    apply orb_false_elim in He. destruct He as [_ He].
    destruct (Z.eqb_spec (Z.of_nat x) (-1)); [lia | now apply IH]. }
  assert (Hm : map Z.to_nat (map Z.of_nat sh) = sh).
  { rewrite map_map. rewrite <- (map_id sh) at 2. apply map_ext. intros; apply Nat2Z.id. }
  rewrite He, Hf. cbn [length]. now rewrite Hm.
Qed.

Lemma reshape_nat_mismatch {A : Type} (t : tensor A) (sh : list nat) :
  numel sh <> numel (shape t) ->
  reshape (map Z.of_nat sh) t = Err (ValueError "[reshape] Cannot reshape array").
Proof.
  intros H. unfold reshape. rewrite infer_shape_nat.
  destruct (Nat.eqb_spec (numel sh) (numel (shape t))); [contradiction | reflexivity].
Qed.

(** Cross-attention over a source whose length differs from the target's:
    the projected key holds [src_len] positions, and line 133 reshapes it to
    [proj_shape], built from [tgt_len]. *)
Lemma cross_attention_length_mismatch (self : M2M100Attention) (E H D : nat)
    (hs kv : array) (mask : option array) (bsz tgt src : nat) (w : stdout) :
  attention_wf self E H D ->
  0 < bsz -> shape hs = [bsz; tgt; E] -> shape kv = [bsz; src; E] -> src <> tgt ->
  fst (M2M100Attention_call self hs (Some kv) None mask w)
  = Err (ValueError "[reshape] Cannot reshape array").
Proof.
  intros Hwf Hb Hhs Hkv Hne.
  pose proof Hwf as (_ & Hh & Hd & HE & Hpos & _ & _ & Hq & _).
  destruct (Linear_call_3d (q_proj self) hs bsz tgt E E Hq Hhs) as (query & Hqp & Hqs).
  set (w1 := w ++ [[PStr "hidden_states"; PShape (py_shape hs)]]).
  destruct (project_kv_returns self E H D Hwf kv bsz src w1 Hb Hkv)
    as (key & value & w2 & Hkvs & Hks & Hvs).
  destruct (shape_call_exact self E H D Hwf query bsz tgt w2 Hqs) as (q & Hqq & Hqqs).
  assert (Hproj : [(Z.of_nat bsz * num_heads self)%Z; Z.of_nat tgt; head_dim self]
                  = map Z.of_nat [bsz * H; tgt; D]).
  { rewrite Hh, Hd, <- Nat2Z.inj_mul. reflexivity. }
  assert (Hs : attention_scores self hs (Some kv) None w
               = (Err (ValueError "[reshape] Cannot reshape array"),
                  w2 ++ [[PShape (py_shape query)]])).
  { unfold attention_scores.
    rewrite bind_print. rewrite Hhs. cbn [unpack3]. rewrite bind_lift_Ok.
    rewrite Hqp, bind_lift_Ok. fold w1.
    unfold key_value_states_of. rewrite (bind_ok _ _ _ _ _ Hkvs).
    rewrite (bind_ok _ _ _ _ _ Hqq).
    rewrite Hproj.
    rewrite reshape_nat by (rewrite Hqqs; cbn; nia).
    rewrite bind_lift_Ok.
    rewrite reshape_nat_mismatch; [reflexivity |].
    rewrite Hks. cbn [numel fold_right shape]. intros Heq.
    assert (H0 : bsz * (H * D) <> 0) by nia.
    assert (Heq' : bsz * (H * D) * tgt = bsz * (H * D) * src) by lia.
    apply Nat.mul_cancel_l in Heq'; [lia | exact H0]. }
  unfold M2M100Attention_call. now rewrite (bind_err _ _ _ _ _ Hs).
Qed.

(** An activation name other than [gelu] and [relu] sets no attribute
    (lines 189-192, 239-242); the layer's call then raises at the latest at
    [self.activation_fn] (lines 208, 273). *)
Lemma encoder_layer_without_activation_fails (l : M2M100EncoderLayer)
    (hs : array) (mask : option array) (w : stdout) :
  el_activation_fn l = None -> fails (M2M100EncoderLayer_call l hs mask) w.
Proof.
  intros Hact. unfold M2M100EncoderLayer_call. rewrite Hact.
  do 4 (apply fails_bind_r; intros).
  apply fails_bind_l. apply fails_lift_Err.
Qed.

Lemma decoder_layer_without_activation_fails (l : M2M100DecoderLayer)
    (hs : array) (ehs mask emask : option array) (w : stdout) :
  dl_activation_fn l = None -> fails (M2M100DecoderLayer_call l hs ehs mask emask) w.
Proof.
  intros Hact. unfold M2M100DecoderLayer_call. rewrite Hact.
  do 5 (apply fails_bind_r; intros).
  apply fails_bind_l. apply fails_lift_Err.
Qed.

Lemma encoder_layer_init_activation (config : ModelArgs) (l : M2M100EncoderLayer) :
  M2M100EncoderLayer_init config = Ok l ->
  el_activation_fn l = activation_of (activation_function config).
Proof.
  unfold M2M100EncoderLayer_init. intros H.
  repeat (apply rbind_Ok in H; destruct H as (? & _ & H)).
  now inversion H.
Qed.

Lemma decoder_layer_init_activation (config : ModelArgs) (l : M2M100DecoderLayer) :
  M2M100DecoderLayer_init config = Ok l ->
  dl_activation_fn l = activation_of (activation_function config).
Proof.
  unfold M2M100DecoderLayer_init. intros H.
  repeat (apply rbind_Ok in H; destruct H as (? & _ & H)).
  now inversion H.
Qed.

(** The encoder layer's call with no mask never returns: the attention call
    reads [attention_mask.shape]. *)
Lemma encoder_layer_call_None_fails (l : M2M100EncoderLayer) (hs : array) (w : stdout) :
  fails (M2M100EncoderLayer_call l hs None) w.
Proof.
  unfold M2M100EncoderLayer_call.
  apply fails_bind_r. intros n w1.
  apply fails_bind_l. apply attention_call_None_fails.
Qed.

(** Every call of the full model ends in the decoder's exception, or in an
    earlier one of the encoder. *)
Lemma conditional_generation_call_fails (self : M2M100ForConditionalGeneration)
    (input_ids : tensor Z) (attention_mask : option (tensor Z))
    (decoder_input_ids : tensor Z)
    (encoder_attention_mask decoder_attention_mask : option array)
    (past_key_values : option (list (array * array))) (w : stdout) :
  fails (M2M100ForConditionalGeneration_call self input_ids attention_mask
           decoder_input_ids encoder_attention_mask decoder_attention_mask
           past_key_values) w.
Proof.
  unfold M2M100ForConditionalGeneration_call. apply fails_bind_l.
  apply model_call_never_returns.
Qed.

(** [forward_mlx] on a number of sentences other than two: the mask column
    [mx.ones((bsz, 1))] does not fit the two-row mask (lines 86, 105-107). *)
Lemma mask_column_mismatch (bsz : nat) :
  bsz <> 2 ->
  concatenate s_zero initial_decoder_input_mask (generate [bsz; 1] (fun _ => s_one)) 1
  = Err (ValueError "[concatenate] shapes do not match").
Proof.
  intros Hb. unfold concatenate, initial_decoder_input_mask, generate. cbn [shape].
  change (norm_axis 1 (length [2; 2])) with (Some 1).
  cbv beta iota. change (set_nth 1 0 [2; 2]) with [2; 0].
  change (set_nth 1 0 [bsz; 1]) with [bsz; 0].
  destruct (list_eq_dec Nat.eq_dec [2; 0] [bsz; 0]) as [E | _];
    [inversion E; congruence |].
  cbn [length Nat.eqb andb]. reflexivity.
Qed.

Lemma decode_step_batch_mismatch (mdl : MLXModel) (enc : array) (am ids : tensor Z)
    (bsz : nat) (w : stdout) :
  bsz <> 2 ->
  fails (decode_step mdl enc am bsz (ids, initial_decoder_input_mask)) w.
Proof.
  intros Hb. unfold decode_step.
  do 6 (apply fails_bind_r; intros).
  apply fails_bind_l. rewrite (mask_column_mismatch bsz Hb). apply fails_lift_Err.
Qed.

End Failures.

(** ** The decoder's layer loop *)

Section DecoderLoop.
Context {B : Backend}.

Lemma LayerNorm_call_2d (ln : LayerNorm) (x : array) (t E : nat) :
  layer_norm_dims ln E -> shape x = [t; E] ->
  exists y, LayerNorm_call ln x = Ok y /\ shape y = [t; E].
Proof.
  intros [Hw Hb] Hx. unfold LayerNorm_call.
  destruct (on_rows_shape "[mean] invalid axis" layer_norm_row x t [E] Hx)
    as (n & -> & Hn).
  cbn [rbind]. unfold mul.
  destruct (binop_first_operand_row s_zero s_zero s_mul (ln_weight ln) n [t] E Hw Hn)
    as (wn & -> & Hwn).
  cbn [rbind]. unfold add.
  apply (binop_last_axis s_zero s_zero s_add wn (ln_bias ln) [t] E); assumption.
Qed.

(** A decoder layer given a two-dimensional array raises where the
    attention call unpacks three dimensions (line 108). *)
Lemma decoder_layer_call_2d (l : M2M100DecoderLayer) (E H D F : nat)
    (hs : array) (ehs mask emask : option array) (t : nat) (w : stdout) :
  decoder_layer_wf l E H D F -> shape hs = [t; E] ->
  fst (M2M100DecoderLayer_call l hs ehs mask emask w)
  = Err (ValueError "not enough values to unpack (expected 3, got 2)").
Proof.
  intros (_ & Hln & _) Hhs.
  destruct (LayerNorm_call_2d _ hs t E Hln Hhs) as (n & Hn & Hns).
  unfold M2M100DecoderLayer_call. rewrite Hn, bind_lift_Ok.
  unfold M2M100Attention_call, attention_scores.
  unfold bind, print, lift. rewrite Hns. reflexivity.
Qed.

(** Lines 356-358: [hidden_states = layer_output[0]] takes batch row 0 of
    the array the layer returned. *)
Lemma decoder_layers_loop_first (l : M2M100DecoderLayer) (rest : list M2M100DecoderLayer)
    (E H D F : nat) (hs : array) (ehs : option array) (mask emask : array)
    (b t : nat) (w : stdout) :
  decoder_layer_wf l E H D F ->
  0 < b -> shape hs = [b; t; E] ->
  (forall e, ehs = Some e -> shape e = [b; t; E]) ->
  shape mask = [b; 1; t; t] -> shape emask = [b; 1; t; t] ->
  exists out w',
    shape out = [b; t; E]
    /\ M2M100DecoderLayer_call l hs ehs (Some mask) (Some emask) w = (Ok (VArray out), w')
    /\ decoder_layers_loop (l :: rest) (VArray hs) ehs (Some mask) (Some emask) w
       = decoder_layers_loop rest
           (VArray (generate [t; E] (fun idx => get s_zero out (0 :: idx))))
           ehs (Some mask) (Some emask) w'.
Proof.
  intros Hl Hb Hhs Hehs Hmask Hemask.
  destruct (decoder_layer_call_returns l E H D F hs ehs mask emask b t w
              Hl Hb Hhs Hehs Hmask Hemask) as (out & w' & Hout & Houts).
  exists out, w'. split; [exact Houts | split; [exact Hout |]].
  cbn [decoder_layers_loop as_array]. rewrite bind_lift_Ok.
  rewrite (bind_ok _ _ _ _ _ Hout).
  cbn [py_index0]. unfold select_first. rewrite Houts.
  destruct (Nat.eqb_spec b 0); [lia |]. reflexivity.
Qed.

Lemma decoder_layers_loop_one (l : M2M100DecoderLayer)
    (E H D F : nat) (hs : array) (ehs : option array) (mask emask : array)
    (b t : nat) (w : stdout) :
  decoder_layer_wf l E H D F ->
  0 < b -> shape hs = [b; t; E] ->
  (forall e, ehs = Some e -> shape e = [b; t; E]) ->
  shape mask = [b; 1; t; t] -> shape emask = [b; 1; t; t] ->
  exists r w',
    decoder_layers_loop [l] (VArray hs) ehs (Some mask) (Some emask) w
    = (Ok (VArray r), w')
    /\ shape r = [t; E].
Proof.
  intros Hl Hb Hhs Hehs Hmask Hemask.
  destruct (decoder_layers_loop_first l [] E H D F hs ehs mask emask b t w
              Hl Hb Hhs Hehs Hmask Hemask) as (out & w' & _ & _ & Hloop).
  eexists. exists w'. split; [rewrite Hloop; reflexivity | reflexivity].
Qed.

Lemma decoder_layers_loop_two (l1 l2 : M2M100DecoderLayer) (rest : list M2M100DecoderLayer)
    (E H D F : nat) (hs : array) (ehs : option array) (mask emask : array)
    (b t : nat) (w : stdout) :
  decoder_layer_wf l1 E H D F -> decoder_layer_wf l2 E H D F ->
  0 < b -> shape hs = [b; t; E] ->
  (forall e, ehs = Some e -> shape e = [b; t; E]) ->
  shape mask = [b; 1; t; t] -> shape emask = [b; 1; t; t] ->
  fst (decoder_layers_loop (l1 :: l2 :: rest) (VArray hs) ehs (Some mask) (Some emask) w)
  = Err (ValueError "not enough values to unpack (expected 3, got 2)").
Proof.
  intros Hl1 Hl2 Hb Hhs Hehs Hmask Hemask.
  destruct (decoder_layers_loop_first l1 (l2 :: rest) E H D F hs ehs mask emask b t w
              Hl1 Hb Hhs Hehs Hmask Hemask) as (out & w' & _ & _ & Hloop).
  rewrite Hloop. cbn [decoder_layers_loop as_array]. rewrite bind_lift_Ok.
  pose proof (decoder_layer_call_2d l2 E H D F
                (generate [t; E] (fun idx => get s_zero out (0 :: idx)))
                ehs (Some mask) (Some emask) t w' Hl2 eq_refl) as Hc.
  unfold bind at 1.
  destruct (M2M100DecoderLayer_call l2 _ ehs (Some mask) (Some emask) w')
    as [[v | ex] w2]; simpl in Hc; [discriminate | now subst].
Qed.
End DecoderLoop.

(** ** The values of the positional embedding *)

Section PositionalValues.
Context {B : Backend}.

Lemma in_bounds_app (sh idx : list nat) (k j : nat) :
  in_bounds sh idx -> j < k -> in_bounds (sh ++ [k]) (idx ++ [j]).
Proof.
  revert idx. induction sh as [| n rest IH]; intros [| i idx]; simpl; try tauto.
  intros [Hi Hb] Hj. split; [exact Hi | now apply IH].
Qed.

Lemma in_bounds_length (sh idx : list nat) :
  in_bounds sh idx -> length idx = length sh.
Proof.
  revert idx. induction sh as [| n rest IH]; intros [| i idx]; simpl; try tauto.
  intros [_ Hb]. f_equal. now apply IH.
Qed.

Lemma numel_app_1 (sh : list nat) : numel (sh ++ [1]) = numel sh.
Proof. induction sh as [| n rest IH]; simpl; [reflexivity | now rewrite IH]. Qed.

Lemma offset_expand_last (sh idx : list nat) :
  in_bounds sh idx -> offset (sh ++ [1]) (idx ++ [0]) = offset sh idx.
Proof.
  revert idx. induction sh as [| n rest IH]; intros [| i idx]; simpl; try tauto.
  intros [_ Hb]. now rewrite numel_app_1, IH.
Qed.

Lemma zip_bidx_expand_last (sh idx : list nat) (j : nat) :
  in_bounds sh idx -> zip_bidx (sh ++ [1]) (idx ++ [j]) = idx ++ [0].
Proof.
  revert idx. induction sh as [| n rest IH]; intros [| i idx]; simpl; try tauto.
  intros [Hi Hb]. rewrite (IH idx Hb).
  destruct (Nat.eqb_spec n 1); [| reflexivity]. f_equal. lia.
Qed.

Lemma bidx_expand_last (sh idx : list nat) (j : nat) :
  in_bounds sh idx -> bidx (sh ++ [1]) (idx ++ [j]) = idx ++ [0].
Proof.
  intros Hb. unfold bidx. rewrite !length_app, (in_bounds_length _ _ Hb).
  rewrite Nat.sub_diag. cbn [skipn]. now apply zip_bidx_expand_last.
Qed.

Lemma bidx_last (idx : list nat) (h j : nat) :
  j < h -> bidx [h] (idx ++ [j]) = [j].
Proof.
  intros Hj. unfold bidx. rewrite length_app. cbn [length].
  replace (length idx + 1 - 1) with (length idx) by lia.
  rewrite skipn_app, skipn_all, Nat.sub_diag. cbn [skipn app zip_bidx].
  destruct (Nat.eqb_spec h 1); [| reflexivity]. f_equal. lia.
Qed.

Lemma tmap_generate {X Y : Type} (f : X -> Y) (sh : list nat) (g : list nat -> X) :
  tmap f (generate sh g) = generate sh (fun idx => f (g idx)).
Proof. unfold tmap, generate. cbn [shape data]. now rewrite map_map. Qed.

Lemma nth_app_last {X : Type} (l : list X) (u d : X) : nth (length l) (l ++ [u]) d = u.
Proof. rewrite app_nth2 by lia. now rewrite Nat.sub_diag. Qed.

(** What [nn.SinusoidalPositionalEncoding] holds at each index: the sine
    block on columns [0 .. h-1], the cosine block on [h .. 2h-1], each a
    function of the integer stored at that index of the input. *)
Lemma SinusoidalPositionalEncoding_call_values
    (spe : SinusoidalPositionalEncoding) (x : tensor Z) (h : nat) :
  shape (_sigmas spe) = [h] -> cos_first spe = false ->
  exists y,
    SinusoidalPositionalEncoding_call spe x = Ok y
    /\ shape y = shape x ++ [h + h]
    /\ forall (idx : list nat) (j : nat),
         in_bounds (shape x) idx -> j < h ->
         get s_zero y (idx ++ [j])
         = encoding_entry spe s_sin (get 0%Z x idx) (get s_zero (_sigmas spe) [j])
         /\ get s_zero y (idx ++ [h + j])
            = encoding_entry spe s_cos (get 0%Z x idx) (get s_zero (_sigmas spe) [j]).
Proof.
  intros Hs Hcf.
  set (prod := fun idx : list nat =>
                 s_mul (s_of_Z (get 0%Z (expand_last x) (bidx (shape x ++ [1]) idx)))
                       (get s_zero (_sigmas spe) (bidx [h] idx))).
  assert (Hy : binop 0%Z s_zero (fun i s => s_mul (s_of_Z i) s) (expand_last x) (_sigmas spe)
               = Ok (generate (shape x ++ [h]) prod)).
  { unfold binop, broadcast_shapes, expand_last. cbn [shape]. rewrite Hs.
    rewrite rev_app_distr. cbn [rev app bshape_rev]. rewrite bshape_rev_nil_r.
    destruct (Nat.eqb_spec 1 h) as [<- | _]; cbn [option_map rev Nat.eqb];
      rewrite rev_involutive; reflexivity. }
  assert (Hprod : forall idx j, in_bounds (shape x) idx -> j < h ->
             prod (idx ++ [j])
             = s_mul (s_of_Z (get 0%Z x idx)) (get s_zero (_sigmas spe) [j])).
  { intros idx j Hb Hj. unfold prod.
    rewrite (bidx_expand_last _ _ _ Hb), (bidx_last _ _ _ Hj).
    unfold get at 1, get_at, expand_last. cbn [shape data].
    now rewrite (offset_expand_last _ _ Hb). }
  set (cat := fun idx : list nat =>
                let i := nth (length (shape x)) idx 0 in
                if i <? h
                then get s_zero (tmap s_sin (generate (shape x ++ [h]) prod)) idx
                else get s_zero (tmap s_cos (generate (shape x ++ [h]) prod))
                       (set_nth (length (shape x)) (i - h) idx)).
  assert (Hc : concatenate s_zero (tmap s_sin (generate (shape x ++ [h]) prod))
                 (tmap s_cos (generate (shape x ++ [h]) prod)) (-1)
               = Ok (generate (shape x ++ [h + h]) cat)).
  { unfold concatenate. cbn [tmap generate shape].
    rewrite !length_app. cbn [length]. rewrite Nat.add_1_r, norm_axis_last.
    cbv beta iota zeta.
    rewrite Nat.eqb_refl, !set_nth_last.
    rewrite !app_nth2, Nat.sub_diag by lia. cbn [nth].
    destruct (list_eq_dec Nat.eq_dec (shape x ++ [0]) (shape x ++ [0])) as [_ | n];
      [| congruence].
    reflexivity. }
  assert (Hcat : forall idx j, in_bounds (shape x) idx -> j < h ->
             cat (idx ++ [j]) = s_sin (prod (idx ++ [j]))
             /\ cat (idx ++ [h + j]) = s_cos (prod (idx ++ [j]))).
  { intros idx j Hb Hj. unfold cat.
    rewrite <- (in_bounds_length _ _ Hb), !nth_app_last, !tmap_generate.
    cbv zeta. split.
    - destruct (Nat.ltb_spec j h); [| lia].
      rewrite get_generate; [reflexivity |]. now apply in_bounds_app.
    - destruct (Nat.ltb_spec (h + j) h); [lia |].
      rewrite set_nth_last. replace (h + j - h) with j by lia.
      rewrite get_generate; [reflexivity |]. now apply in_bounds_app. }
  unfold SinusoidalPositionalEncoding_call. rewrite Hy. cbn [rbind].
  rewrite Hcf, Hc. cbn [rbind].
  eexists. split; [reflexivity |]. split.
  - destruct (s_eqb _ _); reflexivity.
  - intros idx j Hb Hj. destruct (Hcat idx j Hb Hj) as [Hsin Hcos].
    unfold encoding_entry. cbv zeta. rewrite <- (Hprod idx j Hb Hj).
    destruct (s_eqb (spe_scale spe) s_one).
    + rewrite !get_generate by (apply in_bounds_app; [exact Hb | lia]).
      now rewrite Hsin, Hcos.
    + unfold scale_by. rewrite !tmap_generate.
      rewrite !get_generate by (apply in_bounds_app; [exact Hb | lia]).
      now rewrite Hsin, Hcos.
Qed.

Lemma positional_init_cos_first (n d : Z) (p : option Z)
    (pe : M2M100SinusoidalPositionalEmbedding) :
  M2M100SinusoidalPositionalEmbedding_init n d p = Ok pe ->
  cos_first (weights pe) = false.
Proof.
  unfold M2M100SinusoidalPositionalEmbedding_init, SinusoidalPositionalEncoding_init.
  destruct (negb (d mod 2 =? 0)%Z); [discriminate |].
  destruct (d =? 0)%Z; [discriminate |].
  cbn [rbind]. intros H. now inversion H.
Qed.
End PositionalValues.

(** ** Properties of the modules *)

Section ConstructionSucceeds.
Context {B : Backend}.

Lemma decoder_layer_init_ok (config : ModelArgs) :
  (0 < decoder_attention_heads config <= d_model config)%Z ->
  (0 < decoder_ffn_dim config)%Z ->
  is_ok (M2M100DecoderLayer_init config) = true.
Proof.
  intros Hh Hf. unfold M2M100DecoderLayer_init.
  apply is_ok_rbind; [apply attention_init_ok; lia | intros].
  apply is_ok_rbind; [apply LayerNorm_init_ok; lia | intros].
  apply is_ok_rbind; [apply attention_init_ok; lia | intros].
  apply is_ok_rbind; [apply LayerNorm_init_ok; lia | intros].
  apply is_ok_rbind; [apply Linear_init_ok; lia | intros].
  apply is_ok_rbind; [apply Linear_init_ok; lia | intros].
  apply is_ok_rbind; [apply LayerNorm_init_ok; lia | intros].
  reflexivity.
Qed.

Lemma decoder_init_ok (config : ModelArgs) (emb : option Embedding) :
  (0 < decoder_attention_heads config <= d_model config)%Z ->
  (d_model config mod 2 = 0)%Z ->
  (0 < decoder_ffn_dim config)%Z ->
  is_ok (M2M100Decoder_init config emb) = true.
Proof.
  intros Hh Heven Hf. unfold M2M100Decoder_init.
  apply is_ok_rbind.
  { unfold embed_scale_of. destruct (scale_embedding config); [| reflexivity].
    destruct (Z.ltb_spec (d_model config) 0); [lia | reflexivity]. }
  intros sc. apply is_ok_rbind.
  { unfold M2M100SinusoidalPositionalEmbedding_init, SinusoidalPositionalEncoding_init.
    rewrite Heven. cbn [Z.eqb negb].
    destruct (Z.eqb_spec (d_model config) 0); [lia | reflexivity]. }
  intros pos. apply is_ok_rbind.
  { apply replicate_init_ok. now apply decoder_layer_init_ok. }
  intros layers. apply is_ok_rbind; [apply LayerNorm_init_ok; lia | intros].
  reflexivity.
Qed.

End ConstructionSucceeds.

(** X1: a well-formed attention module ([embed_dim = heads * head_dim],
    four [embed_dim x embed_dim] projections), called without a cache on
    hidden states [[bsz, tgt_len, embed_dim]] with a mask
    [[bsz, 1, tgt_len, tgt_len]], as self-attention or as cross-attention over
    a source of the target's length, returns an array of the shape of its
    hidden states. *)
Theorem attention_returns_hidden_shape :
  forall (B : Backend) (self : M2M100Attention) (E H D : nat)
         (hidden_states : array) (key_value_states : option array)
         (attention_mask : array) (bsz tgt_len : nat) (w : stdout),
    attention_wf self E H D ->
    0 < bsz ->
    shape hidden_states = [bsz; tgt_len; E] ->
    (forall kv, key_value_states = Some kv -> shape kv = [bsz; tgt_len; E]) ->
    shape attention_mask = [bsz; 1; tgt_len; tgt_len] ->
    exists out w',
      M2M100Attention_call self hidden_states key_value_states None
        (Some attention_mask) w = (Ok (VArray out), w')
      /\ shape out = [bsz; tgt_len; E].
Proof.
  intros B self E H D hs kvs mask bsz tgt w Hwf. now apply attention_call_returns with (H := H) (D := D).
Qed.

Lemma attention22_wf (B : Backend) (is_dec : bool) (ws : weights22) :
  attention_wf (attention22 is_dec ws) 2 1 2.
Proof.
  unfold attention_wf, linear_dims. cbn.
  repeat split; try reflexivity. repeat constructor.
Qed.

Lemma attention_returns_hidden_shape_witness :
  exists out w',
    M2M100Attention_call (B := real_backend) (attention22 true real_weights22)
      (hidden_2 (B := real_backend) [1; 2; 3; 4]%R)
      (Some (hidden_2 (B := real_backend) [5; 6; 7; 8]%R)) None
      (Some (mask_2x2 (B := real_backend))) [] = (Ok (VArray out), w')
    /\ shape out = [1; 2; 2].
Proof.
  apply (attention_returns_hidden_shape real_backend (attention22 true real_weights22)
           2 1 2 (hidden_2 (B := real_backend) [1; 2; 3; 4]%R)
           (Some (hidden_2 (B := real_backend) [5; 6; 7; 8]%R))
           (mask_2x2 (B := real_backend)) 1 2 []).
  - apply attention22_wf.
  - lia.
  - reflexivity.
  - intros kv Hkv. inversion Hkv. reflexivity.
  - reflexivity.
Defined.

(** C5: the mask check of the attention call (lines 148-152), and the calls
    that do not reach it.
    - On well-formed arguments of one length (self-attention, or
      cross-attention over a source as long as the target, without a cache),
      a mask whose shape is not [(bsz, 1, tgt_len, tgt_len)] ends the call
      with the [ValueError] of line 150, whose message gives the expected and
      the actual shape; a mask of that shape lets the call return its array.
    - Cross-attention over a source of another length never reaches the
      check, whatever the mask: line 133 reshapes the key to [proj_shape],
      which line 130 builds from [tgt_len], and the reshape raises.
    - So with hidden states [[1, 1, 2]], a source [[1, 2, 2]] and a mask
      [[1, 1, 1, 1]], where [(1, 1, 1, 2)] is expected, the call ends with
      the reshape error and reports no shape; the same module in
      self-attention with a mask [[1, 1, 1, 2]] reports
      [(1, 1, 1, 1)] against [(1, 1, 1, 2)]. *)
Theorem attention_mask_shape_check :
  forall (B : Backend),
    (forall (self : M2M100Attention) (E H D : nat) (hidden_states : array)
            (key_value_states : option array) (m : array) (bsz tgt_len : nat)
            (w : stdout),
        attention_wf self E H D ->
        0 < bsz ->
        shape hidden_states = [bsz; tgt_len; E] ->
        (forall kv, key_value_states = Some kv -> shape kv = [bsz; tgt_len; E]) ->
        (shape m <> [bsz; 1; tgt_len; tgt_len] ->
         fst (M2M100Attention_call self hidden_states key_value_states None (Some m) w)
         = Err (ValueError
                  ("Attention mask should be of size "
                   +++ repr_tuple [Z.of_nat bsz; 1%Z; Z.of_nat tgt_len; Z.of_nat tgt_len]
                   +++ ", but is " +++ repr_tuple (py_shape m))))
        /\ (shape m = [bsz; 1; tgt_len; tgt_len] ->
            exists out w',
              M2M100Attention_call self hidden_states key_value_states None (Some m) w
              = (Ok (VArray out), w')
              /\ shape out = [bsz; tgt_len; E]))
    /\ (forall (self : M2M100Attention) (E H D : nat)
               (hidden_states key_value_states : array) (attention_mask : option array)
               (bsz tgt_len src_len : nat) (w : stdout),
        attention_wf self E H D ->
        0 < bsz ->
        shape hidden_states = [bsz; tgt_len; E] ->
        shape key_value_states = [bsz; src_len; E] ->
        src_len <> tgt_len ->
        fst (M2M100Attention_call self hidden_states (Some key_value_states) None
               attention_mask w)
        = Err (ValueError "[reshape] Cannot reshape array"))
    /\ (forall (ws : weights22) (x kv : list scalar) (w : stdout),
        fst (M2M100Attention_call (attention22 true ws) (hidden_1 x)
               (Some (hidden_2 kv)) None (Some mask_1x1) w)
        = Err (ValueError "[reshape] Cannot reshape array")
        /\ fst (M2M100Attention_call (attention22 true ws) (hidden_1 x)
                  None None (Some mask_1x2) w)
           = Err (ValueError
                    "Attention mask should be of size (1, 1, 1, 1), but is (1, 1, 1, 2)")).
Proof.
  intros B.
  assert (Hreached :
    forall (self : M2M100Attention) (E H D : nat) (hidden_states : array)
           (key_value_states : option array) (m : array) (bsz tgt_len : nat)
           (w : stdout),
      attention_wf self E H D ->
      0 < bsz ->
      shape hidden_states = [bsz; tgt_len; E] ->
      (forall kv, key_value_states = Some kv -> shape kv = [bsz; tgt_len; E]) ->
      shape m <> [bsz; 1; tgt_len; tgt_len] ->
      fst (M2M100Attention_call self hidden_states key_value_states None (Some m) w)
      = Err (ValueError
               ("Attention mask should be of size "
                +++ repr_tuple [Z.of_nat bsz; 1%Z; Z.of_nat tgt_len; Z.of_nat tgt_len]
                +++ ", but is " +++ repr_tuple (py_shape m)))).
  { intros self E H D hs kvs m bsz tgt w Hwf Hb Hhs Hkv Hm.
    pose proof Hwf as (He & Hh & Hd & HE & Hpos & _).
    destruct (attention_scores_returns self E H D Hwf hs kvs bsz tgt w Hb Hhs Hkv)
      as (st & w1 & Hst & Hsb & Hstg & Hss & Hsv & Hsw).
    unfold M2M100Attention_call. rewrite (bind_ok _ _ _ _ _ Hst).
    unfold check_attn_weights, attn_weights_expected, py_shape.
    rewrite Hsw, Hsb, Hstg, Hss, Hh. cbn [map]. rewrite Nat2Z.inj_mul.
    destruct (list_eq_dec Z.eq_dec _ _) as [_ | ne]; [| congruence].
    rewrite bind_ret. rewrite (bind_ok _ _ _ _ _ (print_attention_mask_Some m w1)).
    unfold add_attention_mask, check_attention_mask, attention_mask_expected,
      attention_mask_message.
    rewrite Hsb, Hstg, Hss.
    destruct (list_eq_dec Z.eq_dec (py_shape m) _) as [e | _].
    - exfalso. apply Hm. unfold py_shape in e.
      change [Z.of_nat bsz; 1%Z; Z.of_nat tgt; Z.of_nat tgt]
        with (map Z.of_nat [bsz; 1; tgt; tgt]) in e.
      revert e. generalize [bsz; 1; tgt; tgt]. generalize (shape m).
      induction l as [| a l IH]; intros [| b l0] e; simpl in e; try discriminate.
      + reflexivity.
      + inversion e. f_equal; [now apply Nat2Z.inj | now apply IH].
    - reflexivity. }
  split; [| split].
  - intros self E H D hs kvs m bsz tgt w Hwf Hb Hhs Hkv. split.
    + exact (Hreached self E H D hs kvs m bsz tgt w Hwf Hb Hhs Hkv).
    + intros Hm. exact (attention_call_returns self E H D Hwf hs kvs m bsz tgt w Hb Hhs Hkv Hm).
  - intros self E H D hs kv mask bsz tgt src w Hwf Hb Hhs Hkv Hne.
    exact (cross_attention_length_mismatch self E H D hs kv mask bsz tgt src w Hwf Hb Hhs Hkv Hne).
  - intros ws x kv w. split.
    + apply (cross_attention_length_mismatch (attention22 true ws) 2 1 2
               (hidden_1 x) (hidden_2 kv) (Some mask_1x1) 1 1 2 w).
      * apply attention22_wf.
      * lia.
      * reflexivity.
      * reflexivity.
      * lia.
    + apply (Hreached (attention22 true ws) 2 1 2 (hidden_1 x) None mask_1x2 1 1 w).
      * apply attention22_wf.
      * lia.
      * reflexivity.
      * intros kv0 Hk. discriminate.
      * discriminate.
Qed.

(** X2: cross-attention over a source whose length differs from the
    target's never returns.  The key projected from [key_value_states] holds
    [src_len] positions; line 133 reshapes it to [proj_shape], which is built
    from [tgt_len], and the reshape raises. *)
Theorem cross_attention_needs_equal_lengths :
  forall (B : Backend) (self : M2M100Attention) (E H D : nat)
         (hidden_states key_value_states : array) (attention_mask : option array)
         (bsz tgt_len src_len : nat) (w : stdout),
    attention_wf self E H D ->
    0 < bsz ->
    shape hidden_states = [bsz; tgt_len; E] ->
    shape key_value_states = [bsz; src_len; E] ->
    src_len <> tgt_len ->
    fst (M2M100Attention_call self hidden_states (Some key_value_states) None
           attention_mask w)
    = Err (ValueError "[reshape] Cannot reshape array").
Proof.
  intros B self E H D hs kv mask bsz tgt src w Hwf.
  now apply cross_attention_length_mismatch with (H := H) (D := D).
Qed.

Lemma cross_attention_needs_equal_lengths_witness :
  fst (M2M100Attention_call (B := real_backend) (attention22 true real_weights22)
         (hidden_1 (B := real_backend) [1; 2]%R)
         (Some (hidden_2 (B := real_backend) [5; 6; 7; 8]%R)) None
         (Some (mask_1x2 (B := real_backend))) [])
  = Err (ValueError "[reshape] Cannot reshape array").
Proof.
  apply (cross_attention_needs_equal_lengths real_backend
           (attention22 true real_weights22) 2 1 2
           (hidden_1 (B := real_backend) [1; 2]%R)
           (hidden_2 (B := real_backend) [5; 6; 7; 8]%R)
           (Some (mask_1x2 (B := real_backend))) 1 1 2 []).
  - apply attention22_wf.
  - lia.
  - reflexivity.
  - reflexivity.
  - lia.
Defined.

(** X3: an attention module whose heads do not divide [embed_dim] is
    constructed (line 82 takes the floor quotient), and then every call on
    non-empty hidden states [[bsz, tgt_len, embed_dim]] raises, whatever the
    other arguments: [_shape] cannot split the query into
    [num_heads * head_dim < embed_dim] columns (lines 95, 132). *)
Theorem indivisible_heads_every_call_raises :
  forall (B : Backend) (embed_dim num_heads : Z) (dropout : scalar)
         (is_decoder bias is_causal : bool) (self : M2M100Attention)
         (hidden_states : array) (key_value_states : option array)
         (past_key_value : option (array * array)) (attention_mask : option array)
         (bsz tgt_len : nat) (w : stdout),
    M2M100Attention_init embed_dim num_heads dropout is_decoder bias is_causal = Ok self ->
    (0 < num_heads)%Z ->
    (embed_dim mod num_heads <> 0)%Z ->
    shape hidden_states = [bsz; tgt_len; Z.to_nat embed_dim] ->
    0 < bsz -> 0 < tgt_len ->
    fails (M2M100Attention_call self hidden_states key_value_states past_key_value
             attention_mask) w.
Proof.
  intros B e h dr dec bias causal self hs kvs pkv mask bsz tgt w Hinit Hh Hmod Hhs Hb Ht.
  pose proof (attention_init_dims _ _ _ _ _ _ _ Hinit) as (He & Hnh & Hhd & _).
  assert (Hq : linear_dims (q_proj self) (Z.to_nat e) (Z.to_nat e) /\ (0 < e)%Z).
  { unfold M2M100Attention_init in Hinit.
    destruct (h =? 0)%Z; [discriminate |].
    destruct (e / h =? 0)%Z; [discriminate |].
    apply rbind_Ok in Hinit. destruct Hinit as (k & Hk & Hinit).
    apply rbind_Ok in Hinit. destruct Hinit as (v & Hv & Hinit).
    apply rbind_Ok in Hinit. destruct Hinit as (q & Hq & Hinit).
    apply rbind_Ok in Hinit. destruct Hinit as (o & Ho & Hinit).
    inversion Hinit; subst; clear Hinit. cbn.
    apply Linear_init_dims in Hq. tauto. }
  destruct Hq as [Hq Hepos].
  unfold M2M100Attention_call. apply fails_bind_l.
  destruct (attention_scores self hs kvs pkv w) as [[st | ex] w'] eqn:Es;
    [exfalso | exists ex; now rewrite Es].
  unfold attention_scores in Es.
  apply bind_Ok_inv in Es. destruct Es as (u & w1 & _ & Es).
  apply bind_Ok_inv in Es. destruct Es as ([[bsz' tgt'] edim] & w2 & Hun & Es).
  apply lift_Ok_inv in Hun. destruct Hun as [Hun _].
  rewrite Hhs in Hun. cbn [unpack3] in Hun. inversion Hun; subst bsz' tgt' edim.
  apply bind_Ok_inv in Es. destruct Es as (query & w3 & Hql & Es).
  apply lift_Ok_inv in Hql. destruct Hql as [Hql _].
  apply bind_Ok_inv in Es. destruct Es as ([key value] & w4 & _ & Es).
  apply bind_Ok_inv in Es. destruct Es as (q & w5 & Hqs & _).
  destruct (Linear_call_3d _ hs bsz tgt _ _ Hq Hhs) as (query' & Hql' & Hqsh).
  rewrite Hql in Hql'. inversion Hql'; subst query'.
  apply shape_call_Ok in Hqs. destruct Hqs as (r0 & Hinf & _).
  rewrite Hnh, Hhd in Hinf.
  assert (Hd0 : (0 <= e / h)%Z) by (apply Z.div_pos; lia).
  pose proof (infer_shape_numel _ _ _ Hinf) as Hnum.
  apply infer_shape_exact in Hinf;
    [| cbn [forallb]; rewrite !andb_true_r;
       repeat (apply andb_true_intro; split); apply Z.leb_le; lia].
  rewrite Hinf, Hqsh in Hnum. cbn [map numel fold_right] in Hnum.
  rewrite !Nat2Z.id in Hnum.
  assert (Hprod : Z.to_nat h * Z.to_nat (e / h) = Z.to_nat e) by nia.
  rewrite <- Z2Nat.inj_mul in Hprod by lia.
  apply Z2Nat.inj in Hprod; [| nia | lia].
  apply Hmod. apply floor_quotient_exact; lia.
Qed.

Lemma indivisible_heads_every_call_raises_witness :
  exists self,
    M2M100Attention_init (B := real_backend) 5 2 0%R false true false = Ok self
    /\ fails (M2M100Attention_call self
                (mkT [1; 1; 5] [1; 2; 3; 4; 5]%R) None None
                (Some (mask_1x1 (B := real_backend)))) [].
Proof.
  eexists. split; [reflexivity |].
  apply (indivisible_heads_every_call_raises real_backend 5 2 0%R false true false _
           (mkT [1; 1; 5] [1; 2; 3; 4; 5]%R) None None
           (Some (mask_1x1 (B := real_backend))) 1 1 []).
  - reflexivity.
  - lia.
  - vm_compute. discriminate.
  - reflexivity.
  - lia.
  - lia.
Defined.



(** X5: a well-formed encoder layer (well-formed attention, layer norms
    of width [embed_dim], [fc1] and [fc2] of [ffn_dim] hidden units, a known
    activation) returns an array of the shape of its input. *)
Theorem encoder_layer_keeps_shape :
  forall (B : Backend) (layer : M2M100EncoderLayer) (E H D F : nat)
         (hidden_states attention_mask : array) (bsz len : nat) (w : stdout),
    encoder_layer_wf layer E H D F ->
    0 < bsz ->
    shape hidden_states = [bsz; len; E] ->
    shape attention_mask = [bsz; 1; len; len] ->
    exists out w',
      M2M100EncoderLayer_call layer hidden_states (Some attention_mask) w = (Ok out, w')
      /\ shape out = [bsz; len; E].
Proof.
  intros B layer E H D F hs mask b t w Hwf Hb Hhs Hmask.
  now apply encoder_layer_call_returns with (H := H) (D := D) (F := F).
Qed.

Lemma layer_norm2_dims (B : Backend) : layer_norm_dims layer_norm2 2.
Proof. split; reflexivity. Qed.

Lemma linear22_dims (B : Backend) (wb : list scalar * list scalar) :
  linear_dims (linear22 wb) 2 2.
Proof. split; reflexivity. Qed.

Lemma encoder_layer22_wf (B : Backend) (ws : weights22) :
  encoder_layer_wf (encoder_layer22 ws) 2 1 2 2.
Proof.
  unfold encoder_layer_wf, encoder_layer22. cbn.
  pose proof (attention22_wf B false ws). pose proof (layer_norm2_dims B).
  pose proof (linear22_dims B (w_k ws)). pose proof (linear22_dims B (w_v ws)).
  repeat (split; [assumption || discriminate |]). assumption.
Qed.

Lemma encoder_layer_keeps_shape_witness :
  exists out w',
    M2M100EncoderLayer_call (B := real_backend) (encoder_layer22 real_weights22)
      (hidden_2 (B := real_backend) [1; 2; 3; 4]%R)
      (Some (mask_2x2 (B := real_backend))) [] = (Ok out, w')
    /\ shape out = [1; 2; 2].
Proof.
  apply (encoder_layer_keeps_shape real_backend (encoder_layer22 real_weights22) 2 1 2 2
           (hidden_2 (B := real_backend) [1; 2; 3; 4]%R)
           (mask_2x2 (B := real_backend)) 1 2 []).
  - apply encoder_layer22_wf.
  - lia.
  - reflexivity.
  - reflexivity.
Defined.

(** X6: a well-formed decoder layer, without encoder states or with
    encoder states as long as the target, returns a bare array (no tuple) of
    the shape of its input. *)
Theorem decoder_layer_keeps_shape :
  forall (B : Backend) (layer : M2M100DecoderLayer) (E H D F : nat)
         (hidden_states : array) (encoder_hidden_states : option array)
         (attention_mask encoder_attention_mask : array) (bsz len : nat) (w : stdout),
    decoder_layer_wf layer E H D F ->
    0 < bsz ->
    shape hidden_states = [bsz; len; E] ->
    (forall e, encoder_hidden_states = Some e -> shape e = [bsz; len; E]) ->
    shape attention_mask = [bsz; 1; len; len] ->
    shape encoder_attention_mask = [bsz; 1; len; len] ->
    exists out w',
      M2M100DecoderLayer_call layer hidden_states encoder_hidden_states
        (Some attention_mask) (Some encoder_attention_mask) w = (Ok (VArray out), w')
      /\ shape out = [bsz; len; E].
Proof.
  intros B layer E H D F hs ehs mask emask b t w Hwf Hb Hhs Hehs Hmask Hemask.
  now apply decoder_layer_call_returns with (H := H) (D := D) (F := F).
Qed.

Lemma decoder_layer22_wf (B : Backend) (ws : weights22) :
  decoder_layer_wf (decoder_layer22 ws) 2 1 2 2.
Proof.
  unfold decoder_layer_wf, decoder_layer22. cbn.
  pose proof (attention22_wf B true ws). pose proof (layer_norm2_dims B).
  pose proof (linear22_dims B (w_k ws)). pose proof (linear22_dims B (w_v ws)).
  repeat (split; [assumption || discriminate |]). assumption.
Qed.

Lemma decoder_layer_keeps_shape_witness :
  exists out w',
    M2M100DecoderLayer_call (B := real_backend) (decoder_layer22 real_weights22)
      (hidden_2 (B := real_backend) [1; 2; 3; 4]%R)
      (Some (hidden_2 (B := real_backend) [5; 6; 7; 8]%R))
      (Some (mask_2x2 (B := real_backend))) (Some (mask_2x2 (B := real_backend))) []
    = (Ok (VArray out), w')
    /\ shape out = [1; 2; 2].
Proof.
  apply (decoder_layer_keeps_shape real_backend (decoder_layer22 real_weights22) 2 1 2 2
           (hidden_2 (B := real_backend) [1; 2; 3; 4]%R)
           (Some (hidden_2 (B := real_backend) [5; 6; 7; 8]%R))
           (mask_2x2 (B := real_backend)) (mask_2x2 (B := real_backend)) 1 2 []).
  - apply decoder_layer22_wf.
  - lia.
  - reflexivity.
  - intros e He. inversion He. reflexivity.
  - reflexivity.
  - reflexivity.
Defined.

(** X7: an [activation_function] other than ["gelu"] and ["relu"] is
    accepted by the constructors of both layers, which then set no
    [activation_fn] (lines 189-192, 239-242); every call of such a layer
    raises (at line 208 or 273 at the latest). *)
Theorem unknown_activation_layers_always_raise :
  forall (B : Backend) (config : ModelArgs),
    activation_of (activation_function config) = None ->
    (forall (layer : M2M100EncoderLayer) (hidden_states : array)
            (attention_mask : option array) (w : stdout),
        M2M100EncoderLayer_init config = Ok layer ->
        fails (M2M100EncoderLayer_call layer hidden_states attention_mask) w)
    /\ (forall (layer : M2M100DecoderLayer) (hidden_states : array)
               (encoder_hidden_states attention_mask encoder_attention_mask : option array)
               (w : stdout),
          M2M100DecoderLayer_init config = Ok layer ->
          fails (M2M100DecoderLayer_call layer hidden_states encoder_hidden_states
                   attention_mask encoder_attention_mask) w).
Proof.
  intros B config Hact. split.
  - intros layer hs mask w Hinit. apply encoder_layer_without_activation_fails.
    now rewrite (encoder_layer_init_activation _ _ Hinit).
  - intros layer hs ehs mask emask w Hinit. apply decoder_layer_without_activation_fails.
    now rewrite (decoder_layer_init_activation _ _ Hinit).
Qed.

Lemma unknown_activation_layers_always_raise_witness :
  (exists layer,
      M2M100EncoderLayer_init tanh_config = Ok layer
      /\ fails (M2M100EncoderLayer_call layer (hidden_2 (B := real_backend) [1; 2; 3; 4]%R)
                  (Some (mask_2x2 (B := real_backend)))) [])
  /\ (exists layer,
        M2M100DecoderLayer_init tanh_config = Ok layer
        /\ fails (M2M100DecoderLayer_call layer (hidden_2 (B := real_backend) [1; 2; 3; 4]%R)
                    None (Some (mask_2x2 (B := real_backend))) None) []).
Proof.
  split.
  - eexists. split; [reflexivity |].
    apply (proj1 (unknown_activation_layers_always_raise real_backend tanh_config eq_refl)).
    reflexivity.
  - eexists. split; [reflexivity |].
    apply (proj2 (unknown_activation_layers_always_raise real_backend tanh_config eq_refl)).
    reflexivity.
Defined.



(** X9: an encoder with at least one layer, called with
    [attention_mask = None], never returns: the first layer's attention call
    reads [attention_mask.shape] (line 146) before the [is not None] test. *)
Theorem encoder_without_mask_never_returns :
  forall (B : Backend) (enc : M2M100Encoder) (input_ids : tensor Z) (w : stdout),
    enc_layers enc <> [] ->
    fails (M2M100Encoder_call enc input_ids None) w.
Proof.
  intros B enc ids w Hl. unfold M2M100Encoder_call.
  do 7 (apply fails_bind_r; intros).
  apply fails_bind_ret. apply fails_bind_l.
  destruct (enc_layers enc) as [| l rest]; [congruence |].
  cbn [encoder_layers_loop]. apply fails_bind_l.
  apply encoder_layer_call_None_fails.
Qed.

Lemma encoder_without_mask_never_returns_witness :
  exists enc,
    M2M100Encoder_init (B := real_backend) small_config None = Ok enc
    /\ fails (M2M100Encoder_call enc (mkT [1; 2] [3; 1]%Z) None) [].
Proof.
  eexists. split; [reflexivity |].
  apply (encoder_without_mask_never_returns real_backend).
  discriminate.
Defined.

(** X10: what the positional embedding returns, for ids of any shape and
    whatever is passed as [past_key_values_length]: an array with one more
    axis of width [2 * (embedding_dim // 2)], whose entry at [idx ++ [j]] is
    the scaled sine, and at [idx ++ [h + j]] the scaled cosine, of
    [input_ids[idx] * sigma_j].  An entry is a function of the id stored at
    [idx], not of the position [idx]. *)
Theorem positional_embedding_values :
  forall (B : Backend) (T : Type) (num_positions embedding_dim : Z)
         (padding_idx : option Z) (self : M2M100SinusoidalPositionalEmbedding)
         (input_ids : tensor Z) (past_key_values_length : T),
    M2M100SinusoidalPositionalEmbedding_init num_positions embedding_dim padding_idx
    = Ok self ->
    let h := Z.to_nat (embedding_dim / 2) in
    exists y,
      M2M100SinusoidalPositionalEmbedding_call self input_ids past_key_values_length = Ok y
      /\ shape y = shape input_ids ++ [h + h]
      /\ forall (idx : list nat) (j : nat),
           in_bounds (shape input_ids) idx -> j < h ->
           get s_zero y (idx ++ [j])
           = encoding_entry (weights self) s_sin (get 0%Z input_ids idx)
               (get s_zero (_sigmas (weights self)) [j])
           /\ get s_zero y (idx ++ [h + j])
              = encoding_entry (weights self) s_cos (get 0%Z input_ids idx)
                  (get s_zero (_sigmas (weights self)) [j]).
Proof.
  intros B T n d p self ids pkv Hinit h.
  unfold M2M100SinusoidalPositionalEmbedding_call.
  apply SinusoidalPositionalEncoding_call_values.
  - now apply positional_init_sigmas in Hinit.
  - now apply positional_init_cos_first in Hinit.
Qed.

Lemma positional_embedding_values_witness :
  exists self,
    M2M100SinusoidalPositionalEmbedding_init (B := real_backend) 1024 4 None = Ok self
    /\ exists y,
         M2M100SinusoidalPositionalEmbedding_call self (mkT [1; 3] [7; 7; 9]%Z) 5%Z = Ok y
         /\ shape y = [1; 3; 4]
         /\ get (s_zero (B := real_backend)) y [0; 0; 1]
            = get (s_zero (B := real_backend)) y [0; 1; 1].
Proof.
  eexists. split; [reflexivity |].
  destruct (positional_embedding_values real_backend Z 1024 4 None _
              (mkT [1; 3] [7; 7; 9]%Z) 5%Z eq_refl) as (y & Hy & Hs & Hv).
  exists y. split; [exact Hy | split; [exact Hs |]].
  destruct (Hv [0; 0] 1 ltac:(repeat split; lia) ltac:(vm_compute; lia)) as [H0 _].
  destruct (Hv [0; 1] 1 ltac:(repeat split; lia) ltac:(vm_compute; lia)) as [H1 _].
  exact (eq_trans H0 (eq_sym H1)).
Defined.

(** X12: no call of [M2M100Model] or of [M2M100ForConditionalGeneration]
    returns: when the encoder returns, the decoder raises on its first
    statement, so line 393 never receives outputs. *)
Theorem full_model_call_never_returns :
  forall (B : Backend) (self : M2M100ForConditionalGeneration)
         (input_ids : tensor Z) (attention_mask : option (tensor Z))
         (decoder_input_ids : tensor Z)
         (encoder_attention_mask decoder_attention_mask : option array)
         (past_key_values : option (list (array * array))) (w : stdout),
    fails (M2M100Model_call (model self) input_ids attention_mask decoder_input_ids
             encoder_attention_mask decoder_attention_mask past_key_values) w
    /\ fails (M2M100ForConditionalGeneration_call self input_ids attention_mask
                decoder_input_ids encoder_attention_mask decoder_attention_mask
                past_key_values) w.
Proof.
  intros. split.
  - apply model_call_never_returns.
  - apply conditional_generation_call_fails.
Qed.

(** X13: [forward_mlx] on a number of sentences other than two never
    returns.  The decoder ids and mask start with two rows (lines 82-86),
    while the mask column appended in the first pass has [len(sample_inputs)]
    rows (line 106), so the concatenation raises if the model has not
    raised before. *)
Theorem forward_mlx_needs_two_sentences :
  forall (B : Backend) (mdl : MLXModel) (tok : NllbTokenizer)
         (sample_inputs : list string) (w : stdout),
    length sample_inputs <> 2 ->
    fails (forward_mlx mdl tok sample_inputs) w.
Proof.
  intros B mdl tok sample_inputs w Hb. unfold forward_mlx, forward_mlx_steps.
  destruct (tokenize tok sample_inputs) as [input_ids attention_mask].
  apply fails_bind_r. intros enc w1.
  apply fails_bind_l. cbn [decode_loop]. apply fails_bind_l.
  now apply decode_step_batch_mismatch.
Qed.

Lemma forward_mlx_needs_two_sentences_witness :
  fails (forward_mlx forced_model two_sentence_tokenizer ["what is your name?"%string]) [].
Proof.
  apply (forward_mlx_needs_two_sentences real_backend).
  simpl. lia.
Defined.

(** X14: the decoder's layer loop (lines 356-358), taken on its own, keeps
    [layer_output[0]], which is batch row 0 of the array a layer returns.
    With one well-formed layer the loop ends with an array of shape
    [[len, d_model]]; with two or more, the second layer receives that
    two-dimensional array and its attention call raises where it unpacks
    three dimensions (line 108). *)
Theorem decoder_layer_loop_drops_batch_axis :
  forall (B : Backend) (layer : M2M100DecoderLayer) (rest : list M2M100DecoderLayer)
         (E H D F : nat) (hidden_states : array) (encoder_hidden_states : option array)
         (attention_mask encoder_attention_mask : array) (bsz len : nat) (w : stdout),
    Forall (fun l => decoder_layer_wf l E H D F) (layer :: rest) ->
    0 < bsz ->
    shape hidden_states = [bsz; len; E] ->
    (forall e, encoder_hidden_states = Some e -> shape e = [bsz; len; E]) ->
    shape attention_mask = [bsz; 1; len; len] ->
    shape encoder_attention_mask = [bsz; 1; len; len] ->
    match rest with
    | [] =>
        exists r w',
          decoder_layers_loop [layer] (VArray hidden_states) encoder_hidden_states
            (Some attention_mask) (Some encoder_attention_mask) w = (Ok (VArray r), w')
          /\ shape r = [len; E]
    | _ :: _ =>
        fst (decoder_layers_loop (layer :: rest) (VArray hidden_states)
               encoder_hidden_states (Some attention_mask)
               (Some encoder_attention_mask) w)
        = Err (ValueError "not enough values to unpack (expected 3, got 2)")
    end.
Proof.
  intros B layer rest E H D F hs ehs mask emask b t w HF Hb Hhs Hehs Hmask Hemask.
  inversion HF as [| ? ? Hl Hrest]; subst.
  destruct rest as [| l2 rest].
  - now apply decoder_layers_loop_one with (H := H) (D := D) (F := F) (b := b).
  - inversion Hrest as [| ? ? Hl2 _]; subst.
    now apply decoder_layers_loop_two with (E := E) (H := H) (D := D) (F := F) (b := b) (t := t).
Qed.

Lemma decoder_layer_loop_drops_batch_axis_witness :
  fst (decoder_layers_loop (B := real_backend)
         [decoder_layer22 real_weights22; decoder_layer22 real_weights22]
         (VArray (hidden_2 (B := real_backend) [1; 2; 3; 4]%R)) None
         (Some (mask_2x2 (B := real_backend))) (Some (mask_2x2 (B := real_backend))) [])
  = Err (ValueError "not enough values to unpack (expected 3, got 2)").
Proof.
  apply (decoder_layer_loop_drops_batch_axis real_backend
           (decoder_layer22 real_weights22) [decoder_layer22 real_weights22] 2 1 2 2
           (hidden_2 (B := real_backend) [1; 2; 3; 4]%R) None
           (mask_2x2 (B := real_backend)) (mask_2x2 (B := real_backend)) 1 2 []).
  - repeat constructor; apply decoder_layer22_wf.
  - lia.
  - reflexivity.
  - discriminate.
  - reflexivity.
  - reflexivity.
Defined.

(** X15: the constructors check nothing beyond what their parts need:
    [M2M100ForConditionalGeneration(config)] is built whenever [d_model] is
    even and at least the number of heads on each side ([>= 1]), the
    feed-forward widths are positive and the vocabulary is not negative.  No
    divisibility of [d_model] by the heads and no activation name is asked
    for. *)
Theorem conditional_generation_init_succeeds :
  forall (B : Backend) (config : ModelArgs),
    (0 < encoder_attention_heads config <= d_model config)%Z ->
    (0 < decoder_attention_heads config <= d_model config)%Z ->
    (d_model config mod 2 = 0)%Z ->
    (0 < encoder_ffn_dim config)%Z ->
    (0 < decoder_ffn_dim config)%Z ->
    (0 <= vocab_size config)%Z ->
    is_ok (M2M100ForConditionalGeneration_init config) = true.
Proof.
  intros B config He Hd Heven Hfe Hfd Hv.
  unfold M2M100ForConditionalGeneration_init, M2M100Model_init.
  apply is_ok_rbind.
  - apply is_ok_rbind.
    { unfold Embedding_init.
      destruct (Z.eqb_spec (d_model config) 0); [lia |].
      destruct (Z.ltb_spec (d_model config) 0); [lia |].
      destruct (Z.ltb_spec (vocab_size config) 0); [lia | reflexivity]. }
    intros shared. apply is_ok_rbind; [now apply encoder_init_ok | intros enc].
    apply is_ok_rbind; [now apply decoder_init_ok | intros dec]. reflexivity.
  - intros m. apply is_ok_rbind; [apply Linear_init_ok; lia | intros]. reflexivity.
Qed.

(** Six dimensions for four heads, and an activation the layers do not
    know. *)
Lemma conditional_generation_init_succeeds_witness :
  is_ok (M2M100ForConditionalGeneration_init tanh_config_6_4) = true.
Proof.
  apply (conditional_generation_init_succeeds real_backend tanh_config_6_4).
  - split; [reflexivity | discriminate].
  - split; [reflexivity | discriminate].
  - reflexivity.
  - reflexivity.
  - reflexivity.
  - discriminate.
Defined.

Section WeightsCheck.
Context {B : Backend}.

Lemma transpose_021_Ok {A : Type} (d : A) (t r : tensor A) (a b c : nat) :
  shape t = [a; b; c] -> transpose d [0; 2; 1] t = Ok r -> shape r = [a; c; b].
Proof.
  intros Hs Ht. destruct (transpose_021 d t a b c Hs) as (r' & Hr' & Hrs).
  rewrite Ht in Hr'. now inversion Hr'; subst.
Qed.

Lemma matmul_3d_3d_Ok (x y z : array) (n t k s : nat) :
  shape x = [n; t; k] -> shape y = [n; k; s] -> matmul x y = Ok z ->
  shape z = [n; t; s].
Proof.
  intros Hx Hy Hz. destruct (matmul_3d_3d x y n t k s Hx Hy) as (z' & Hz' & Hzs).
  rewrite Hz in Hz'. now inversion Hz'; subst.
Qed.

Lemma reshape_nonneg_Ok {A : Type} (args : list Z) (t r : tensor A) :
  forallb (fun z => (0 <=? z)%Z) args = true ->
  reshape args t = Ok r -> shape r = map Z.to_nat args.
Proof.
  intros Hpos Hr. apply reshape_Ok in Hr. destruct Hr as [Hr _].
  now apply infer_shape_exact in Hr.
Qed.

(** Scores that were computed always have the shape line 139 asks for. *)
Lemma attention_scores_shape (self : M2M100Attention) (hs : array)
    (kvs : option array) (pkv : option (array * array)) (w w1 : stdout) (st : scores) :
  (0 <= num_heads self)%Z -> (0 <= head_dim self)%Z ->
  attention_scores self hs kvs pkv w = (Ok st, w1) ->
  py_shape (sc_attn_weights st) = attn_weights_expected self st
  /\ sc_src_len st = sc_tgt_len st.
Proof.
  intros Hh Hd Es. unfold attention_scores in Es.
  apply bind_Ok_inv in Es. destruct Es as (u & w2 & _ & Es).
  apply bind_Ok_inv in Es. destruct Es as ([[bsz tgt] edim] & w3 & _ & Es).
  apply bind_Ok_inv in Es. destruct Es as (query & w4 & _ & Es).
  apply bind_Ok_inv in Es. destruct Es as ([key value] & w5 & _ & Es).
  apply bind_Ok_inv in Es. destruct Es as (q & w6 & _ & Es).
  apply bind_Ok_inv in Es. destruct Es as (q' & w7 & Hq & Es).
  apply lift_Ok_inv in Hq. destruct Hq as [Hq _].
  apply bind_Ok_inv in Es. destruct Es as (key' & w8 & Hk & Es).
  apply lift_Ok_inv in Hk. destruct Hk as [Hk _].
  apply bind_Ok_inv in Es. destruct Es as (value' & w9 & _ & Es).
  apply bind_Ok_inv in Es. destruct Es as (src & w10 & Hsrc & Es).
  apply lift_Ok_inv in Hsrc. destruct Hsrc as [Hsrc _].
  apply bind_Ok_inv in Es. destruct Es as (kt & w11 & Hkt & Es).
  apply lift_Ok_inv in Hkt. destruct Hkt as [Hkt _].
  apply bind_Ok_inv in Es. destruct Es as (aw & w12 & Haw & Es).
  apply lift_Ok_inv in Haw. destruct Haw as [Haw _].
  inversion Es; subst st w12; clear Es.
  assert (Hpos : forallb (fun z => (0 <=? z)%Z)
                   [(Z.of_nat bsz * num_heads self)%Z; Z.of_nat tgt; head_dim self] = true).
  { cbn [forallb]. rewrite !andb_true_r.
    repeat (apply andb_true_intro; split); apply Z.leb_le; lia. }
  apply (reshape_nonneg_Ok _ _ _ Hpos) in Hq, Hk.
  cbn [map] in Hq, Hk. rewrite Nat2Z.id in Hq, Hk.
  rewrite Hk in Hsrc. cbn [tuple_index nth_error] in Hsrc. inversion Hsrc; subst src.
  pose proof (transpose_021_Ok _ _ _ _ _ _ Hk Hkt) as Hkts.
  pose proof (matmul_3d_3d_Ok _ _ _ _ _ _ _ Hq Hkts Haw) as Haws.
  unfold attn_weights_expected, py_shape. cbn [sc_attn_weights sc_bsz sc_tgt_len sc_src_len].
  rewrite Haws. cbn [map]. rewrite Z2Nat.id by lia. split; reflexivity.
Qed.
End WeightsCheck.

(** X16: a decoder layer given encoder states whose length differs from
    the target's never returns: its cross-attention call (lines 263-268)
    raises at the reshape of the projected key. *)
Theorem decoder_layer_needs_equal_lengths :
  forall (B : Backend) (layer : M2M100DecoderLayer) (E H D F : nat)
         (hidden_states encoder_hidden_states attention_mask : array)
         (encoder_attention_mask : option array) (bsz tgt_len src_len : nat) (w : stdout),
    decoder_layer_wf layer E H D F ->
    0 < bsz ->
    shape hidden_states = [bsz; tgt_len; E] ->
    shape encoder_hidden_states = [bsz; src_len; E] ->
    src_len <> tgt_len ->
    shape attention_mask = [bsz; 1; tgt_len; tgt_len] ->
    fst (M2M100DecoderLayer_call layer hidden_states (Some encoder_hidden_states)
           (Some attention_mask) encoder_attention_mask w)
    = Err (ValueError "[reshape] Cannot reshape array").
Proof.
  intros B l E H D F hs e mask emask b t s w (Hattn & Hln1 & Hcross & Hln2 & _) Hb Hhs He Hne Hmask.
  destruct (LayerNorm_call_3d _ hs b t E Hln1 Hhs) as (n1 & Hn1 & Hn1s).
  destruct (attention_call_returns _ E H D Hattn n1 None mask b t w Hb Hn1s
              ltac:(discriminate) Hmask) as (ao & w1 & Hao & Haos).
  destruct (add_same_shape ao hs ltac:(congruence)) as (r1 & Hr1 & Hr1s).
  rewrite Haos in Hr1s.
  destruct (LayerNorm_call_3d _ r1 b t E Hln2 Hr1s) as (n2 & Hn2 & Hn2s).
  pose proof (cross_attention_length_mismatch (dl_encoder_attn l) E H D n2 e emask
                b t s w1 Hcross Hb Hn2s He Hne) as Hc.
  unfold M2M100DecoderLayer_call. rewrite Hn1, bind_lift_Ok.
  rewrite (bind_ok _ _ _ _ _ Hao). cbn [py_add]. rewrite Hr1, bind_lift_Ok.
  destruct (M2M100Attention_call (dl_encoder_attn l) n2 (Some e) None emask w1)
    as [[v | ex] w2] eqn:Ec; simpl in Hc; [discriminate |].
  inversion Hc; subst ex.
  assert (Hmid : (hidden_states <-
                    lift (LayerNorm_call (dl_encoder_attn_layer_norm l) r1) ;;
                  attn <- M2M100Attention_call (dl_encoder_attn l) hidden_states
                            (Some e) None emask ;;
                  lift (py_add attn r1)) w1
                 = (Err (ValueError "[reshape] Cannot reshape array"), w2)).
  { rewrite Hn2, bind_lift_Ok. now rewrite (bind_err _ _ _ _ _ Ec). }
  now rewrite (bind_err _ _ _ _ _ Hmid).
Qed.

Lemma decoder_layer_needs_equal_lengths_witness :
  fst (M2M100DecoderLayer_call (B := real_backend) (decoder_layer22 real_weights22)
         (hidden_1 (B := real_backend) [1; 2]%R)
         (Some (hidden_2 (B := real_backend) [5; 6; 7; 8]%R))
         (Some (mask_1x1 (B := real_backend))) (Some (mask_1x2 (B := real_backend))) [])
  = Err (ValueError "[reshape] Cannot reshape array").
Proof.
  apply (decoder_layer_needs_equal_lengths real_backend (decoder_layer22 real_weights22)
           2 1 2 2 (hidden_1 (B := real_backend) [1; 2]%R)
           (hidden_2 (B := real_backend) [5; 6; 7; 8]%R)
           (mask_1x1 (B := real_backend)) (Some (mask_1x2 (B := real_backend))) 1 1 2 []).
  - apply decoder_layer22_wf.
  - lia.
  - reflexivity.
  - reflexivity.
  - lia.
  - reflexivity.
Defined.

(** X17: the first shape check of the attention call (lines 139-143)
    never fires when [num_heads] and [head_dim] are not negative: whenever
    the scores are computed, on any of the four key/value paths, their shape
    is [(bsz * num_heads, tgt_len, src_len)], with [src_len = tgt_len]. *)
Theorem attention_weights_check_always_passes :
  forall (B : Backend) (self : M2M100Attention) (hidden_states : array)
         (key_value_states : option array) (past_key_value : option (array * array))
         (w w1 : stdout) (st : scores),
    (0 <= num_heads self)%Z ->
    (0 <= head_dim self)%Z ->
    attention_scores self hidden_states key_value_states past_key_value w = (Ok st, w1) ->
    check_attn_weights self st w1 = (Ok tt, w1)
    /\ sc_src_len st = sc_tgt_len st.
Proof.
  intros B self hs kvs pkv w w1 st Hh Hd Hs.
  destruct (attention_scores_shape self hs kvs pkv w w1 st Hh Hd Hs) as [Hshape Hlen].
  split; [| exact Hlen].
  unfold check_attn_weights.
  destruct (list_eq_dec Z.eq_dec _ _) as [_ | n]; [reflexivity | contradiction].
Qed.

Lemma attention_weights_check_always_passes_witness :
  exists st w1,
    attention_scores (B := real_backend) (attention22 true real_weights22)
      (hidden_2 (B := real_backend) [1; 2; 3; 4]%R) None None [] = (Ok st, w1)
    /\ check_attn_weights (attention22 true real_weights22) st w1 = (Ok tt, w1)
    /\ sc_src_len st = sc_tgt_len st.
Proof.
  destruct (attention_scores_returns (B := real_backend) (attention22 true real_weights22)
              2 1 2 (attention22_wf real_backend true real_weights22)
              (hidden_2 (B := real_backend) [1; 2; 3; 4]%R) None 1 2 []
              ltac:(lia) eq_refl ltac:(discriminate)) as (st & w1 & Hs & _).
  exists st, w1. split; [exact Hs |].
  apply (attention_weights_check_always_passes real_backend
           (attention22 true real_weights22)
           (hidden_2 (B := real_backend) [1; 2; 3; 4]%R) None None [] w1 st).
  - discriminate.
  - discriminate.
  - exact Hs.
Defined.
